(** * The task queue and machine-lease scheduler of lib/cuckoo/core/database.py

    A shallow embedding of the [Database] class: the rows of the [tasks],
    [samples] and [machines] tables are records, a table is the list of its
    rows in scan order, and every method is a function in a small state and
    exception monad over the committed store, the log and the file system.

    Conventions.
    - A Python [int] is a [Z]; a nullable column or an argument that may be
      [None] is an [option]; a [datetime] keeps its calendar fields.
    - The many-to-many [tags] relations are kept on the row as the list of tag
      names: the [after_flush] hook deletes every tag without a task or a
      machine, so the [tags] table is determined by the associations.
    - The statistics columns of [Task], which no method below reads or
      writes, are left out.
    - A store call (query, commit, refresh) can raise [SQLAlchemyError] for
      reasons outside the program; the world carries the list of these
      outcomes, consumed one per store call ([true] = the call raises). *)

From Stdlib Require Import ZArith List String Ascii Bool Lia.
From Stdlib Require Import Sorting.Sorted.
Import ListNotations.

Open Scope string_scope.
Open Scope Z_scope.

(** ** Python values *)

(** Truth value of an argument that is [None] or a string. *)
Definition truthy (o : option string) : bool :=
  match o with
  | Some s => negb (String.eqb s "")
  | None => false
  end.

(** [not n] for an argument that is [None] or an int. *)
Definition falsy_int (o : option Z) : bool :=
  match o with
  | Some n => n =? 0
  | None => true
  end.

Definition opt_eqb {A} (eqb : A -> A -> bool) (a b : option A) : bool :=
  match a, b with
  | Some x, Some y => eqb x y
  | None, None => true
  | _, _ => false
  end.

(** ** datetime *)

Record datetime : Type := mkdt
  { year : Z; month : Z; day : Z;
    hour : Z; minute : Z; second : Z; microsecond : Z }.

(** [datetime.utcfromtimestamp(0)] *)
Definition epoch : datetime := mkdt 1970 1 1 0 0 0 0.

Definition dt_fields (d : datetime) : list Z :=
  [year d; month d; day d; hour d; minute d; second d; microsecond d].

Fixpoint lex_leb (xs ys : list Z) : bool :=
  match xs, ys with
  | [], _ => true
  | _ :: _, [] => false
  | x :: xs', y :: ys' => (x <? y) || ((x =? y) && lex_leb xs' ys')
  end.

(** [a <= b] on datetimes. *)
Definition dt_leb (a b : datetime) : bool := lex_leb (dt_fields a) (dt_fields b).

(** ** Status values *)

Inductive Status : Type :=
  | TASK_PENDING
  | TASK_RUNNING
  | TASK_COMPLETED
  | TASK_RECOVERED
  | TASK_REPORTED
  | TASK_FAILED_ANALYSIS
  | TASK_FAILED_PROCESSING
  | TASK_FAILED_REPORTING
  | TASK_DISTRIBUTED_COMPLETED.

Definition status_eqb (a b : Status) : bool :=
  match a, b with
  | TASK_PENDING, TASK_PENDING
  | TASK_RUNNING, TASK_RUNNING
  | TASK_COMPLETED, TASK_COMPLETED
  | TASK_RECOVERED, TASK_RECOVERED
  | TASK_REPORTED, TASK_REPORTED
  | TASK_FAILED_ANALYSIS, TASK_FAILED_ANALYSIS
  | TASK_FAILED_PROCESSING, TASK_FAILED_PROCESSING
  | TASK_FAILED_REPORTING, TASK_FAILED_REPORTING
  | TASK_DISTRIBUTED_COMPLETED, TASK_DISTRIBUTED_COMPLETED => true
  | _, _ => false
  end.

(** [obj.__class__.__name__.lower()] of the four submission objects. *)
Inductive Category : Type := CatFile | CatUrl | CatPcap | CatStatic.

(** ** Rows *)

Module Machine.
Record t : Type := mk
  { id : Z;
    name : string;
    label : string;
    ip : string;
    platform : string;
    tags : list string;
    interface : option string;
    snapshot : option string;
    locked : bool;
    locked_changed_on : option datetime;
    status : option string;
    status_changed_on : option datetime;
    resultserver_ip : string;
    resultserver_port : string }.

Definition set_lock (b : bool) (now : datetime) (m : t) : t :=
  mk (id m) (name m) (label m) (ip m) (platform m) (tags m) (interface m)
     (snapshot m) b (Some now) (status m) (status_changed_on m)
     (resultserver_ip m) (resultserver_port m).
End Machine.

Module Sample.
Record t : Type := mk
  { id : Z;
    file_size : Z;
    file_type : string;
    md5 : string;
    crc32 : string;
    sha1 : string;
    sha256 : string;
    sha512 : string;
    ssdeep : option string;
    parent : option Z }.
End Sample.

Module Task.
Record t : Type := mk
  { id : Z;
    target : string;
    category : Category;
    timeout : Z;
    priority : Z;
    custom : option string;
    machine : option string;
    package : option string;
    tags : list string;
    options : option string;
    platform : option string;
    memory : bool;
    enforce_timeout : bool;
    clock : datetime;
    added_on : datetime;
    started_on : option datetime;
    completed_on : option datetime;
    status : Status;
    sample_id : option Z;
    shrike_url : option string;
    shrike_refer : option string;
    shrike_msg : option string;
    shrike_sid : option Z;
    parent_id : option Z }.

Definition set_status (s : Status) (r : t) : t :=
  mk (id r) (target r) (category r) (timeout r) (priority r) (custom r)
     (machine r) (package r) (tags r) (options r) (platform r) (memory r)
     (enforce_timeout r) (clock r) (added_on r) (started_on r)
     (completed_on r) s (sample_id r) (shrike_url r) (shrike_refer r)
     (shrike_msg r) (shrike_sid r) (parent_id r).

Definition set_started_on (d : option datetime) (r : t) : t :=
  mk (id r) (target r) (category r) (timeout r) (priority r) (custom r)
     (machine r) (package r) (tags r) (options r) (platform r) (memory r)
     (enforce_timeout r) (clock r) (added_on r) d
     (completed_on r) (status r) (sample_id r) (shrike_url r)
     (shrike_refer r) (shrike_msg r) (shrike_sid r) (parent_id r).

Definition set_completed_on (d : option datetime) (r : t) : t :=
  mk (id r) (target r) (category r) (timeout r) (priority r) (custom r)
     (machine r) (package r) (tags r) (options r) (platform r) (memory r)
     (enforce_timeout r) (clock r) (added_on r) (started_on r)
     d (status r) (sample_id r) (shrike_url r)
     (shrike_refer r) (shrike_msg r) (shrike_sid r) (parent_id r).
End Task.

(** ** The world: committed store, file system, log, store-call outcomes *)

Record Store : Type := mkStore
  { machines : list Machine.t;
    samples : list Sample.t;
    tasks : list Task.t }.

(** What [File(path)] computes from the bytes at [path]: the identity record
    of the content. *)
Record FileInfo : Type := mkInfo
  { get_size : Z;
    get_type : string;
    get_md5 : string;
    get_crc32 : string;
    get_sha1 : string;
    get_sha256 : string;
    get_sha512 : string;
    get_ssdeep : option string }.

Inductive LogLevel : Type := DEBUG | INFO | WARNING | ERROR.

Record World : Type := mkWorld
  { db : Store;
    fs : string -> option FileInfo;
    log : list (LogLevel * string);
    faults : list bool }.

Definition with_db (s : Store) (w : World) : World :=
  mkWorld s (fs w) (log w) (faults w).

Definition with_log (l : list (LogLevel * string)) (w : World) : World :=
  mkWorld (db w) (fs w) l (faults w).

Definition with_faults (f : list bool) (w : World) : World :=
  mkWorld (db w) (fs w) (log w) f.

(** ** Exceptions and the monad *)

Inductive Exn : Type :=
  | SQLAlchemyError
  | IntegrityError          (* a subclass of SQLAlchemyError *)
  | CuckooOperationalError (msg : string)
  | AttributeError
  | OSError.

Definition is_SQLAlchemyError (e : Exn) : bool :=
  match e with
  | SQLAlchemyError | IntegrityError => true
  | _ => false
  end.

Inductive Outcome (A : Type) : Type :=
  | Return (a : A)
  | Raise (e : Exn).
Arguments Return {A} a.
Arguments Raise {A} e.

Definition M (A : Type) : Type := World -> Outcome A * World.

Definition ret {A} (a : A) : M A := fun w => (Return a, w).

Definition raise {A} (e : Exn) : M A := fun w => (Raise e, w).

Definition bind {A B} (m : M A) (k : A -> M B) : M B :=
  fun w =>
    match m w with
    | (Return a, w') => k a w'
    | (Raise e, w') => (Raise e, w')
    end.

Declare Scope db_scope.
Delimit Scope db_scope with db.
Notation "x <- m ;; k" := (bind m (fun x => k))
  (at level 100, m at next level, right associativity) : db_scope.
Notation "m ;;; k" := (bind m (fun _ => k))
  (at level 100, right associativity) : db_scope.
Open Scope db_scope.

(** [try: m  except SQLAlchemyError: h] *)
Definition except_SQLAlchemyError {A} (m : M A) (h : M A) : M A :=
  fun w =>
    match m w with
    | (Raise e, w') => if is_SQLAlchemyError e then h w' else (Raise e, w')
    | r => r
    end.

(** [try: m  except IntegrityError: h1  except SQLAlchemyError: h2] *)
Definition except_IntegrityError {A} (m : M A) (h1 h2 : M A) : M A :=
  fun w =>
    match m w with
    | (Raise IntegrityError, w') => h1 w'
    | (Raise SQLAlchemyError, w') => h2 w'
    | r => r
    end.

Definition get_db : M Store := fun w => (Return (db w), w).

Definition logmsg (lvl : LogLevel) (msg : string) : M unit :=
  fun w => (Return tt, with_log (log w ++ [(lvl, msg)]) w).

(** One round trip to the store: raises when the environment says so. *)
Definition store_call : M unit :=
  fun w =>
    match faults w with
    | true :: rest => (Raise SQLAlchemyError, with_faults rest w)
    | false :: rest => (Return tt, with_faults rest w)
    | [] => (Return tt, w)
    end.

(** [session.query(...)]: a read of the committed store. *)
Definition query {A} (f : Store -> A) : M A :=
  store_call ;;; s <- get_db ;; ret (f s).

(** [session.commit()] of the pending changes [f]; nothing is written when
    the call raises, which is what the [rollback] of the handlers restores. *)
Definition commit (f : Store -> Store) : M unit :=
  store_call ;;; fun w => (Return tt, with_db (f (db w)) w).

(** ** Table helpers *)

(** [UPDATE ... WHERE key = i]: the rows with key [i] are rewritten by [f]. *)
Definition rewrite_row {A} (key : A -> Z) (i : Z) (f : A -> A) (l : list A)
    : list A :=
  map (fun r => if key r =? i then f r else r) l.

Definition get_task (task_id : Z) (s : Store) : option Task.t :=
  find (fun r => Task.id r =? task_id) (tasks s).

Definition update_task (task_id : Z) (f : Task.t -> Task.t) (s : Store) : Store :=
  mkStore (machines s) (samples s) (rewrite_row Task.id task_id f (tasks s)).

Definition get_machine (machine_id : Z) (s : Store) : option Machine.t :=
  find (fun m => Machine.id m =? machine_id) (machines s).

Definition update_machine (machine_id : Z) (f : Machine.t -> Machine.t)
    (s : Store) : Store :=
  mkStore (rewrite_row Machine.id machine_id f (machines s))
          (samples s) (tasks s).

(** [ORDER BY]: a stable insertion sort of the rows in scan order. *)
Fixpoint insert_by {A} (le : A -> A -> bool) (x : A) (l : list A) : list A :=
  match l with
  | [] => [x]
  | y :: l' => if le x y then x :: y :: l' else y :: insert_by le x l'
  end.

Definition order_by {A} (le : A -> A -> bool) (l : list A) : list A :=
  fold_right (insert_by le) [] l.

(** [.first()] *)
Definition first {A} (l : list A) : option A := hd_error l.

(** ** Database.set_status *)

Definition set_status_row (status : Status) (now : datetime) (row : Task.t)
    : Task.t :=
  let row :=
    if negb (status_eqb status TASK_DISTRIBUTED_COMPLETED)
    then Task.set_status status row else row in
  if status_eqb status TASK_RUNNING then
    Task.set_started_on (Some now) row
  else if status_eqb status TASK_COMPLETED
          || status_eqb status TASK_DISTRIBUTED_COMPLETED then
    Task.set_completed_on (Some now) row
  else row.

Definition set_status (task_id : Z) (status : Status) (now : datetime)
    : M unit :=
  except_SQLAlchemyError
    (row <- query (get_task task_id) ;;
     match row with
     | None => ret tt
     | Some _ => commit (update_task task_id (set_status_row status now))
     end)
    (logmsg DEBUG "Database error setting status").

(** ** Database.fetch *)

(** ["priority desc, added_on"] *)
Definition priority_desc_added_on (a b : Task.t) : bool :=
  (Task.priority b <? Task.priority a)
  || ((Task.priority a =? Task.priority b)
      && dt_leb (Task.added_on a) (Task.added_on b)).

Definition is_pending (r : Task.t) : bool :=
  status_eqb (Task.status r) TASK_PENDING.

Definition fetch_filter (machine : option string) (r : Task.t) : bool :=
  if negb (opt_eqb String.eqb machine (Some ""))
  then is_pending r && opt_eqb String.eqb (Task.machine r) machine
  else is_pending r.

Definition fetch_query (machine : option string) (s : Store) : option Task.t :=
  first (order_by priority_desc_added_on
                  (filter (fetch_filter machine) (tasks s))).

(** [session.refresh(row)]: reload by primary key. *)
Definition refresh_task (row : Task.t) : M Task.t :=
  r <- query (get_task (Task.id row)) ;;
  match r with
  | Some row' => ret row'
  | None => raise SQLAlchemyError
  end.

Definition fetch (lock : bool) (machine : option string) (now : datetime)
    : M (option Task.t) :=
  except_SQLAlchemyError
    (row <- query (fetch_query machine) ;;
     match row with
     | None => ret None
     | Some row =>
         if lock then
           set_status (Task.id row) TASK_RUNNING now ;;;
           row' <- refresh_task row ;;
           ret (Some row')
         else ret (Some row)
     end)
    (logmsg DEBUG "Database error fetching task" ;;; ret None).

(** ** Database.lock_machine *)

Definition has_tag (m : Machine.t) (tag : string) : bool :=
  existsb (String.eqb tag) (Machine.tags m).

(** The query built by the three [if] blocks: every supplied criterion
    narrows it. [tags] is the list of the names of the requested tags; [None]
    and the empty list behave alike and are both the empty list here. *)
Definition lock_machine_filter (label platform : option string)
    (tags : list string) (m : Machine.t) : bool :=
  (if truthy label then opt_eqb String.eqb (Some (Machine.label m)) label
   else true)
  && (if truthy platform
      then opt_eqb String.eqb (Some (Machine.platform m)) platform
      else true)
  && forallb (has_tag m) tags.

Definition is_unlocked (m : Machine.t) : bool := negb (Machine.locked m).

Definition nonempty {A} (l : list A) : bool :=
  match l with
  | [] => false
  | _ :: _ => true
  end.

Definition refresh_machine (m : Machine.t) : M Machine.t :=
  r <- query (get_machine (Machine.id m)) ;;
  match r with
  | Some m' => ret m'
  | None => raise SQLAlchemyError
  end.

Definition lock_machine (label platform : option string) (tags : list string)
    (now : datetime) : M (option Machine.t) :=
  if truthy label && truthy platform then
    logmsg ERROR "You can select machine only by label or by platform." ;;;
    ret None
  else if truthy label && nonempty tags then
    logmsg ERROR "You can select machine only by label or by tags." ;;;
    ret None
  else
    machine <-
      except_SQLAlchemyError
        (n <- query (fun s =>
                List.length (filter (lock_machine_filter label platform tags)
                               (machines s))) ;;
         match n with
         | O => raise (CuckooOperationalError
                         "No machines match selection criteria.")
         | S _ =>
             query (fun s =>
               first (filter is_unlocked
                        (filter (lock_machine_filter label platform tags)
                                (machines s))))
         end)
        (logmsg DEBUG "Database error locking machine" ;;; ret None) ;;
    match machine with
    | Some m =>
        except_SQLAlchemyError
          (commit (update_machine (Machine.id m) (Machine.set_lock true now)) ;;;
           m' <- refresh_machine m ;;
           ret (Some m'))
          (logmsg DEBUG "Database error locking machine" ;;; ret None)
    | None => ret None
    end.

(** ** Submission objects (lib/cuckoo/common/objects.py) *)

Inductive Obj : Type :=
  | File (file_path : string)
  | PCAP (file_path : string)
  | Static (file_path : string)      (* class Static(File) *)
  | URL (url : string).

Definition category_of (obj : Obj) : Category :=
  match obj with
  | File _ => CatFile
  | PCAP _ => CatPcap
  | Static _ => CatStatic
  | URL _ => CatUrl
  end.

(** [os.path.exists(path)] *)
Definition path_exists (w : World) (path : string) : bool :=
  match fs w path with
  | Some _ => true
  | None => false
  end.

(** The getters of [File(path)]; reading a missing file raises. *)
Definition file_info (path : string) : M FileInfo :=
  fun w =>
    match fs w path with
    | Some i => (Return i, w)
    | None => (Raise OSError, w)
    end.

(** ** String helpers *)

(** [sub in s] *)
Fixpoint contains (sub s : string) : bool :=
  String.prefix sub s
  || match s with
     | EmptyString => false
     | String _ rest => contains sub rest
     end.

(** [s.replace(" ", "")] *)
Fixpoint remove_spaces (s : string) : string :=
  match s with
  | EmptyString => EmptyString
  | String c rest =>
      if Ascii.eqb c " " then remove_spaces rest
      else String c (remove_spaces rest)
  end.

(** [s.split(c)] *)
Fixpoint split (c : ascii) (s : string) : list string :=
  match s with
  | EmptyString => [""]
  | String a rest =>
      if Ascii.eqb a c then "" :: split c rest
      else match split c rest with
           | h :: t => String a h :: t
           | [] => [String a ""]
           end
  end.

(** [tags.replace(" ", "").split(",")] *)
Definition tag_names (tags : string) : list string :=
  split "," (remove_spaces tags).

(** [",".join(names)] *)
Definition join_names (names : list string) : string :=
  String.concat "," names.

(** ** datetime.strptime(clock, "%m-%d-%Y %H:%M:%S")

    The standard library turns the format into the regular expression
    [(1[0-2]|0[1-9]|[1-9])-(3[0-1]|[1-2]\d|0[1-9]|[1-9]| [1-9])-(\d\d\d\d)\s+
     (2[0-3]|[0-1]\d|\d):([0-5]\d|\d):(6[0-1]|[0-5]\d|\d)],
    takes its first match at the start of the string, raises [ValueError] when
    there is none or when text remains after it, and then builds the date,
    which raises [ValueError] for a day the month does not have, for year 0
    and for seconds 60 and 61. A parser yields its matches in the order the
    backtracking matcher tries them. *)

Module Strptime.

Definition Parser (A : Type) : Type := string -> list (A * string).

Definition pret {A} (a : A) : Parser A := fun s => [(a, s)].

Definition pbind {A B} (p : Parser A) (k : A -> Parser B) : Parser B :=
  fun s => flat_map (fun r => k (fst r) (snd r)) (p s).

Definition alt {A} (p q : Parser A) : Parser A := fun s => (p s ++ q s)%list.

Definition digit_value (c : ascii) : Z := Z.of_nat (nat_of_ascii c) - 48.

(** One character of the class [[lo-hi]]. *)
Definition digit (lo hi : Z) : Parser Z :=
  fun s =>
    match s with
    | String c rest =>
        let v := digit_value c in
        if (lo <=? v) && (v <=? hi) then [(v, rest)] else []
    | EmptyString => []
    end.

Definition two_digits (lo1 hi1 lo2 hi2 : Z) : Parser Z :=
  pbind (digit lo1 hi1) (fun a =>
  pbind (digit lo2 hi2) (fun b => pret (10 * a + b))).

Definition lit (c : ascii) : Parser unit :=
  fun s =>
    match s with
    | String c' rest => if Ascii.eqb c c' then [(tt, rest)] else []
    | EmptyString => []
    end.

(** [\s] on a byte string: space, \t, \n, \v, \f, \r. *)
Definition is_space (c : ascii) : bool :=
  let n := nat_of_ascii c in
  (Nat.eqb n 32) || ((Nat.leb 9 n) && (Nat.leb n 13)).

(** [\s+], greedy: the longest run first. *)
Fixpoint spaces (s : string) : list (unit * string) :=
  match s with
  | String c rest => if is_space c then (spaces rest ++ [(tt, rest)])%list else []
  | EmptyString => []
  end.

Definition re_m : Parser Z :=
  alt (two_digits 1 1 0 2) (alt (two_digits 0 0 1 9) (digit 1 9)).

Definition re_d : Parser Z :=
  alt (two_digits 3 3 0 1)
 (alt (two_digits 1 2 0 9)
 (alt (two_digits 0 0 1 9)
 (alt (digit 1 9)
      (pbind (lit " ") (fun _ => digit 1 9))))).

Definition re_Y : Parser Z :=
  pbind (digit 0 9) (fun a =>
  pbind (digit 0 9) (fun b =>
  pbind (digit 0 9) (fun c =>
  pbind (digit 0 9) (fun d => pret (1000 * a + 100 * b + 10 * c + d))))).

Definition re_H : Parser Z :=
  alt (two_digits 2 2 0 3) (alt (two_digits 0 1 0 9) (digit 0 9)).

Definition re_M : Parser Z :=
  alt (two_digits 0 5 0 9) (digit 0 9).

Definition re_S : Parser Z :=
  alt (two_digits 6 6 0 1) (alt (two_digits 0 5 0 9) (digit 0 9)).

Definition format_regex : Parser datetime :=
  pbind re_m (fun m =>
  pbind (lit "-") (fun _ =>
  pbind re_d (fun d =>
  pbind (lit "-") (fun _ =>
  pbind re_Y (fun Y =>
  pbind spaces (fun _ =>
  pbind re_H (fun H =>
  pbind (lit ":") (fun _ =>
  pbind re_M (fun Mi =>
  pbind (lit ":") (fun _ =>
  pbind re_S (fun S => pret (mkdt Y m d H Mi S 0)))))))))))).

Definition is_leap (y : Z) : bool :=
  (y mod 4 =? 0) && (negb (y mod 100 =? 0) || (y mod 400 =? 0)).

Definition days_in_month (y m : Z) : Z :=
  if m =? 2 then (if is_leap y then 29 else 28)
  else if (m =? 4) || (m =? 6) || (m =? 9) || (m =? 11) then 30
  else 31.

(** The range checks of the [date] and [datetime] constructors. *)
Definition valid (d : datetime) : bool :=
  (1 <=? year d) && (year d <=? 9999)
  && (1 <=? month d) && (month d <=? 12)
  && (1 <=? day d) && (day d <=? days_in_month (year d) (month d))
  && (0 <=? hour d) && (hour d <=? 23)
  && (0 <=? minute d) && (minute d <=? 59)
  && (0 <=? second d) && (second d <=? 59).

(** [None] is [ValueError]. *)
Definition strptime (data_string : string) : option datetime :=
  match format_regex data_string with
  | [] => None
  | (d, rest) :: _ =>
      if String.eqb rest "" then (if valid d then Some d else None)
      else None
  end.

End Strptime.

(** ** Arguments of the submission methods *)

(** A [clock] argument is a string or a [datetime]. *)
Inductive ClockArg : Type :=
  | ClockStr (s : string)
  | ClockDt (d : datetime).

Module Args.
Record t : Type := mk
  { timeout : option Z;
    package : option string;
    options : option string;
    priority : option Z;
    custom : option string;
    machine : option string;
    platform : option string;
    tags : option string;
    memory : bool;
    enforce_timeout : bool;
    clock : option ClockArg;
    shrike_url : option string;
    shrike_msg : option string;
    shrike_sid : option Z;
    shrike_refer : option string;
    parent_id : option Z;
    sample_parent_id : option Z;
    static : bool }.

(** The defaults of [add]. *)
Definition defaults : t :=
  mk (Some 0) (Some "") (Some "") (Some 1) (Some "") (Some "") (Some "")
     None false false None None None None None None None false.

Definition set_priority (p : option Z) (a : t) : t :=
  mk (timeout a) (package a) (options a) p (custom a) (machine a)
     (platform a) (tags a) (memory a) (enforce_timeout a) (clock a)
     (shrike_url a) (shrike_msg a) (shrike_sid a) (shrike_refer a)
     (parent_id a) (sample_parent_id a) (static a).

Definition set_clock (c : option ClockArg) (a : t) : t :=
  mk (timeout a) (package a) (options a) (priority a) (custom a) (machine a)
     (platform a) (tags a) (memory a) (enforce_timeout a) c
     (shrike_url a) (shrike_msg a) (shrike_sid a) (shrike_refer a)
     (parent_id a) (sample_parent_id a) (static a).

(** What a wrapper hands to [add] in the last two positions. *)
Definition set_tail (spid : option Z) (st : bool) (a : t) : t :=
  mk (timeout a) (package a) (options a) (priority a) (custom a) (machine a)
     (platform a) (tags a) (memory a) (enforce_timeout a) (clock a)
     (shrike_url a) (shrike_msg a) (shrike_sid a) (shrike_refer a)
     (parent_id a) spid st.
End Args.

(** ** Sample rows: insertion under the unique index on sha256 *)

(** The key an insert receives: one more than the largest key in the table. *)
Definition next_id (ids : list Z) : Z := 1 + fold_right Z.max 0 ids.

(** [Sample(md5=..., ..., parent=parent)]: [ssdeep] and [parent] are only set
    when they are true values. *)
Definition sample_of (id : Z) (i : FileInfo) (parent : option Z) : Sample.t :=
  Sample.mk id (get_size i) (get_type i) (get_md5 i) (get_crc32 i)
    (get_sha1 i) (get_sha256 i) (get_sha512 i)
    (if truthy (get_ssdeep i) then get_ssdeep i else None)
    (match parent with
     | Some p => if p =? 0 then None else Some p
     | None => None
     end).

Definition has_sha256 (h : string) (s : Store) : bool :=
  existsb (fun r => String.eqb (Sample.sha256 r) h) (samples s).

Definition insert_sample (row : Sample.t) (s : Store) : Store :=
  mkStore (machines s) (samples s ++ [row]) (tasks s).

(** [session.add(sample); session.commit()]. The insert violates a
    constraint when the sha256 is already in the table ([sha256_index] is
    unique) or when [file_type], which the constructor leaves unset for an
    empty type, is NULL. *)
Definition commit_sample (i : FileInfo) (parent : option Z) : M Sample.t :=
  store_call ;;;
  s <- get_db ;;
  if String.eqb (get_type i) "" || has_sha256 (get_sha256 i) s then
    raise IntegrityError
  else
    let row := sample_of (next_id (map Sample.id (samples s))) i parent in
    (fun w => (Return row, with_db (insert_sample row (db w)) w)).

(** [session.query(Sample).filter_by(md5=file_md5).first()] *)
Definition sample_by_md5 (h : string) (s : Store) : option Sample.t :=
  first (filter (fun r => String.eqb (Sample.md5 r) h) (samples s)).

(** The [try] block shared by [register_sample] and [add]. The result is
    [None] when a handler returns [None] from the method; otherwise it is the
    value of the variable [sample], which the re-read can leave at [None]. *)
Definition commit_or_reread (i : FileInfo) (parent : option Z)
    : M (option (option Sample.t)) :=
  except_IntegrityError
    (row <- commit_sample i parent ;; ret (Some (Some row)))
    (except_SQLAlchemyError
       (r <- query (sample_by_md5 (get_md5 i)) ;; ret (Some r))
       (logmsg DEBUG "Error querying sample for hash" ;;; ret None))
    (logmsg DEBUG "Database error adding task" ;;; ret None).

(** ** Database.register_sample *)

Definition register_sample_path (path : string) : M (option Z) :=
  i <- file_info path ;;
  r <- commit_or_reread i None ;;
  match r with
  | None => ret None
  | Some None => raise AttributeError      (* sample.id on None *)
  | Some (Some row) => ret (Some (Sample.id row))
  end.

Definition register_sample (obj : Obj) : M (option Z) :=
  match obj with
  | File path | PCAP path | Static path => register_sample_path path
  | URL _ => ret None
  end.

(** ** Database.add *)

(** [_get_or_create(session, Tag, name=tag)] for every name: one query each,
    outside any [try]. *)
Fixpoint get_or_create_tags (names : list string) : M (list string) :=
  match names with
  | [] => ret []
  | n :: rest =>
      store_call ;;;
      rest' <- get_or_create_tags rest ;;
      ret (n :: rest')
  end.

Definition resolve_clock (clock : option ClockArg) : M datetime :=
  match clock with
  | Some (ClockStr s) =>
      if String.eqb s "" then ret epoch
      else match Strptime.strptime s with
           | Some d => ret d
           | None =>
               logmsg WARNING
                 "The date you specified has an invalid format, using current timestamp." ;;;
               ret epoch
           end
  | Some (ClockDt d) => ret d
  | None => ret epoch
  end.

Definition insert_task (row : Task.t) (s : Store) : Store :=
  mkStore (machines s) (samples s) (tasks s ++ [row]).

Definition next_task_id (s : Store) : Z := next_id (map Task.id (tasks s)).

(** The row [add] builds; [added_on] and [status] take the column defaults. *)
Definition task_row (id : Z) (target : string) (obj : Obj) (a : Args.t)
    (sample_id : option Z) (started_on : option datetime)
    (tags : list string) (clock now : datetime) : Task.t :=
  Task.mk id target (category_of obj)
    (if falsy_int (Args.timeout a) then 0
     else match Args.timeout a with Some n => n | None => 0 end)
    (if falsy_int (Args.priority a) then 1
     else match Args.priority a with Some n => n | None => 1 end)
    (Args.custom a) (Args.machine a) (Args.package a) tags (Args.options a)
    (Args.platform a) (Args.memory a) (Args.enforce_timeout a) clock now
    started_on None TASK_PENDING sample_id (Args.shrike_url a)
    (Args.shrike_refer a) (Args.shrike_msg a) (Args.shrike_sid a)
    (Args.parent_id a).

(** The [64_bit] tag forced on PE32+ files with no machine requested. *)
Definition force_64_bit (file_type : string) (machine tags : option string)
    : option string :=
  if contains "PE32+" file_type && negb (truthy machine) then
    match tags with
    | Some t => if String.eqb t "" then Some "64_bit"
                else Some (t ++ ",64_bit")%string
    | None => Some "64_bit"
    end
  else tags.

(** The names the loop [if tags: for tag in ...] visits. *)
Definition requested_names (tags : option string) : list string :=
  match tags with
  | Some t => if String.eqb t "" then [] else tag_names t
  | None => []
  end.

(** The part of [add] after the sample has been resolved. *)
Definition add_task (target : string) (obj : Obj) (a : Args.t)
    (sample_id : option Z) (started_on : option datetime)
    (tags : option string) (now : datetime) : M (option Z) :=
  names <- get_or_create_tags (requested_names tags) ;;
  clock <- resolve_clock (Args.clock a) ;;
  except_SQLAlchemyError
    (store_call ;;;
     s <- get_db ;;
     let row := task_row (next_task_id s) target obj a sample_id started_on
                         names clock now in
     (fun w => (Return (Some (Task.id row)), with_db (insert_task row (db w)) w)))
    (logmsg DEBUG "Database error adding task" ;;; ret None).

Definition add_file (path : string) (obj : Obj) (a : Args.t) (now : datetime)
    : M (option Z) :=
  i <- file_info path ;;
  r <- commit_or_reread i (Args.sample_parent_id a) ;;
  match r with
  | None => ret None
  | Some sample =>
      let tags := force_64_bit (get_type i) (Args.machine a) (Args.tags a) in
      match sample with
      | None => raise AttributeError       (* sample.id on None *)
      | Some row =>
          add_task path obj a (Some (Sample.id row))
            (match obj with
             | PCAP _ | Static _ => Some now
             | _ => None
             end)
            tags now
      end
  end.

Definition add (obj : Obj) (a : Args.t) (now : datetime) : M (option Z) :=
  match obj with
  | File path | PCAP path | Static path => add_file path obj a now
  | URL url => add_task url obj a None None (Args.tags a) now
  end.

(** ** Database.add_path, add_url, add_pcap, add_static

    [add_path] and [add_url] convert an unset timeout and priority before
    they call [add], which converts them again; the conversion is in
    [task_row]. *)

Definition add_path (file_path : option string) (a : Args.t) (now : datetime)
    : M (option Z) :=
  fun w =>
    match file_path with
    | Some p =>
        if negb (truthy file_path) || negb (path_exists w p) then
          (logmsg WARNING "File does not exist" ;;; ret None) w
        else add (File p) (Args.set_tail (Args.sample_parent_id a) false a) now w
    | None => (logmsg WARNING "File does not exist" ;;; ret None) w
    end.

Definition add_url (url : string) (a : Args.t) (now : datetime)
    : M (option Z) :=
  add (URL url) (Args.set_tail None false a) now.

Definition add_pcap (file_path : string) (a : Args.t) (now : datetime)
    : M (option Z) :=
  add (PCAP file_path) (Args.set_tail None false a) now.

(** [add_static] passes its [static] flag in the position of
    [sample_parent_id]; the flag is [True], the integer 1. *)
Definition add_static (file_path : string) (a : Args.t) (now : datetime)
    : M (option Z) :=
  add (Static file_path)
      (Args.set_tail (Some (if Args.static a then 1 else 0)) false a) now.

(** ** Database.view_task *)

Definition view_task (task_id : Z) : M (option Task.t) :=
  except_SQLAlchemyError
    (query (get_task task_id))
    (logmsg DEBUG "Database error viewing task" ;;; ret None).

(** ** Database.reschedule *)

(** [reschedule] returns [None], [False] or the new task's id. *)
Inductive PyResult : Type :=
  | PyNone
  | PyFalse
  | PyInt (n : Z).

Definition of_option (o : option Z) : PyResult :=
  match o with
  | Some n => PyInt n
  | None => PyNone
  end.

(** The twelve positional arguments of the call [add(task.target, ...)];
    every other parameter keeps the default of the chosen method. *)
Definition reschedule_args (task : Task.t) (static : bool) : Args.t :=
  Args.mk (Some (Task.timeout task)) (Task.package task) (Task.options task)
    (Some (Task.priority task)) (Task.custom task) (Task.machine task)
    (Task.platform task)
    (match Task.tags task with
     | [] => None
     | _ :: _ => Some (join_names (Task.tags task))
     end)
    (Task.memory task) (Task.enforce_timeout task)
    (Some (ClockDt (Task.clock task)))
    None None None None None None static.

Definition reschedule (task_id : Z) (now : datetime) : M PyResult :=
  task <- view_task task_id ;;
  match task with
  | None => ret PyNone
  | Some task =>
      (* session.query(Task).get(task_id).status = TASK_RECOVERED *)
      row <- query (get_task task_id) ;;
      match row with
      | None => raise AttributeError
      | Some _ =>
          committed <-
            except_SQLAlchemyError
              (commit (update_task task_id (Task.set_status TASK_RECOVERED)) ;;;
               ret true)
              (logmsg DEBUG "Database error rescheduling task" ;;; ret false) ;;
          if committed then
            r <- match Task.category task with
                 | CatFile =>
                     add_path (Some (Task.target task))
                              (reschedule_args task false) now
                 | CatUrl =>
                     add_url (Task.target task) (reschedule_args task false) now
                 | CatPcap =>
                     add_pcap (Task.target task) (reschedule_args task false) now
                 | CatStatic =>
                     add_static (Task.target task) (reschedule_args task true) now
                 end ;;
            ret (of_option r)
          else ret PyFalse
      end
  end.

(** ** Worlds for examples *)

Definition empty_store : Store := mkStore [] [] [].

Definition no_files : string -> option FileInfo := fun _ => None.

Definition run {A} (m : M A) (w : World) : World := snd (m w).

Definition result {A} (m : M A) (w : World) : Outcome A := fst (m w).


(** ** Predicates of the statements *)

(** A row [fetch] may claim: pending, and asking for [machine] when the
    caller names one (the default [""] names none). *)
Definition eligible (machine : option string) (r : Task.t) : Prop :=
  Task.status r = TASK_PENDING
  /\ (machine <> Some "" -> Task.machine r = machine).

(** Primary keys are unique. *)
Definition task_ids_unique (s : Store) : Prop := NoDup (map Task.id (tasks s)).

(** ** Sample worlds *)

(** An instant [n] seconds into 1 January 2024. *)
Definition at_second (n : Z) : datetime := mkdt 2024 1 1 0 0 n 0.

Definition fresh_world : World := mkWorld empty_store no_files [] [].

Definition submit_url (priority : Z) (now : datetime) : M (option Z) :=
  add_url "http://example.com/"
          (Args.set_priority (Some priority) Args.defaults) now.

(** Three URLs submitted with priorities 1, 5, 3, in that order. *)
Definition queue_1_5_3 : World :=
  run (submit_url 3 (at_second 3))
    (run (submit_url 5 (at_second 2))
       (run (submit_url 1 (at_second 1)) fresh_world)).

(** Two URLs submitted with the same priority. *)
Definition queue_2_2 : World :=
  run (submit_url 2 (at_second 2))
    (run (submit_url 2 (at_second 1)) fresh_world).

Definition claimed {A} (f : Task.t -> A) (o : Outcome (option Task.t))
    : option A :=
  match o with
  | Return (Some r) => Some (f r)
  | _ => None
  end.

(** A URL task with status [s], and the store that holds it alone. *)
Definition url_task (s : Status) : Task.t :=
  Task.mk 1 "http://example.com/" CatUrl 0 1 (Some "") (Some "")
    (Some "") [] (Some "") (Some "") false false epoch (at_second 1)
    (Some (at_second 2)) (Some (at_second 3)) s None None None None
    None None.

Definition one_task (s : Status) : World :=
  mkWorld (mkStore [] [] [url_task s]) no_files [] [].

(** ** The transition table, in the words of the specification

    pending -> running -> {completed, failed_analysis};
    completed -> {reported, failed_processing}, and failed_reporting from
    post-processing. *)
Definition permitted (old new : Status) : bool :=
  match old, new with
  | TASK_PENDING, TASK_RUNNING
  | TASK_RUNNING, TASK_COMPLETED
  | TASK_RUNNING, TASK_FAILED_ANALYSIS
  | TASK_COMPLETED, TASK_REPORTED
  | TASK_COMPLETED, TASK_FAILED_PROCESSING
  | TASK_COMPLETED, TASK_FAILED_REPORTING => true
  | _, _ => false
  end.

Definition status_of (task_id : Z) (w : World) : option Status :=
  option_map Task.status (get_task task_id (db w)).

(** ** Machine selection *)

(** The [machines] table is scanned in primary-key order. *)
Definition machines_ascending (s : Store) : Prop :=
  StronglySorted (fun a b => Machine.id a < Machine.id b) (machines s).

(** A machine passes every criterion the caller supplied. *)
Definition candidate (label platform : option string) (tags : list string)
    (m : Machine.t) : Prop :=
  (truthy label = true -> Some (Machine.label m) = label)
  /\ (truthy platform = true -> Some (Machine.platform m) = platform)
  /\ (forall tag, In tag tags -> In tag (Machine.tags m)).

(** The combinations [lock_machine] refuses. *)
Definition conflicting (label platform : option string) (tags : list string)
    : Prop :=
  (truthy label = true /\ truthy platform = true)
  \/ (truthy label = true /\ tags <> []).

(** The candidate set in the words of the specification: the machines
    matching the given label, or matching the given platform, or carrying
    every requested tag, or all machines if no criterion is given. *)
Definition spec_candidate (label platform : option string)
    (tags : list string) (m : Machine.t) : bool :=
  if negb (truthy label) && negb (truthy platform) && negb (nonempty tags)
  then true
  else (truthy label && opt_eqb String.eqb (Some (Machine.label m)) label)
       || (truthy platform
           && opt_eqb String.eqb (Some (Machine.platform m)) platform)
       || (nonempty tags && forallb (has_tag m) tags).

Definition vm (id : Z) (label platform : string) (tags : list string)
    (locked : bool) : Machine.t :=
  Machine.mk id label label "192.168.56.101" platform tags None None locked
    None None None "192.168.56.1" "2042".

(** Two free Windows machines, the second one tagged [x64]. *)
Definition two_machines : World :=
  mkWorld
    (mkStore [vm 1 "win7" "windows" [] false;
              vm 2 "win10" "windows" ["x64"] false] [] [])
    no_files [] [].

(** The same machines, both leased. *)
Definition two_busy_machines : World :=
  mkWorld
    (mkStore [vm 1 "win7" "windows" [] true;
              vm 2 "win10" "windows" ["x64"] true] [] [])
    no_files [] [].

Definition leased {A} (f : Machine.t -> A) (o : Outcome (option Machine.t))
    : option A :=
  match o with
  | Return (Some m) => Some (f m)
  | _ => None
  end.

(** The id of the first free machine of [two_machines] in the candidate set
    of the specification for platform [windows] and tag [x64]. *)
Definition claimed_first_spec_candidate : option Z :=
  option_map Machine.id
    (first (filter is_unlocked
              (filter (spec_candidate None (Some "windows") ["x64"])
                      (machines (db two_machines))))).

(** ** Samples *)

Definition get_sample (sample_id : Z) (s : Store) : option Sample.t :=
  find (fun r => Sample.id r =? sample_id) (samples s).

(** The unique index [sha256_index]. *)
Definition sha256_unique (s : Store) : Prop :=
  NoDup (map Sample.sha256 (samples s)).

(** Two files with different content and the same md5. *)
Definition content_a : FileInfo :=
  mkInfo 128 "data" "79054025255fb1a26e4bc422aef54eb4" "crc32-a" "sha1-a"
         "sha256-a" "sha512-a" None.

Definition content_b : FileInfo :=
  mkInfo 128 "data" "79054025255fb1a26e4bc422aef54eb4" "crc32-b" "sha1-b"
         "sha256-b" "sha512-b" None.

Definition two_files : string -> option FileInfo :=
  fun path =>
    if String.eqb path "/tmp/a.bin" then Some content_a
    else if String.eqb path "/tmp/b.bin" then Some content_b
    else None.

(** Both files have been submitted once. *)
Definition both_registered : World :=
  run (register_sample (File "/tmp/b.bin"))
    (run (register_sample (File "/tmp/a.bin"))
       (mkWorld empty_store two_files [] [])).

(** A world in which the second store call of the next method fails. *)
Definition second_call_fails : World :=
  mkWorld empty_store two_files [] [false; true].

(** ** Submissions that reach the task step *)

(** Where the sample step of [add] yields a Sample row: a URL needs none; a
    file must exist, and either its insert passes the constraints or, when it
    does not, the re-read finds a row with its md5. *)
Definition sample_resolves (w : World) (obj : Obj) : Prop :=
  match obj with
  | URL _ => True
  | File path | PCAP path | Static path =>
      exists i,
        fs w path = Some i
        /\ ((get_type i <> "" /\ has_sha256 (get_sha256 i) (db w) = false)
            \/ sample_by_md5 (get_md5 i) (db w) <> None)
  end.

(** A world with the two files and an empty store. *)
Definition files_only : World := mkWorld empty_store two_files [] [].

(** What [Task(...)] is built from: the path or the URL. *)
Definition target_of (obj : Obj) : string :=
  match obj with
  | File p | PCAP p | Static p => p
  | URL u => u
  end.

(** [started_on] at creation: stamped for PCAP and Static submissions. *)
Definition started_at (obj : Obj) (now : datetime) : option datetime :=
  match obj with
  | PCAP _ | Static _ => Some now
  | _ => None
  end.

(** The [tags] string when the loop over the names starts. *)
Definition tags_of (w : World) (obj : Obj) (a : Args.t) : option string :=
  match obj with
  | URL _ => Args.tags a
  | File p | PCAP p | Static p =>
      match fs w p with
      | Some i => force_64_bit (get_type i) (Args.machine a) (Args.tags a)
      | None => Args.tags a
      end
  end.

(** ** Resubmission *)

Fixpoint no_char (c : ascii) (s : string) : bool :=
  match s with
  | EmptyString => true
  | String a rest => negb (Ascii.eqb a c) && no_char c rest
  end.

(** A tag name as [add] stores them: not empty, no space, no comma. *)
Definition clean_name (s : string) : bool :=
  negb (String.eqb s "") && no_char " " s && no_char "," s.

(** The object the submission variant of the task's category builds. *)
Definition resubmitted (task : Task.t) : Obj :=
  match Task.category task with
  | CatFile => File (Task.target task)
  | CatUrl => URL (Task.target task)
  | CatPcap => PCAP (Task.target task)
  | CatStatic => Static (Task.target task)
  end.

(** A completed file task whose target is no longer on disk. *)
Definition file_task_gone : World :=
  mkWorld
    (mkStore [] []
       [Task.mk 1 "/tmp/gone.bin" CatFile 0 1 (Some "") (Some "") (Some "")
          [] (Some "") (Some "") false false epoch (at_second 1)
          (Some (at_second 2)) (Some (at_second 3)) TASK_COMPLETED None None
          None None None None])
    no_files [] [].

(** A file submitted with two tags, then claimed. *)
Definition tagged_args : Args.t :=
  Args.mk (Some 120) (Some "exe") (Some "free=yes") (Some 3) (Some "")
    (Some "") (Some "windows") (Some "x64, gui") true false
    (Some (ClockStr "12-31-2024 23:59:00")) None None None None None None
    false.

Definition file_task_running : World :=
  run (fetch true (Some "") (at_second 2))
    (run (add_path (Some "/tmp/a.bin") tagged_args (at_second 1)) files_only).

(** The row of the running file task. *)
Definition running_row : Task.t :=
  hd (url_task TASK_RUNNING) (tasks (db file_task_running)).

(** * The rest of the Machine Lease Manager, the task queries and the
      sample queries *)

(** ** Machine rows: the other setters *)

Definition machine_set_status (status : option string) (now : datetime)
    (m : Machine.t) : Machine.t :=
  Machine.mk (Machine.id m) (Machine.name m) (Machine.label m) (Machine.ip m)
    (Machine.platform m) (Machine.tags m) (Machine.interface m)
    (Machine.snapshot m) (Machine.locked m) (Machine.locked_changed_on m)
    status (Some now) (Machine.resultserver_ip m)
    (Machine.resultserver_port m).

Definition machine_set_interface (interface : option string) (m : Machine.t)
    : Machine.t :=
  Machine.mk (Machine.id m) (Machine.name m) (Machine.label m) (Machine.ip m)
    (Machine.platform m) (Machine.tags m) interface
    (Machine.snapshot m) (Machine.locked m) (Machine.locked_changed_on m)
    (Machine.status m) (Machine.status_changed_on m)
    (Machine.resultserver_ip m) (Machine.resultserver_port m).

Definition machine_set_tags (tags : list string) (m : Machine.t) : Machine.t :=
  Machine.mk (Machine.id m) (Machine.name m) (Machine.label m) (Machine.ip m)
    (Machine.platform m) tags (Machine.interface m)
    (Machine.snapshot m) (Machine.locked m) (Machine.locked_changed_on m)
    (Machine.status m) (Machine.status_changed_on m)
    (Machine.resultserver_ip m) (Machine.resultserver_port m).

(** [session.query(Machine).filter_by(label=label).first()] *)
Definition machine_by_label (label : string) (s : Store) : option Machine.t :=
  first (filter (fun m => String.eqb (Machine.label m) label) (machines s)).

(** [session.query(Machine).filter(Machine.name == name).first()] *)
Definition machine_by_name (name : string) (s : Store) : option Machine.t :=
  first (filter (fun m => String.eqb (Machine.name m) name) (machines s)).

(** ** Database.unlock_machine *)

Definition unlock_machine (label : string) (now : datetime)
    : M (option Machine.t) :=
  machine <-
    except_SQLAlchemyError
      (query (machine_by_label label))
      (logmsg DEBUG "Database error unlocking machine" ;;; ret None) ;;
  match machine with
  | Some m =>
      except_SQLAlchemyError
        (commit (update_machine (Machine.id m) (Machine.set_lock false now)) ;;;
         m' <- refresh_machine m ;;
         ret (Some m'))
        (logmsg DEBUG "Database error locking machine" ;;; ret None)
  | None => ret None
  end.

(** ** Database.list_machines, get_available_machines,
       count_machines_available *)

Definition list_machines (locked : bool) : M (list Machine.t) :=
  except_SQLAlchemyError
    (if locked then query (fun s => filter Machine.locked (machines s))
     else query machines)
    (logmsg DEBUG "Database error listing machines" ;;; ret []).

Definition get_available_machines : M (list Machine.t) :=
  except_SQLAlchemyError
    (query (fun s => filter is_unlocked (machines s)))
    (logmsg DEBUG "Database error getting available machines" ;;; ret []).

Definition count_machines_available : M nat :=
  except_SQLAlchemyError
    (query (fun s => List.length (filter is_unlocked (machines s))))
    (logmsg DEBUG "Database error counting machines" ;;; ret O).

(** ** Database.set_machine_status, set_machine_interface *)

Definition set_machine_status (label : string) (status : option string)
    (now : datetime) : M unit :=
  machine <-
    except_SQLAlchemyError
      (query (machine_by_label label))
      (logmsg DEBUG "Database error setting machine status" ;;; ret None) ;;
  match machine with
  | Some m =>
      except_SQLAlchemyError
        (commit (update_machine (Machine.id m)
                   (machine_set_status status now)) ;;;
         _ <- refresh_machine m ;;
         ret tt)
        (logmsg DEBUG "Database error setting machine status")
  | None => ret tt
  end.

Definition set_machine_interface (label : string) (interface : option string)
    : M unit :=
  except_SQLAlchemyError
    (machine <- query (machine_by_label label) ;;
     match machine with
     | None => logmsg DEBUG "Database error setting interface: not found"
     | Some m =>
         commit (update_machine (Machine.id m)
                   (machine_set_interface interface))
     end)
    (logmsg DEBUG "Database error setting interface").

(** ** Database.view_machine, view_machine_by_label *)

Definition view_machine (name : string) : M (option Machine.t) :=
  except_SQLAlchemyError
    (query (machine_by_name name))
    (logmsg DEBUG "Database error viewing machine" ;;; ret None).

Definition view_machine_by_label (label : string) : M (option Machine.t) :=
  except_SQLAlchemyError
    (query (machine_by_label label))
    (logmsg DEBUG "Database error viewing machine by label" ;;; ret None).

(** ** Database.add_machine *)

Definition insert_machine (m : Machine.t) (s : Store) : Store :=
  mkStore (machines s ++ [m]) (samples s) (tasks s).

(** The row the constructor and the column defaults give. *)
Definition machine_row (id : Z) (name label ip platform : string)
    (tags : list string) (interface snapshot : option string)
    (resultserver_ip resultserver_port : string) : Machine.t :=
  Machine.mk id name label ip platform tags interface snapshot false None
    None None resultserver_ip resultserver_port.

Definition add_machine (name label ip platform : string)
    (tags : option string) (interface snapshot : option string)
    (resultserver_ip resultserver_port : string) : M unit :=
  names <- get_or_create_tags (requested_names tags) ;;
  except_SQLAlchemyError
    (commit (fun s =>
       insert_machine
         (machine_row (next_id (map Machine.id (machines s))) name label ip
                      platform names interface snapshot resultserver_ip
                      resultserver_port)
         s))
    (logmsg DEBUG "Database error adding machine").

(** ** Database.delete_machine, clean_machines *)

Definition remove_machine (machine_id : Z) (s : Store) : Store :=
  mkStore (filter (fun m => negb (Machine.id m =? machine_id)) (machines s))
          (samples s) (tasks s).

(** [session.delete(None)] raises [UnmappedInstanceError], an
    [SQLAlchemyError]. The method returns ["success"] or, from the handler,
    nothing. *)
Definition delete_machine (name : string) : M (option string) :=
  except_SQLAlchemyError
    (machine <- query (machine_by_name name) ;;
     match machine with
     | None => raise SQLAlchemyError
     | Some m =>
         commit (remove_machine (Machine.id m)) ;;;
         ret (Some "success")
     end)
    (logmsg INFO "Database error deleting machine" ;;; ret None).

(** [self.engine.execute(machines_tags.delete())] runs on the engine, outside
    the session and outside the [try]: the associations are gone even when
    the delete of the machines fails. *)
Definition clean_machines : M unit :=
  commit (fun s =>
    mkStore (map (machine_set_tags []) (machines s)) (samples s) (tasks s)) ;;;
  except_SQLAlchemyError
    (store_call ;;;
     commit (fun s => mkStore [] (samples s) (tasks s)))
    (logmsg DEBUG "Database error cleaning machines").

(** ** Database.delete_task *)

Definition remove_task (task_id : Z) (s : Store) : Store :=
  mkStore (machines s) (samples s)
          (filter (fun r => negb (Task.id r =? task_id)) (tasks s)).

Definition delete_task (task_id : Z) : M bool :=
  except_SQLAlchemyError
    (task <- query (get_task task_id) ;;
     match task with
     | None => raise SQLAlchemyError
     | Some _ => commit (remove_task task_id) ;;; ret true
     end)
    (logmsg DEBUG "Database error deleting task" ;;; ret false).

(** ** Database.count_matching_tasks *)

Definition category_name (c : Category) : string :=
  match c with
  | CatFile => "file"
  | CatUrl => "url"
  | CatPcap => "pcap"
  | CatStatic => "static"
  end.

(** The method returns the count or, from the handler, the empty list. *)
Inductive CountOrList : Type :=
  | Count (n : nat)
  | EmptyList.

Definition matching_tasks (category : option string)
    (status not_status : option Status) (s : Store) : list Task.t :=
  let search := tasks s in
  let search :=
    match status with
    | Some st => filter (fun r => status_eqb (Task.status r) st) search
    | None => search
    end in
  let search :=
    match not_status with
    | Some st => filter (fun r => negb (status_eqb (Task.status r) st)) search
    | None => search
    end in
  if truthy category then
    filter (fun r => opt_eqb String.eqb
                       (Some (category_name (Task.category r))) category)
           search
  else search.

Definition count_matching_tasks (category : option string)
    (status not_status : option Status) : M CountOrList :=
  except_SQLAlchemyError
    (n <- query (fun s =>
            List.length (matching_tasks category status not_status s)) ;;
     ret (Count n))
    (logmsg DEBUG "Database error counting tasks" ;;; ret EmptyList).

(** ** Database.view_sample, count_samples *)

Definition view_sample (sample_id : Z) : M (option Sample.t) :=
  except_SQLAlchemyError
    (query (get_sample sample_id))
    (logmsg DEBUG "Database error viewing task" ;;; ret None).

Definition count_samples : M nat :=
  except_SQLAlchemyError
    (query (fun s => List.length (samples s)))
    (logmsg DEBUG "Database error counting samples" ;;; ret O).

(** ** The text of a clock

    A date and time written the way the format asks for it, every field
    zero-padded: [MM-DD-YYYY HH:MM:SS]. *)

Definition digit_char (v : Z) : ascii := ascii_of_nat (48 + Z.to_nat v).

Definition two_chars (n : Z) (rest : string) : string :=
  String (digit_char (n / 10)) (String (digit_char (n mod 10)) rest).

Definition four_chars (n : Z) (rest : string) : string :=
  String (digit_char (n / 1000))
    (String (digit_char (n / 100 mod 10))
       (String (digit_char (n / 10 mod 10))
          (String (digit_char (n mod 10)) rest))).

Definition clock_text (d : datetime) : string :=
  two_chars (month d) (String "-"
    (two_chars (day d) (String "-"
       (four_chars (year d) (String " "
          (two_chars (hour d) (String ":"
             (two_chars (minute d) (String ":"
                (two_chars (second d) ""))))))))))%char.
(** * Properties *)

(** ** strptime on sample inputs *)

Example strptime_spec_example :
  Strptime.strptime "12-31-2024 23:59:00" = Some (mkdt 2024 12 31 23 59 0 0).
Proof. reflexivity. Qed.

Example strptime_not_a_date : Strptime.strptime "not-a-date" = None.
Proof. reflexivity. Qed.

Example strptime_short_fields :
  Strptime.strptime "1-5-2024 3:4:5" = Some (mkdt 2024 1 5 3 4 5 0).
Proof. reflexivity. Qed.

Example strptime_feb_30 : Strptime.strptime "02-30-2024 00:00:00" = None.
Proof. reflexivity. Qed.

Example strptime_trailing : Strptime.strptime "12-31-2024 23:59:000" = None.
Proof. reflexivity. Qed.

(** ** The monad without store failures *)

Lemma store_call_ok (w : World) :
  faults w = [] -> store_call w = (Return tt, w).
Proof. intros H. unfold store_call. now rewrite H. Qed.

Lemma query_ok {A} (f : Store -> A) (w : World) :
  faults w = [] -> query f w = (Return (f (db w)), w).
Proof.
  intros H. unfold query, bind, get_db, ret. now rewrite store_call_ok.
Qed.

Lemma commit_ok (f : Store -> Store) (w : World) :
  faults w = [] -> commit f w = (Return tt, with_db (f (db w)) w).
Proof. intros H. unfold commit, bind. now rewrite store_call_ok. Qed.

(** ** Orders *)

Lemma lex_leb_total (xs ys : list Z) :
  lex_leb xs ys = true \/ lex_leb ys xs = true.
Proof.
  revert ys. induction xs as [|x xs IH]; intros [|y ys]; simpl; auto.
  destruct (IH ys) as [H|H]; rewrite H;
    destruct (x <? y) eqn:E1, (y <? x) eqn:E2, (x =? y) eqn:E3,
             (y =? x) eqn:E4; simpl; auto; lia.
Qed.

Lemma lex_leb_trans (xs ys zs : list Z) :
  lex_leb xs ys = true -> lex_leb ys zs = true -> lex_leb xs zs = true.
Proof.
  revert ys zs. induction xs as [|x xs IH]; intros [|y ys] [|z zs]; simpl;
    try congruence; intros H1 H2.
  apply orb_true_iff in H1. apply orb_true_iff in H2. apply orb_true_iff.
  rewrite ?andb_true_iff in *.
  destruct H1 as [H1|[H1 H1']], H2 as [H2|[H2 H2']];
    first [ left; lia | right; split; [lia | now apply (IH ys zs)] ].
Qed.

Lemma priority_desc_added_on_total (a b : Task.t) :
  priority_desc_added_on a b = true \/ priority_desc_added_on b a = true.
Proof.
  unfold priority_desc_added_on, dt_leb.
  destruct (lex_leb_total (dt_fields (Task.added_on a))
                          (dt_fields (Task.added_on b))) as [H|H];
    rewrite H;
    destruct (Task.priority b <? Task.priority a) eqn:E1,
             (Task.priority a <? Task.priority b) eqn:E2,
             (Task.priority a =? Task.priority b) eqn:E3,
             (Task.priority b =? Task.priority a) eqn:E4; simpl; auto; lia.
Qed.

Lemma priority_desc_added_on_trans (a b c : Task.t) :
  priority_desc_added_on a b = true ->
  priority_desc_added_on b c = true ->
  priority_desc_added_on a c = true.
Proof.
  unfold priority_desc_added_on, dt_leb. intros H1 H2.
  apply orb_true_iff in H1. apply orb_true_iff in H2. apply orb_true_iff.
  rewrite ?andb_true_iff in *.
  destruct H1 as [H1|[H1 H1']], H2 as [H2|[H2 H2']];
    first [ left; lia | right; split; [lia | eapply lex_leb_trans; eauto] ].
Qed.

(** ** ORDER BY ... first() *)

Section OrderBy.
Context {A : Type} (le : A -> A -> bool).
Hypothesis le_total : forall a b, le a b = true \/ le b a = true.
Hypothesis le_trans :
  forall a b c, le a b = true -> le b c = true -> le a c = true.

Lemma insert_by_In (x y : A) (l : list A) :
  In y (insert_by le x l) <-> y = x \/ In y l.
Proof.
  induction l as [|h l IH]; simpl.
  - intuition.
  - destruct (le x h); simpl; rewrite ?IH; intuition.
Qed.

Lemma order_by_In (y : A) (l : list A) :
  In y (order_by le l) <-> In y l.
Proof.
  induction l as [|h l IH]; simpl; [tauto|].
  rewrite insert_by_In, IH. intuition.
Qed.

Lemma first_insert_by (x : A) (l : list A) :
  first (insert_by le x l)
  = Some (match first l with
          | Some h => if le x h then x else h
          | None => x
          end).
Proof. destruct l as [|h l]; simpl; [reflexivity|]. now destruct (le x h). Qed.

Lemma order_by_nil (l : list A) : order_by le l = [] -> l = [].
Proof.
  destruct l as [|h l]; [reflexivity|]. intros H.
  assert (Hin : In h (order_by le (h :: l))) by (apply order_by_In; now left).
  rewrite H in Hin. destruct Hin.
Qed.

(** The first row of the ordered result is below every row. *)
Lemma first_order_by_least (l : list A) (h : A) :
  first (order_by le l) = Some h ->
  forall y, In y l -> le h y = true.
Proof.
  revert h. induction l as [|x l IH]; intros h Hh y Hy; [destruct Hy|].
  simpl in Hh. rewrite first_insert_by in Hh.
  destruct (first (order_by le l)) as [h0|] eqn:E.
  - specialize (IH h0 eq_refl).
    destruct (le x h0) eqn:Exh; injection Hh as <-.
    + destruct Hy as [<-|Hy].
      * destruct (le_total x x); assumption.
      * eapply le_trans; [exact Exh|]. now apply IH.
    + destruct Hy as [<-|Hy].
      * destruct (le_total h0 x) as [H|H]; [exact H|congruence].
      * now apply IH.
  - injection Hh as <-.
    assert (l = []) as ->.
    { apply order_by_nil. unfold first in E.
      destruct (order_by le l); [reflexivity|discriminate]. }
    destruct Hy as [<-|[]]. destruct (le_total x x); assumption.
Qed.

Lemma first_order_by_In (l : list A) (h : A) :
  first (order_by le l) = Some h -> In h l.
Proof.
  intros H. apply order_by_In. unfold first in H.
  destruct (order_by le l); [discriminate|]. injection H as ->. now left.
Qed.

Lemma first_order_by_none (l : list A) :
  first (order_by le l) = None <-> l = [].
Proof.
  split.
  - intros H. apply order_by_nil. unfold first in H.
    destruct (order_by le l); [reflexivity|discriminate].
  - intros ->. reflexivity.
Qed.
End OrderBy.

(** ** Decidable tests against their meaning *)

Lemma status_eqb_eq (a b : Status) : status_eqb a b = true <-> a = b.
Proof. destruct a, b; simpl; split; congruence. Qed.

Lemma opt_string_eqb_eq (a b : option string) :
  opt_eqb String.eqb a b = true <-> a = b.
Proof.
  destruct a as [x|], b as [y|]; simpl; try (split; congruence).
  rewrite String.eqb_eq. split; congruence.
Qed.

Lemma fetch_filter_eligible (machine : option string) (r : Task.t) :
  fetch_filter machine r = true <-> eligible machine r.
Proof.
  unfold fetch_filter, eligible, is_pending.
  destruct (opt_eqb String.eqb machine (Some "")) eqn:E; simpl.
  - apply opt_string_eqb_eq in E. rewrite status_eqb_eq. intuition.
  - rewrite andb_true_iff, status_eqb_eq, opt_string_eqb_eq.
    assert (machine <> Some "").
    { intros H. apply opt_string_eqb_eq in H. congruence. }
    intuition.
Qed.

(** ** Rows addressed by primary key *)

Section PrimaryKey.
Context {A : Type} (key : A -> Z).

Lemma find_key_In (l : list A) (row : A) :
  NoDup (map key l) -> In row l ->
  find (fun r => key r =? key row) l = Some row.
Proof.
  induction l as [|h l IH]; intros Hnd Hin; [destruct Hin|].
  simpl in *. inversion Hnd as [|? ? Hnotin Hnd']; subst.
  destruct Hin as [->|Hin].
  - now rewrite Z.eqb_refl.
  - destruct (key h =? key row) eqn:E; [|now apply IH].
    apply Z.eqb_eq in E. exfalso. apply Hnotin. rewrite E.
    now apply in_map.
Qed.

Lemma find_key_updated (l : list A) (row : A) (f : A -> A) :
  (forall r, key (f r) = key r) ->
  NoDup (map key l) -> In row l ->
  find (fun r => key r =? key row) (rewrite_row key (key row) f l)
  = Some (f row).
Proof.
  intros Hf. unfold rewrite_row.
  induction l as [|h l IH]; intros Hnd Hin; [destruct Hin|].
  simpl in *. inversion Hnd as [|? ? Hnotin Hnd']; subst.
  destruct Hin as [->|Hin].
  - now rewrite Z.eqb_refl, Hf, Z.eqb_refl.
  - destruct (key h =? key row) eqn:E.
    + apply Z.eqb_eq in E. exfalso. apply Hnotin. rewrite E.
      now apply in_map.
    + rewrite E. now apply IH.
Qed.

Lemma find_key_other (l : list A) (i j : Z) (f : A -> A) :
  (forall r, key (f r) = key r) ->
  j <> i ->
  find (fun r => key r =? j) (rewrite_row key i f l)
  = find (fun r => key r =? j) l.
Proof.
  intros Hf Hneq. unfold rewrite_row.
  induction l as [|h l IH]; [reflexivity|]. simpl.
  destruct (key h =? i) eqn:E.
  - rewrite Hf. apply Z.eqb_eq in E.
    destruct (key h =? j) eqn:E'; [|exact IH].
    apply Z.eqb_eq in E'. exfalso. apply Hneq. congruence.
  - destruct (key h =? j); [reflexivity|exact IH].
Qed.

(** Rows scanned in ascending key order have distinct keys, and the first
    row that passes a filter has the least key among those that pass. *)
Lemma ascending_NoDup (l : list A) :
  StronglySorted (fun a b => key a < key b) l -> NoDup (map key l).
Proof.
  induction 1 as [|h l Hs IH Hall]; simpl; constructor; [|exact IH].
  intros Hin. apply in_map_iff in Hin. destruct Hin as [r [Hk Hr]].
  rewrite Forall_forall in Hall. specialize (Hall r Hr). lia.
Qed.

Lemma first_filter_least (p : A -> bool) (l : list A) (row : A) :
  StronglySorted (fun a b => key a < key b) l ->
  first (filter p l) = Some row ->
  In row l /\ p row = true
  /\ forall r, In r l -> p r = true -> key row <= key r.
Proof.
  induction 1 as [|h l Hs IH Hall]; simpl; [discriminate|].
  rewrite Forall_forall in Hall.
  destruct (p h) eqn:E; simpl; intros Hfirst.
  - injection Hfirst as <-. split; [now left|]. split; [exact E|].
    intros r [<-|Hr] _; [lia|]. specialize (Hall r Hr). lia.
  - destruct (IH Hfirst) as [Hin [Hp Hleast]].
    split; [now right|]. split; [exact Hp|].
    intros r [<-|Hr] Hpr; [congruence|now apply Hleast].
Qed.

Lemma first_filter_none (p : A -> bool) (l : list A) :
  first (filter p l) = None <-> forall r, In r l -> p r = false.
Proof.
  induction l as [|h l IH]; simpl.
  - split; [intros _ r []|reflexivity].
  - destruct (p h) eqn:E; simpl.
    + split; [discriminate|]. intros H. specialize (H h (or_introl eq_refl)).
      congruence.
    + rewrite IH. split.
      * intros H r [<-|Hr]; [exact E|now apply H].
      * intros H r Hr. apply H. now right.
Qed.
End PrimaryKey.

Lemma set_status_row_id (status : Status) (now : datetime) (r : Task.t) :
  Task.id (set_status_row status now r) = Task.id r.
Proof. destruct status; reflexivity. Qed.

(** ** Database.set_status and Database.fetch without store failures *)

Lemma set_status_ok (w : World) (row : Task.t) (status : Status)
    (now : datetime) :
  faults w = [] -> task_ids_unique (db w) -> In row (tasks (db w)) ->
  set_status (Task.id row) status now w
  = (Return tt,
     with_db (update_task (Task.id row) (set_status_row status now) (db w)) w).
Proof.
  intros Hf Hnd Hin.
  unfold set_status, except_SQLAlchemyError, bind.
  rewrite (query_ok _ w Hf). unfold get_task.
  rewrite (find_key_In Task.id _ _ Hnd Hin).
  now rewrite (commit_ok _ w Hf).
Qed.



(** C1, priority ordering: tasks submitted with priorities 1, 5, 3 are
    claimed in the order 5, 3, 1, after which nothing is left to claim. *)
Example fetch_priority_ordering :
  let claim := fetch true (Some "") (at_second 9) in
  let w1 := run claim queue_1_5_3 in
  let w2 := run claim w1 in
  let w3 := run claim w2 in
  claimed Task.priority (result claim queue_1_5_3) = Some 5
  /\ claimed Task.priority (result claim w1) = Some 3
  /\ claimed Task.priority (result claim w2) = Some 1
  /\ result claim w3 = Return None.
Proof. vm_compute. repeat split; reflexivity. Qed.

(** C1, FIFO tie-break: of two tasks with the same priority the one submitted
    first is claimed first. *)
Example fetch_fifo_tie_break :
  let claim := fetch true (Some "") (at_second 9) in
  let w1 := run claim queue_2_2 in
  claimed Task.id (result claim queue_2_2) = Some 1
  /\ claimed Task.added_on (result claim queue_2_2) = Some (at_second 1)
  /\ claimed Task.id (result claim w1) = Some 2
  /\ claimed Task.status (result claim w1) = Some TASK_RUNNING
  /\ claimed Task.started_on (result claim w1) = Some (Some (at_second 9)).
Proof. vm_compute. repeat split; reflexivity. Qed.

(** With [lock=False] the row is returned as it is and the store is not
    written. *)
Lemma fetch_without_lock (w : World) (machine : option string)
    (now : datetime) :
  faults w = [] ->
  fetch false machine now w = (Return (fetch_query machine (db w)), w).
Proof.
  intros Hf. unfold fetch, except_SQLAlchemyError, bind.
  rewrite (query_ok _ w Hf). now destruct (fetch_query machine (db w)).
Qed.

(** ** Database.set_status and the transition table *)

(** C4, as stated, fails: a task that has reached [reported], a terminal
    state, is put back to [pending] by [set_status], a transition the table
    does not permit. *)
Lemma set_status_reported_back_to_pending :
  permitted TASK_REPORTED TASK_PENDING = false
  /\ status_of 1 (one_task TASK_REPORTED) = Some TASK_REPORTED
  /\ result (set_status 1 TASK_PENDING (at_second 9)) (one_task TASK_REPORTED)
     = Return tt
  /\ status_of 1 (run (set_status 1 TASK_PENDING (at_second 9))
                      (one_task TASK_REPORTED))
     = Some TASK_PENDING.
Proof. vm_compute. repeat split; reflexivity. Qed.

(** C4, amended. [set_status] consults no transition table: on an existing
    row, whatever its current status, it writes the status it is given
    ([distributed_completed] leaves the status as it is), stamps [started_on]
    for [running] and [completed_on] for [completed] and
    [distributed_completed], and leaves every other row alone. *)
Theorem set_status_writes_given_status :
  forall (w : World) (row : Task.t) (status : Status) (now : datetime),
    faults w = [] ->
    task_ids_unique (db w) ->
    In row (tasks (db w)) ->
    let w' := run (set_status (Task.id row) status now) w in
    result (set_status (Task.id row) status now) w = Return tt
    /\ (exists row',
          get_task (Task.id row) (db w') = Some row'
          /\ Task.status row'
             = (if status_eqb status TASK_DISTRIBUTED_COMPLETED
                then Task.status row else status)
          /\ Task.started_on row'
             = (if status_eqb status TASK_RUNNING
                then Some now else Task.started_on row)
          /\ Task.completed_on row'
             = (if status_eqb status TASK_COMPLETED
                   || status_eqb status TASK_DISTRIBUTED_COMPLETED
                then Some now else Task.completed_on row))
    /\ (forall task_id, task_id <> Task.id row ->
          get_task task_id (db w') = get_task task_id (db w)).
Proof.
  intros w row status now Hf Hnd Hin w'. subst w'. unfold run, result.
  rewrite (set_status_ok w row status now Hf Hnd Hin). simpl.
  split; [reflexivity|]. split.
  - exists (set_status_row status now row). split.
    + unfold get_task, update_task. cbn [tasks db with_db].
      apply (find_key_updated Task.id _ row (set_status_row status now)
               (set_status_row_id status now) Hnd Hin).
    + destruct status; repeat split; reflexivity.
  - intros task_id Hneq. unfold get_task, update_task. cbn [tasks db with_db].
    apply (find_key_other Task.id); [apply set_status_row_id|exact Hneq].
Qed.

Lemma set_status_writes_given_status_witness :
  faults (one_task TASK_REPORTED) = []
  /\ task_ids_unique (db (one_task TASK_REPORTED))
  /\ In (url_task TASK_REPORTED) (tasks (db (one_task TASK_REPORTED)))
  /\ (let w' := run (set_status 1 TASK_RUNNING (at_second 9))
                    (one_task TASK_REPORTED) in
      result (set_status 1 TASK_RUNNING (at_second 9)) (one_task TASK_REPORTED)
      = Return tt
      /\ (exists row',
            get_task 1 (db w') = Some row'
            /\ Task.status row' = TASK_RUNNING
            /\ Task.started_on row' = Some (at_second 9)
            /\ Task.completed_on row' = Some (at_second 3))
      /\ (forall task_id, task_id <> 1 ->
            get_task task_id (db w')
            = get_task task_id (db (one_task TASK_REPORTED)))).
Proof.
  assert (Hnd : task_ids_unique (db (one_task TASK_REPORTED))).
  { unfold task_ids_unique. simpl. constructor; [intros []|constructor]. }
  assert (Hin : In (url_task TASK_REPORTED)
                   (tasks (db (one_task TASK_REPORTED)))).
  { simpl. left. reflexivity. }
  split; [reflexivity|]. split; [exact Hnd|]. split; [exact Hin|].
  exact (set_status_writes_given_status (one_task TASK_REPORTED)
           (url_task TASK_REPORTED) TASK_RUNNING (at_second 9)
           eq_refl Hnd Hin).
Defined.

(** A task id that is not in the table: nothing is written. *)
Lemma set_status_missing_row (w : World) (task_id : Z) (status : Status)
    (now : datetime) :
  faults w = [] ->
  get_task task_id (db w) = None ->
  set_status task_id status now w = (Return tt, w).
Proof.
  intros Hf Hnone. unfold set_status, except_SQLAlchemyError, bind.
  rewrite (query_ok _ w Hf), Hnone. reflexivity.
Qed.

(** ** Two filters in a row *)

Lemma filter_twice {A} (p q : A -> bool) (l : list A) :
  filter q (filter p l) = filter (fun x => p x && q x) l.
Proof.
  induction l as [|h l IH]; [reflexivity|]. simpl.
  destruct (p h); simpl; [|exact IH]. destruct (q h); now rewrite IH.
Qed.

(** ** Database.lock_machine *)

Lemma lock_machine_filter_candidate (label platform : option string)
    (tags : list string) (m : Machine.t) :
  lock_machine_filter label platform tags m = true
  <-> candidate label platform tags m.
Proof.
  unfold lock_machine_filter, candidate.
  rewrite !andb_true_iff, forallb_forall.
  assert (Htag : forall tag, has_tag m tag = true <-> In tag (Machine.tags m)).
  { intros tag. unfold has_tag. rewrite existsb_exists. split.
    - intros [x [Hx Heq]]. apply String.eqb_eq in Heq. now subst.
    - intros H. exists tag. split; [exact H|apply String.eqb_refl]. }
  destruct (truthy label), (truthy platform);
    rewrite ?opt_string_eqb_eq; split.
  all: try (intros [[H1 H2] H3]; repeat split; intros;
            try congruence; try (apply Htag; now apply H3); auto).
  all: intros [H1 [H2 H3]]; repeat split; auto; intros; apply Htag; auto.
Qed.

Lemma not_conflicting (label platform : option string) (tags : list string) :
  ~ conflicting label platform tags ->
  truthy label && truthy platform = false
  /\ truthy label && nonempty tags = false.
Proof.
  unfold conflicting. intros H.
  destruct (truthy label), (truthy platform), tags; simpl; split;
    try reflexivity; exfalso; apply H; auto;
    right; split; [reflexivity|discriminate].
Qed.

Lemma set_lock_id (b : bool) (now : datetime) (m : Machine.t) :
  Machine.id (Machine.set_lock b now m) = Machine.id m.
Proof. reflexivity. Qed.




(** C6. Conflicting criteria (a label with a platform, or a label with tags)
    make [lock_machine] log an error and return [None] without any store
    call; otherwise, without store failures, it raises
    [CuckooOperationalError] and writes nothing when no machine passes the
    criteria, and returns [None], writing and logging nothing, when machines
    pass them and all of those are locked. *)
Theorem lock_machine_without_selection :
  forall (w : World) (label platform : option string) (tags : list string)
         (now : datetime),
    (conflicting label platform tags ->
       result (lock_machine label platform tags now) w = Return None
       /\ db (run (lock_machine label platform tags now) w) = db w
       /\ faults (run (lock_machine label platform tags now) w) = faults w
       /\ exists msg,
            log (run (lock_machine label platform tags now) w)
            = (log w ++ [(ERROR, msg)])%list)
    /\ (~ conflicting label platform tags ->
        faults w = [] ->
        (forall m, In m (machines (db w)) ->
                   ~ candidate label platform tags m) ->
        lock_machine label platform tags now w
        = (Raise (CuckooOperationalError
                    "No machines match selection criteria."), w))
    /\ (~ conflicting label platform tags ->
        faults w = [] ->
        (exists m, In m (machines (db w))
                   /\ candidate label platform tags m) ->
        (forall m, In m (machines (db w)) ->
                   candidate label platform tags m ->
                   Machine.locked m = true) ->
        lock_machine label platform tags now w = (Return None, w)).
Proof.
  intros w label platform tags now. split; [|split].
  - intros Hc. unfold lock_machine, result, run.
    destruct (truthy label && truthy platform) eqn:E1.
    + simpl. repeat split. eexists. reflexivity.
    + destruct (truthy label && nonempty tags) eqn:E2.
      * simpl. repeat split. eexists. reflexivity.
      * exfalso. destruct Hc as [[H1 H2]|[H1 H2]].
        -- rewrite H1, H2 in E1. discriminate.
        -- rewrite H1 in E2. destruct tags; [congruence|discriminate].
  - intros Hvalid Hf Hnone.
    destruct (not_conflicting _ _ _ Hvalid) as [E1 E2].
    unfold lock_machine. rewrite E1, E2.
    unfold except_SQLAlchemyError, bind.
    rewrite (query_ok _ w Hf).
    assert (filter (lock_machine_filter label platform tags)
                   (machines (db w)) = []) as ->.
    { destruct (filter (lock_machine_filter label platform tags)
                       (machines (db w))) as [|c cs] eqn:Ec; [reflexivity|].
      assert (Hin : In c (c :: cs)) by now left.
      rewrite <- Ec in Hin. apply filter_In in Hin. destruct Hin as [Hin Hp].
      apply lock_machine_filter_candidate in Hp. now destruct (Hnone c Hin). }
    reflexivity.
  - intros Hvalid Hf [m0 [Hin0 Hc0]] Hall.
    destruct (not_conflicting _ _ _ Hvalid) as [E1 E2].
    unfold lock_machine. rewrite E1, E2.
    unfold except_SQLAlchemyError, bind.
    rewrite (query_ok _ w Hf).
    destruct (filter (lock_machine_filter label platform tags)
                     (machines (db w))) as [|c cs] eqn:Ec.
    + assert (Hin : In m0 (filter (lock_machine_filter label platform tags)
                                  (machines (db w)))).
      { apply filter_In. split; [exact Hin0|].
        now apply lock_machine_filter_candidate. }
      rewrite Ec in Hin. destruct Hin.
    + cbn [List.length]. rewrite (query_ok _ w Hf). rewrite Ec.
      assert (first (filter is_unlocked (c :: cs)) = None) as ->.
      { apply (first_filter_none is_unlocked).
        intros r Hr. rewrite <- Ec in Hr. apply filter_In in Hr.
        destruct Hr as [Hr Hp]. apply lock_machine_filter_candidate in Hp.
        unfold is_unlocked. now rewrite (Hall r Hr Hp). }
      reflexivity.
Qed.

Lemma lock_machine_without_selection_witness :
  (conflicting (Some "win7") (Some "windows") []
   /\ result (lock_machine (Some "win7") (Some "windows") [] (at_second 9))
             two_machines = Return None
   /\ db (run (lock_machine (Some "win7") (Some "windows") [] (at_second 9))
              two_machines) = db two_machines)
  /\ (~ conflicting None (Some "linux") []
      /\ faults two_machines = []
      /\ (forall m, In m (machines (db two_machines)) ->
                    ~ candidate None (Some "linux") [] m)
      /\ lock_machine None (Some "linux") [] (at_second 9) two_machines
         = (Raise (CuckooOperationalError
                     "No machines match selection criteria."),
            two_machines))
  /\ (~ conflicting None (Some "windows") []
      /\ faults two_busy_machines = []
      /\ (exists m, In m (machines (db two_busy_machines))
                    /\ candidate None (Some "windows") [] m)
      /\ (forall m, In m (machines (db two_busy_machines)) ->
                    candidate None (Some "windows") [] m ->
                    Machine.locked m = true)
      /\ lock_machine None (Some "windows") [] (at_second 9)
           two_busy_machines
         = (Return None, two_busy_machines)).
Proof.
  assert (Hc : conflicting (Some "win7") (Some "windows") []).
  { left. split; reflexivity. }
  assert (Hv : forall p, ~ conflicting None p []).
  { intros p [[H _]|[H _]]; discriminate. }
  assert (Hnone : forall m, In m (machines (db two_machines)) ->
                            ~ candidate None (Some "linux") [] m).
  { intros m Hin Hcand. apply lock_machine_filter_candidate in Hcand.
    simpl in Hin. destruct Hin as [<-|[<-|[]]]; discriminate. }
  assert (Hex : exists m, In m (machines (db two_busy_machines))
                          /\ candidate None (Some "windows") [] m).
  { exists (vm 1 "win7" "windows" [] true). split; [simpl; auto|].
    apply lock_machine_filter_candidate. reflexivity. }
  assert (Hall : forall m, In m (machines (db two_busy_machines)) ->
                           candidate None (Some "windows") [] m ->
                           Machine.locked m = true).
  { intros m Hin _. simpl in Hin. destruct Hin as [<-|[<-|[]]]; reflexivity. }
  split; [|split].
  - destruct (lock_machine_without_selection two_machines (Some "win7")
                (Some "windows") [] (at_second 9)) as [H _].
    destruct (H Hc) as [H1 [H2 _]]. auto.
  - destruct (lock_machine_without_selection two_machines None
                (Some "linux") [] (at_second 9)) as [_ [H _]].
    split; [apply Hv|]. split; [reflexivity|]. split; [exact Hnone|].
    exact (H (Hv _) eq_refl Hnone).
  - destruct (lock_machine_without_selection two_busy_machines None
                (Some "windows") [] (at_second 9)) as [_ [_ H]].
    split; [apply Hv|]. split; [reflexivity|]. split; [exact Hex|].
    split; [exact Hall|]. exact (H (Hv _) eq_refl Hex Hall).
Defined.

(** ** Sample Registry *)

(** C3, evaluation at the failing input. The two files differ and share
    their md5; each has been registered once, [b] as row 2. Registering [b]
    again hits the unique index on sha256, and the re-read, which filters by
    md5, returns row 1, the row of the other content. *)
Theorem register_sample_rereads_by_md5 :
  map Sample.sha256 (samples (db both_registered)) = ["sha256-a"; "sha256-b"]
  /\ map Sample.id (samples (db both_registered)) = [1; 2]
  /\ result (register_sample (File "/tmp/b.bin")) both_registered
     = Return (Some 1)
  /\ option_map Sample.sha256 (get_sample 1 (db both_registered))
     = Some "sha256-a"
  /\ db (run (register_sample (File "/tmp/b.bin")) both_registered)
     = db both_registered.
Proof. vm_compute. repeat split; reflexivity. Qed.

Lemma has_sha256_In (h : string) (s : Store) :
  has_sha256 h s = false -> ~ In h (map Sample.sha256 (samples s)).
Proof.
  unfold has_sha256. intros H Hin. apply in_map_iff in Hin.
  destruct Hin as [r [Hr Hin]].
  assert (existsb (fun r => String.eqb (Sample.sha256 r) h) (samples s) = true).
  { apply existsb_exists. exists r. split; [exact Hin|].
    rewrite Hr. apply String.eqb_refl. }
  congruence.
Qed.

Ltac world_simpl :=
  cbn [fst snd db fs log faults with_db with_log with_faults machines samples
       tasks insert_sample insert_task is_SQLAlchemyError].

Lemma commit_or_reread_store (i : FileInfo) (parent : option Z) (w : World) :
  let w' := run (commit_or_reread i parent) w in
  fs w' = fs w
  /\ machines (db w') = machines (db w)
  /\ tasks (db w') = tasks (db w)
  /\ (samples (db w') = samples (db w)
      \/ (exists row,
            samples (db w') = (samples (db w) ++ [row])%list
            /\ Sample.sha256 row = get_sha256 i
            /\ has_sha256 (get_sha256 i) (db w) = false
            /\ result (commit_or_reread i parent) w
               = Return (Some (Some row)))).
Proof.
  unfold run, result, commit_or_reread, except_IntegrityError,
    except_SQLAlchemyError, commit_sample, query, bind, store_call, get_db,
    ret, raise, logmsg.
  destruct w as [d f l fa]. world_simpl.
  destruct (String.eqb (get_type i) "" || has_sha256 (get_sha256 i) d) eqn:E.
  - destruct fa as [|[|] [|[|] fa']]; world_simpl; rewrite ?E; world_simpl;
      auto 6.
  - pose proof E as E'. apply orb_false_iff in E'. destruct E' as [_ E'].
    destruct fa as [|[|] fa']; world_simpl; rewrite ?E; world_simpl; auto 6.
    + repeat split; auto. right. eexists. repeat split; auto.
    + repeat split; auto. right. eexists. repeat split; auto.
Qed.
Lemma NoDup_snoc {A} (l : list A) (x : A) :
  NoDup l -> ~ In x l -> NoDup (l ++ [x]).
Proof.
  induction l as [|h l IH]; simpl; intros Hnd Hx.
  - constructor; [intros []|constructor].
  - inversion Hnd as [|? ? Hh Hl]; subst. constructor.
    + rewrite in_app_iff. simpl. intuition.
    + apply IH; intuition.
Qed.

(** The unique index is an invariant of the sample step, hence of
    [register_sample]: submitting content whose sha256 is in the table never
    adds a second row. *)
Lemma commit_or_reread_keeps_sha256_unique (i : FileInfo) (parent : option Z)
    (w : World) :
  sha256_unique (db w) ->
  sha256_unique (db (run (commit_or_reread i parent) w)).
Proof.
  intros Hu. unfold sha256_unique in *.
  destruct (commit_or_reread_store i parent w)
    as [_ [_ [_ [H|[row [H [Hs [Hn _]]]]]]]]; rewrite H; [exact Hu|].
  rewrite map_app. simpl. apply NoDup_snoc; [exact Hu|].
  rewrite Hs. now apply has_sha256_In.
Qed.

Lemma register_sample_keeps_sha256_unique (obj : Obj) (w : World) :
  sha256_unique (db w) ->
  sha256_unique (db (run (register_sample obj) w)).
Proof.
  intros Hu.
  assert (Hpath : forall p, sha256_unique
                              (db (run (register_sample_path p) w))).
  { intros p. unfold register_sample_path, run, bind, file_info.
    destruct (fs w p) as [i|]; [|exact Hu].
    pose proof (commit_or_reread_keeps_sha256_unique i None w Hu) as H.
    unfold run in H.
    destruct (commit_or_reread i None w) as [[[[row|]|]|e] w']; exact H. }
  destruct obj; simpl; auto.
Qed.

(** Registering content that is already in the table leaves the table as it
    is. *)
Lemma register_sample_known_content (path : string) (i : FileInfo)
    (w : World) :
  fs w path = Some i ->
  has_sha256 (get_sha256 i) (db w) = true ->
  samples (db (run (register_sample (File path)) w)) = samples (db w).
Proof.
  intros Hfs Hhas.
  unfold register_sample, register_sample_path, run, bind, file_info.
  rewrite Hfs.
  destruct (commit_or_reread_store i None w)
    as [_ [_ [_ [H|[row [_ [_ [Hn _]]]]]]]]; [|congruence].
  unfold run in H.
  destruct (commit_or_reread i None w) as [[[[row|]|]|e] w']; exact H.
Qed.
(** ** Database.add: the task step *)

Lemma with_log_same (w : World) : with_log (log w ++ []) w = w.
Proof. destruct w. unfold with_log. simpl. now rewrite app_nil_r. Qed.

Lemma get_or_create_tags_ok (names : list string) (w : World) :
  faults w = [] -> get_or_create_tags names w = (Return names, w).
Proof.
  intros Hf. induction names as [|n names IH]; [reflexivity|].
  simpl. unfold bind. rewrite (store_call_ok w Hf), IH. reflexivity.
Qed.

Lemma get_or_create_tags_frame (names : list string) (w : World) :
  db (run (get_or_create_tags names) w) = db w
  /\ fs (run (get_or_create_tags names) w) = fs w
  /\ log (run (get_or_create_tags names) w) = log w.
Proof.
  revert w. induction names as [|n names IH]; intros w; [now split|].
  simpl. unfold run, bind, store_call.
  destruct w as [d f l fa].
  destruct fa as [|[|] fa]; world_simpl; [| now split |].
  - specialize (IH (mkWorld d f l [])). unfold run in IH.
    destruct (get_or_create_tags names (mkWorld d f l [])) as [[r|e] w'];
      exact IH.
  - specialize (IH (mkWorld d f l fa)). unfold run in IH.
    unfold with_faults. world_simpl.
    destruct (get_or_create_tags names (mkWorld d f l fa)) as [[r|e] w'];
      exact IH.
Qed.

(** The clock a submission stores, and whether it warns. *)
Lemma resolve_clock_frame (c : option ClockArg) (w : World) :
  exists d l, resolve_clock c w = (Return d, with_log (log w ++ l) w).
Proof.
  unfold resolve_clock.
  destruct c as [[s|d]|].
  - destruct (String.eqb s "").
    + exists epoch, []. unfold ret. now rewrite with_log_same.
    + destruct (Strptime.strptime s) as [d|].
      * exists d, []. unfold ret. now rewrite with_log_same.
      * eexists epoch, [_]. reflexivity.
  - exists d, []. unfold ret. now rewrite with_log_same.
  - exists epoch, []. unfold ret. now rewrite with_log_same.
Qed.

Lemma add_task_ok (target : string) (obj : Obj) (a : Args.t)
    (sample_id : option Z) (started_on : option datetime)
    (tags : option string) (now : datetime) (w w1 : World) (d : datetime) :
  faults w = [] ->
  resolve_clock (Args.clock a) w = (Return d, w1) ->
  add_task target obj a sample_id started_on tags now w
  = (Return (Some (next_task_id (db w))),
     with_db (insert_task
                (task_row (next_task_id (db w)) target obj a sample_id
                          started_on (requested_names tags) d now)
                (db w)) w1).
Proof.
  intros Hf Hc. unfold add_task, bind.
  rewrite (get_or_create_tags_ok _ w Hf), Hc.
  destruct (resolve_clock_frame (Args.clock a) w) as [d' [l Hc']].
  rewrite Hc in Hc'. injection Hc' as -> ->.
  unfold except_SQLAlchemyError, bind, store_call, get_db. world_simpl.
  rewrite Hf. reflexivity.
Qed.

(** When the task step returns [None], the store is as before and the last
    log record is the debug record of the handler. *)
Lemma add_task_none (target : string) (obj : Obj) (a : Args.t)
    (sample_id : option Z) (started_on : option datetime)
    (tags : option string) (now : datetime) (w : World) :
  result (add_task target obj a sample_id started_on tags now) w
  = Return None ->
  db (run (add_task target obj a sample_id started_on tags now) w) = db w
  /\ exists l msg,
       log (run (add_task target obj a sample_id started_on tags now) w)
       = (log w ++ l ++ [(DEBUG, msg)])%list.
Proof.
  unfold result, run, add_task, bind.
  pose proof (get_or_create_tags_frame (requested_names tags) w) as Hg.
  unfold run in Hg.
  destruct (get_or_create_tags (requested_names tags) w) as [[names|e] w1];
    [|discriminate]. simpl in Hg. destruct Hg as [Hdb [_ Hlog]].
  destruct (resolve_clock_frame (Args.clock a) w1) as [d [l ->]].
  unfold except_SQLAlchemyError, bind, store_call, get_db, logmsg, ret.
  destruct w1 as [d1 f1 l1 fa1]. world_simpl.
  destruct fa1 as [|[|] fa1]; world_simpl; try discriminate.
  intros _. simpl in Hdb, Hlog. subst. split; [reflexivity|].
  exists l. eexists. now rewrite app_assoc.
Qed.
(** ** Database.add under store failures *)

Lemma commit_or_reread_log (i : FileInfo) (parent : option Z) (w : World) :
  match result (commit_or_reread i parent) w with
  | Return None =>
      db (run (commit_or_reread i parent) w) = db w
      /\ exists msg,
           log (run (commit_or_reread i parent) w)
           = (log w ++ [(DEBUG, msg)])%list
  | Return (Some _) => log (run (commit_or_reread i parent) w) = log w
  | Raise _ => True
  end.
Proof.
  unfold run, result, commit_or_reread, except_IntegrityError,
    except_SQLAlchemyError, commit_sample, query, bind, store_call, get_db,
    ret, raise, logmsg.
  destruct w as [d f l fa]. world_simpl.
  destruct (String.eqb (get_type i) "" || has_sha256 (get_sha256 i) d) eqn:E.
  - destruct fa as [|[|] [|[|] fa']]; world_simpl; rewrite ?E; world_simpl;
      try reflexivity; split; try reflexivity; eexists; reflexivity.
  - destruct fa as [|[|] fa']; world_simpl; rewrite ?E; world_simpl;
      try reflexivity; split; try reflexivity; eexists; reflexivity.
Qed.



(** ** Database.add_path *)

(** C10. When the path is [None] or empty, or no file exists at it,
    [add_path] logs a warning and returns [None]; it makes no store call and
    the store, with its Task and Sample rows, is as before. *)
Theorem add_path_without_file :
  forall (w : World) (file_path : option string) (a : Args.t)
         (now : datetime),
    file_path = None \/ file_path = Some ""
    \/ (exists p, file_path = Some p /\ path_exists w p = false) ->
    result (add_path file_path a now) w = Return None
    /\ db (run (add_path file_path a now) w) = db w
    /\ faults (run (add_path file_path a now) w) = faults w
    /\ exists msg,
         log (run (add_path file_path a now) w)
         = (log w ++ [(WARNING, msg)])%list.
Proof.
  intros w file_path a now H. unfold result, run, add_path.
  destruct H as [->|[->|[p [-> Hp]]]].
  - simpl. repeat split. eexists. reflexivity.
  - simpl. repeat split. eexists. reflexivity.
  - rewrite Hp, orb_true_r. simpl. repeat split. eexists. reflexivity.
Qed.

Lemma add_path_without_file_witness :
  (exists p, Some "/tmp/missing.bin" = Some p
             /\ path_exists files_only p = false)
  /\ result (add_path (Some "/tmp/missing.bin") Args.defaults (at_second 9))
            files_only = Return None
  /\ db (run (add_path (Some "/tmp/missing.bin") Args.defaults (at_second 9))
             files_only) = db files_only.
Proof.
  assert (H : exists p, Some "/tmp/missing.bin" = Some p
                        /\ path_exists files_only p = false).
  { exists "/tmp/missing.bin". split; reflexivity. }
  split; [exact H|].
  destruct (add_path_without_file files_only (Some "/tmp/missing.bin")
              Args.defaults (at_second 9) (or_intror (or_intror H)))
    as [H1 [H2 _]].
  split; [exact H1|exact H2].
Defined.

(** ** Database.add without store failures *)

Lemma commit_or_reread_ok (i : FileInfo) (parent : option Z) (w : World) :
  faults w = [] ->
  commit_or_reread i parent w
  = if String.eqb (get_type i) "" || has_sha256 (get_sha256 i) (db w)
    then (Return (Some (sample_by_md5 (get_md5 i) (db w))), w)
    else let row := sample_of (next_id (map Sample.id (samples (db w))))
                              i parent in
         (Return (Some (Some row)), with_db (insert_sample row (db w)) w).
Proof.
  intros Hf.
  unfold commit_or_reread, except_IntegrityError, except_SQLAlchemyError,
    commit_sample, bind, get_db, raise, ret.
  rewrite (store_call_ok w Hf).
  destruct (String.eqb (get_type i) "" || has_sha256 (get_sha256 i) (db w)).
  - now rewrite (query_ok _ w Hf).
  - reflexivity.
Qed.

(** The sample step hands over to the task step in a world that differs at
    most by the new Sample row. *)
Lemma add_reaches_task_step (w : World) (obj : Obj) (a : Args.t)
    (now : datetime) :
  faults w = [] ->
  sample_resolves w obj ->
  exists w0 sid,
    faults w0 = [] /\ log w0 = log w /\ fs w0 = fs w
    /\ tasks (db w0) = tasks (db w)
    /\ machines (db w0) = machines (db w)
    /\ (forall u, obj = URL u -> sid = None)
    /\ add obj a now w
       = add_task (target_of obj) obj a sid (started_at obj now)
                  (tags_of w obj a) now w0.
Proof.
  intros Hf Hres.
  assert (Hfile : forall path,
            sample_resolves w (File path) ->
            exists w0 sid,
              faults w0 = [] /\ log w0 = log w /\ fs w0 = fs w
              /\ tasks (db w0) = tasks (db w)
              /\ machines (db w0) = machines (db w)
              /\ add_file path obj a now w
                 = add_task path obj a sid (started_at obj now)
                     (match fs w path with
                      | Some i => force_64_bit (get_type i) (Args.machine a)
                                               (Args.tags a)
                      | None => Args.tags a
                      end) now w0).
  { intros path [i [Hfs Hok]].
    unfold add_file, bind, file_info. rewrite Hfs.
    rewrite (commit_or_reread_ok i _ w Hf).
    destruct (String.eqb (get_type i) "" || has_sha256 (get_sha256 i) (db w))
      eqn:E.
    - destruct Hok as [[Ht Hh]|Hmd5].
      + exfalso. apply orb_true_iff in E. destruct E as [E|E].
        * apply String.eqb_eq in E. contradiction.
        * congruence.
      + destruct (sample_by_md5 (get_md5 i) (db w)) as [row|];
          [|contradiction].
        exists w, (Some (Sample.id row)). repeat split; auto.
    - cbv zeta.
      exists (with_db (insert_sample
                         (sample_of (next_id (map Sample.id (samples (db w))))
                                    i (Args.sample_parent_id a))
                         (db w)) w),
             (Some (Sample.id
                      (sample_of (next_id (map Sample.id (samples (db w))))
                                 i (Args.sample_parent_id a)))).
      repeat split; auto. }
  destruct obj as [p|p|p|u]; simpl in *.
  - destruct (Hfile p Hres) as [w0 [sid H]]. exists w0, sid.
    repeat split; try tauto. discriminate.
  - destruct (Hfile p Hres) as [w0 [sid H]]. exists w0, sid.
    repeat split; try tauto. discriminate.
  - destruct (Hfile p Hres) as [w0 [sid H]]. exists w0, sid.
    repeat split; try tauto. discriminate.
  - exists w, None. repeat split; auto.
Qed.
Lemma add_ok (w : World) (obj : Obj) (a : Args.t) (now : datetime)
    (d : datetime) (l : list (LogLevel * string)) :
  faults w = [] ->
  sample_resolves w obj ->
  (forall w0, resolve_clock (Args.clock a) w0
              = (Return d, with_log (log w0 ++ l) w0)) ->
  exists sid row,
    row = task_row (next_task_id (db w)) (target_of obj) obj a sid
                   (started_at obj now) (requested_names (tags_of w obj a))
                   d now
    /\ (forall u, obj = URL u -> sid = None)
    /\ result (add obj a now) w = Return (Some (Task.id row))
    /\ tasks (db (run (add obj a now) w)) = (tasks (db w) ++ [row])%list
    /\ machines (db (run (add obj a now) w)) = machines (db w)
    /\ log (run (add obj a now) w) = (log w ++ l)%list.
Proof.
  intros Hf Hres Hclock.
  destruct (add_reaches_task_step w obj a now Hf Hres)
    as [w0 [sid [Hf0 [Hl0 [_ [Ht0 [Hm0 [Hurl Hadd]]]]]]]].
  exists sid. eexists. split; [reflexivity|]. split; [exact Hurl|].
  unfold result, run. rewrite Hadd.
  rewrite (add_task_ok _ _ _ _ _ _ _ w0 _ d Hf0 (Hclock w0)).
  unfold next_task_id. rewrite Ht0. world_simpl.
  rewrite Ht0, Hm0, Hl0. repeat split; reflexivity.
Qed.

Lemma strptime_nonempty (s : string) (d : datetime) :
  Strptime.strptime s = Some d -> String.eqb s "" = false.
Proof. destruct s; [discriminate|reflexivity]. Qed.

(** ** The clock of a submission *)



(** ** split, join and the tag names *)

Lemma split_nonempty (c : ascii) (s : string) : split c s <> [].
Proof.
  destruct s as [|a s]; simpl; [discriminate|].
  destruct (Ascii.eqb a c); [discriminate|].
  destruct (split c s); discriminate.
Qed.

Lemma split_app (c : ascii) (a b : string) :
  split c (a ++ String c b) = (split c a ++ split c b)%list.
Proof.
  induction a as [|h a IH]; simpl.
  - now rewrite Ascii.eqb_refl.
  - destruct (Ascii.eqb h c); [now rewrite IH|].
    rewrite IH. pose proof (split_nonempty c a) as Hne.
    destruct (split c a); [contradiction|reflexivity].
Qed.

Lemma split_no_char (c : ascii) (s : string) :
  no_char c s = true -> split c s = [s].
Proof.
  induction s as [|h s IH]; simpl; [reflexivity|].
  intros H. apply andb_true_iff in H. destruct H as [Hh Hs].
  apply negb_true_iff in Hh. rewrite Hh, (IH Hs). reflexivity.
Qed.

Lemma remove_spaces_no_char (s : string) :
  no_char " " s = true -> remove_spaces s = s.
Proof.
  induction s as [|h s IH]; simpl; [reflexivity|].
  intros H. apply andb_true_iff in H. destruct H as [Hh Hs].
  apply negb_true_iff in Hh. rewrite Hh, (IH Hs). reflexivity.
Qed.

Lemma remove_spaces_app (a b : string) :
  remove_spaces (a ++ b) = (remove_spaces a ++ remove_spaces b)%string.
Proof.
  induction a as [|h a IH]; simpl; [reflexivity|].
  destruct (Ascii.eqb h " "); simpl; now rewrite IH.
Qed.

Lemma no_char_app (c : ascii) (a b : string) :
  no_char c (a ++ b) = no_char c a && no_char c b.
Proof.
  induction a as [|h a IH]; simpl; [reflexivity|].
  now rewrite IH, andb_assoc.
Qed.

Lemma clean_name_parts (s : string) :
  clean_name s = true ->
  s <> "" /\ no_char " " s = true /\ no_char "," s = true.
Proof.
  unfold clean_name. rewrite !andb_true_iff, negb_true_iff.
  intros [[H1 H2] H3]. apply String.eqb_neq in H1. auto.
Qed.

Lemma join_names_cons (n : string) (m : string) (names : list string) :
  join_names (n :: m :: names)
  = (n ++ String "," (join_names (m :: names)))%string.
Proof. reflexivity. Qed.

Lemma join_names_no_space (names : list string) :
  Forall (fun n => clean_name n = true) names ->
  no_char " " (join_names names) = true.
Proof.
  induction 1 as [|n names Hn Hrest IH]; [reflexivity|].
  apply clean_name_parts in Hn. destruct Hn as [_ [Hsp _]].
  destruct names as [|m names]; [exact Hsp|].
  rewrite join_names_cons, no_char_app, Hsp. simpl. exact IH.
Qed.

Lemma split_join_names (names : list string) :
  names <> [] ->
  Forall (fun n => clean_name n = true) names ->
  split "," (join_names names) = names.
Proof.
  intros Hne H. induction H as [|n names Hn Hrest IH]; [contradiction|].
  apply clean_name_parts in Hn. destruct Hn as [_ [_ Hco]].
  destruct names as [|m names].
  - simpl. now apply split_no_char.
  - rewrite join_names_cons, split_app, (split_no_char _ _ Hco), IH;
      [reflexivity|discriminate].
Qed.

Lemma join_names_not_empty (names : list string) :
  names <> [] ->
  Forall (fun n => clean_name n = true) names ->
  String.eqb (join_names names) "" = false.
Proof.
  intros Hne H. destruct H as [|n names Hn Hrest]; [contradiction|].
  apply clean_name_parts in Hn. destruct Hn as [Hn _].
  apply String.eqb_neq.
  destruct names as [|m names]; [exact Hn|].
  rewrite join_names_cons. destruct n; [contradiction|discriminate].
Qed.

(** The names [reschedule] hands over come back as they were. *)
Lemma requested_names_joined (names : list string) :
  Forall (fun n => clean_name n = true) names ->
  requested_names (match names with
                   | [] => None
                   | _ :: _ => Some (join_names names)
                   end)
  = names.
Proof.
  intros H. destruct names as [|n names]; [reflexivity|].
  unfold requested_names, tag_names.
  rewrite join_names_not_empty by (discriminate || exact H).
  rewrite remove_spaces_no_char by now apply join_names_no_space.
  apply split_join_names; [discriminate|exact H].
Qed.

Lemma string_app_not_empty (a : string) (c : ascii) (b : string) :
  String.eqb (a ++ String c b) "" = false.
Proof. destruct a; reflexivity. Qed.

(** With the [64_bit] rule applied on the way. *)
Lemma requested_names_forced (file_type : string) (machine : option string)
    (names : list string) :
  Forall (fun n => clean_name n = true) names ->
  requested_names
    (force_64_bit file_type machine
       (match names with
        | [] => None
        | _ :: _ => Some (join_names names)
        end))
  = (names ++ (if contains "PE32+" file_type && negb (truthy machine)
               then ["64_bit"] else []))%list.
Proof.
  intros H. unfold force_64_bit.
  destruct (contains "PE32+" file_type && negb (truthy machine)).
  - destruct names as [|n names]; [reflexivity|].
    rewrite join_names_not_empty by (discriminate || exact H).
    unfold requested_names, tag_names.
    change ((join_names (n :: names) ++ ",64_bit")%string)
      with ((join_names (n :: names) ++ String "," "64_bit")%string).
    rewrite string_app_not_empty, remove_spaces_app.
    rewrite remove_spaces_no_char by now apply join_names_no_space.
    change (remove_spaces (String "," "64_bit")) with (String "," "64_bit").
    rewrite split_app, split_join_names; [reflexivity|discriminate|exact H].
  - rewrite app_nil_r. now apply requested_names_joined.
Qed.
(** ** Database.reschedule *)

Lemma next_id_fresh (ids : list Z) : ~ In (next_id ids) ids.
Proof.
  assert (H : forall x, In x ids -> x <= fold_right Z.max 0 ids).
  { induction ids as [|h ids IH]; simpl; [intros x []|].
    intros x [<-|Hx]; [lia|]. specialize (IH x Hx). lia. }
  intros Hin. specialize (H _ Hin). unfold next_id in H. lia.
Qed.

Lemma map_id_rewrite_row (i : Z) (f : Task.t -> Task.t) (l : list Task.t) :
  (forall r, Task.id (f r) = Task.id r) ->
  map Task.id (rewrite_row Task.id i f l) = map Task.id l.
Proof.
  intros Hf. unfold rewrite_row. induction l as [|h l IH]; [reflexivity|].
  simpl. rewrite IH. destruct (Task.id h =? i); [now rewrite Hf|reflexivity].
Qed.

Lemma find_app_found {A} (p : A -> bool) (l l' : list A) (x : A) :
  find p l = Some x -> find p (l ++ l') = Some x.
Proof.
  induction l as [|h l IH]; simpl; [discriminate|].
  destruct (p h); [trivial|exact IH].
Qed.

(** C7, as stated, fails for a file task whose target is gone: the row is
    set to [recovered], [add_path] refuses the missing file, and [reschedule]
    returns [None] without a new Task. *)
Lemma reschedule_missing_file :
  option_map Task.category (get_task 1 (db file_task_gone)) = Some CatFile
  /\ result (reschedule 1 (at_second 9)) file_task_gone = Return PyNone
  /\ status_of 1 (run (reschedule 1 (at_second 9)) file_task_gone)
     = Some TASK_RECOVERED
  /\ map Task.id (tasks (db (run (reschedule 1 (at_second 9)) file_task_gone)))
     = [1].
Proof. vm_compute. repeat split; reflexivity. Qed.

(** C7, amended. Without store failures: [reschedule] of an id that is not
    in the table returns [None] and changes nothing; for a task in the table
    whose tag names are clean and whose resubmission reaches the task step
    (for the file-bearing categories the target still exists), it sets the
    row to [recovered] and appends one row with a fresh id, status [pending],
    the category, target, timeout, package, options, custom, machine,
    platform, memory and enforce_timeout flags and clock of the original, its
    priority with 0 replaced by 1, and its tag names, followed by [64_bit]
    when the file is PE32+ and no machine is requested. *)
Theorem reschedule_clones_task :
  forall (w : World) (now : datetime),
    faults w = [] ->
    (forall task_id,
       get_task task_id (db w) = None ->
       reschedule task_id now w = (Return PyNone, w))
    /\ (forall row,
          task_ids_unique (db w) ->
          In row (tasks (db w)) ->
          Task.target row <> "" ->
          sample_resolves w (resubmitted row) ->
          Forall (fun n => clean_name n = true) (Task.tags row) ->
          let w' := run (reschedule (Task.id row) now) w in
          exists new,
            result (reschedule (Task.id row) now) w
            = Return (PyInt (Task.id new))
            /\ ~ In (Task.id new) (map Task.id (tasks (db w)))
            /\ tasks (db w')
               = (rewrite_row Task.id (Task.id row)
                    (Task.set_status TASK_RECOVERED) (tasks (db w))
                  ++ [new])%list
            /\ status_of (Task.id row) w' = Some TASK_RECOVERED
            /\ Task.status new = TASK_PENDING
            /\ Task.category new = Task.category row
            /\ Task.target new = Task.target row
            /\ Task.timeout new = Task.timeout row
            /\ Task.package new = Task.package row
            /\ Task.options new = Task.options row
            /\ Task.priority new
               = (if Task.priority row =? 0 then 1 else Task.priority row)
            /\ Task.custom new = Task.custom row
            /\ Task.machine new = Task.machine row
            /\ Task.platform new = Task.platform row
            /\ Task.memory new = Task.memory row
            /\ Task.enforce_timeout new = Task.enforce_timeout row
            /\ Task.clock new = Task.clock row
            /\ Task.tags new
               = (Task.tags row
                  ++ match Task.category row, fs w (Task.target row) with
                     | CatUrl, _ | _, None => []
                     | _, Some i =>
                         if contains "PE32+" (get_type i)
                            && negb (truthy (Task.machine row))
                         then ["64_bit"] else []
                     end)%list).
Proof.
  intros w now Hf. split.
  - intros task_id Hnone.
    unfold reschedule, view_task, except_SQLAlchemyError, bind.
    rewrite (query_ok _ w Hf), Hnone. reflexivity.
  - intros row Hnd Hin Htarget Hres Hclean w'. subst w'.
    set (w1 := with_db (update_task (Task.id row)
                          (Task.set_status TASK_RECOVERED) (db w)) w).
    assert (Hf1 : faults w1 = []) by exact Hf.
    assert (Hres1 : sample_resolves w1 (resubmitted row)).
    { unfold sample_resolves in *. destruct (resubmitted row); exact Hres. }
    (* the four variants are [add] on the object of the category *)
    assert (Hdispatch : exists spid st,
              reschedule (Task.id row) now w
              = (r <- add (resubmitted row)
                          (Args.set_tail spid false (reschedule_args row st))
                          now ;;
                 ret (of_option r)) w1).
    { unfold reschedule, view_task, except_SQLAlchemyError, bind.
      rewrite (query_ok _ w Hf). unfold get_task.
      rewrite (find_key_In Task.id _ _ Hnd Hin).
      rewrite (query_ok _ w Hf).
      rewrite (find_key_In Task.id _ _ Hnd Hin).
      rewrite (commit_ok _ w Hf). fold w1. unfold ret at 1.
      unfold resubmitted in *.
      destruct (Task.category row) eqn:Ecat.
      - exists None, false. unfold add_path.
        destruct Hres1 as [i [Hfs _]].
        unfold truthy, path_exists. rewrite Hfs.
        apply String.eqb_neq in Htarget. rewrite Htarget. reflexivity.
      - exists None, false. reflexivity.
      - exists None, false. reflexivity.
      - exists (Some 1), true. reflexivity. }
    destruct Hdispatch as [spid [st Hd]].
    destruct (add_ok w1 (resubmitted row)
                (Args.set_tail spid false (reschedule_args row st)) now
                (Task.clock row) [] Hf1 Hres1)
      as [sid [new [Hnew [_ [Hr [Ht [_ _]]]]]]].
    { intros w0. unfold resolve_clock, ret. simpl.
      now rewrite with_log_same. }
    assert (Hids : map Task.id (tasks (db w1)) = map Task.id (tasks (db w))).
    { unfold w1, update_task. world_simpl.
      now apply map_id_rewrite_row. }
    assert (Hid : Task.id new = next_id (map Task.id (tasks (db w)))).
    { rewrite Hnew. unfold next_task_id. now rewrite Hids. }
    exists new. unfold result, run in *. rewrite Hd. unfold bind.
    destruct (add (resubmitted row)
                (Args.set_tail spid false (reschedule_args row st)) now w1)
      as [[r|e] w2]; [|discriminate].
    simpl in Hr, Ht. injection Hr as ->. simpl.
    split; [reflexivity|]. split; [rewrite Hid; apply next_id_fresh|].
    split; [exact Ht|]. split.
    { unfold status_of, get_task. rewrite Ht. unfold w1, update_task.
      world_simpl.
      rewrite (find_app_found _ _ _ (Task.set_status TASK_RECOVERED row));
        [reflexivity|].
      apply (find_key_updated Task.id _ row (Task.set_status TASK_RECOVERED));
        [reflexivity|exact Hnd|exact Hin]. }
    rewrite Hnew. unfold task_row. simpl.
    repeat split; try reflexivity.
    all: try (unfold resubmitted; now destruct (Task.category row)).
    all: try (destruct (Task.timeout row =? 0) eqn:E;
              [apply Z.eqb_eq in E; now rewrite E|reflexivity]).
    unfold resubmitted, tags_of, w1.
    destruct (Task.category row); world_simpl; simpl;
      try (destruct (fs w (Task.target row)) as [i|];
           [now apply requested_names_forced
           |rewrite app_nil_r; now apply requested_names_joined]).
    rewrite app_nil_r. now apply requested_names_joined.
Qed.

Lemma reschedule_clones_task_witness :
  faults file_task_running = []
  /\ task_ids_unique (db file_task_running)
  /\ In running_row (tasks (db file_task_running))
  /\ Task.target running_row <> ""
  /\ sample_resolves file_task_running (resubmitted running_row)
  /\ Forall (fun n => clean_name n = true) (Task.tags running_row)
  /\ exists new,
       result (reschedule 1 (at_second 9)) file_task_running
       = Return (PyInt (Task.id new))
       /\ status_of 1 (run (reschedule 1 (at_second 9)) file_task_running)
          = Some TASK_RECOVERED
       /\ Task.status new = TASK_PENDING
       /\ Task.target new = "/tmp/a.bin"
       /\ Task.priority new = 3
       /\ Task.clock new = mkdt 2024 12 31 23 59 0 0
       /\ Task.tags new = ["x64"; "gui"].
Proof.
  assert (Hnd : task_ids_unique (db file_task_running)).
  { unfold task_ids_unique. vm_compute.
    constructor; [intros []|constructor]. }
  assert (Hin : In running_row (tasks (db file_task_running))).
  { vm_compute. left. reflexivity. }
  assert (Ht : Task.target running_row <> "") by (vm_compute; discriminate).
  assert (Hres : sample_resolves file_task_running (resubmitted running_row)).
  { exists content_a. split; [reflexivity|]. right. vm_compute. discriminate. }
  assert (Hclean : Forall (fun n => clean_name n = true)
                          (Task.tags running_row)).
  { vm_compute. repeat constructor. }
  repeat (split; [assumption || reflexivity|]).
  destruct (reschedule_clones_task file_task_running (at_second 9) eq_refl)
    as [_ H].
  destruct (H running_row Hnd Hin Ht Hres Hclean)
    as (new & Hr & _ & _ & Hst & Hp & _ & Htg & _ & _ & _ & Hpr & _ & _ & _
        & _ & _ & Hcl & Htags).
  exists new. split; [exact Hr|]. split; [exact Hst|]. split; [exact Hp|].
  split; [rewrite Htg; reflexivity|]. split; [rewrite Hpr; reflexivity|].
  split; [rewrite Hcl; reflexivity|]. rewrite Htags. reflexivity.
Defined.

(** ** The re-read when no other content shares the md5 *)

Lemma NoDup_map_eq {A B} (f : A -> B) (l : list A) (a b : A) :
  NoDup (map f l) -> In a l -> In b l -> f a = f b -> a = b.
Proof.
  induction l as [|h l IH]; simpl; intros Hnd Ha Hb Hf; [destruct Ha|].
  inversion Hnd as [|? ? Hnotin Hnd']; subst.
  destruct Ha as [->|Ha], Hb as [->|Hb]; auto.
  - exfalso. apply Hnotin. rewrite Hf. now apply in_map.
  - exfalso. apply Hnotin. rewrite <- Hf. now apply in_map.
Qed.

Lemma first_filter_In {A} (p : A -> bool) (l : list A) (x : A) :
  In x l -> p x = true ->
  exists y, first (filter p l) = Some y /\ In y l /\ p y = true.
Proof.
  induction l as [|h l IH]; simpl; intros Hin Hp; [destruct Hin|].
  destruct (p h) eqn:E.
  - exists h. simpl. auto.
  - destruct Hin as [->|Hin]; [congruence|].
    destruct (IH Hin Hp) as [y [Hy [Hyl Hpy]]]. exists y. auto.
Qed.

(** Without store failures, when the content is in the table and every row
    with its md5 is a row of this content, [register_sample] returns the id
    of the row of this content and writes nothing. *)
Lemma register_sample_existing_row (w : World) (path : string)
    (i : FileInfo) (row : Sample.t) :
  faults w = [] ->
  sha256_unique (db w) ->
  fs w path = Some i ->
  In row (samples (db w)) ->
  Sample.sha256 row = get_sha256 i ->
  Sample.md5 row = get_md5 i ->
  (forall r, In r (samples (db w)) ->
             Sample.md5 r = get_md5 i -> Sample.sha256 r = get_sha256 i) ->
  register_sample (File path) w = (Return (Some (Sample.id row)), w).
Proof.
  intros Hf Hu Hfs Hin Hsha Hmd5 Hcoll.
  unfold register_sample, register_sample_path, bind, file_info.
  rewrite Hfs, (commit_or_reread_ok i None w Hf).
  assert (Hhas : has_sha256 (get_sha256 i) (db w) = true).
  { unfold has_sha256. apply existsb_exists. exists row.
    split; [exact Hin|]. rewrite Hsha. apply String.eqb_refl. }
  rewrite Hhas, orb_true_r. unfold sample_by_md5.
  destruct (first_filter_In
              (fun r => String.eqb (Sample.md5 r) (get_md5 i))
              (samples (db w)) row Hin)
    as [y [Hy [Hyl Hpy]]].
  { rewrite Hmd5. apply String.eqb_refl. }
  rewrite Hy. apply String.eqb_eq in Hpy.
  assert (y = row) as ->.
  { apply (NoDup_map_eq Sample.sha256 (samples (db w))); auto.
    rewrite Hsha. now apply Hcoll. }
  reflexivity.
Qed.

(** * Properties of the other methods *)

(** ** Rewriting rows and filters *)

Section Rewrite.
Context {A : Type} (key : A -> Z).

Lemma rewrite_row_twice (i : Z) (f g : A -> A) (l : list A) :
  (forall r, key (f r) = key r) ->
  rewrite_row key i g (rewrite_row key i f l)
  = rewrite_row key i (fun r => g (f r)) l.
Proof.
  intros Hf. unfold rewrite_row. rewrite map_map. apply map_ext.
  intros r. destruct (key r =? i) eqn:E.
  - now rewrite Hf, E.
  - now rewrite E.
Qed.

Lemma rewrite_row_ext (i : Z) (f g : A -> A) (l : list A) :
  (forall r, f r = g r) ->
  rewrite_row key i f l = rewrite_row key i g l.
Proof.
  intros H. unfold rewrite_row. apply map_ext. intros r.
  now destruct (key r =? i); rewrite ?H.
Qed.

Lemma map_key_rewrite_row (i : Z) (f : A -> A) (l : list A) :
  (forall r, key (f r) = key r) ->
  map key (rewrite_row key i f l) = map key l.
Proof.
  intros Hf. unfold rewrite_row. rewrite map_map. apply map_ext.
  intros r. now destruct (key r =? i); rewrite ?Hf.
Qed.

Lemma filter_rewrite_row (p : A -> bool) (i : Z) (f : A -> A) (l : list A) :
  (forall r, p (f r) = p r) ->
  filter p (rewrite_row key i f l) = rewrite_row key i f (filter p l).
Proof.
  intros Hp. unfold rewrite_row. induction l as [|h l IH]; [reflexivity|].
  simpl. destruct (key h =? i) eqn:E.
  - rewrite Hp. destruct (p h); simpl; now rewrite ?E, IH.
  - destruct (p h); simpl; now rewrite ?E, IH.
Qed.

Lemma first_rewrite_row (i : Z) (f : A -> A) (l : list A) :
  first (rewrite_row key i f l)
  = option_map (fun r => if key r =? i then f r else r) (first l).
Proof. destruct l; reflexivity. Qed.

(** Rewriting the row of key [key row] in a table with distinct keys. *)
Lemma rewrite_row_other (l : list A) (row : A) (f : A -> A) (r : A) :
  NoDup (map key l) -> In row l -> In r (rewrite_row key (key row) f l) ->
  r = f row \/ (In r l /\ key r <> key row).
Proof.
  intros Hnd Hin Hr. unfold rewrite_row in Hr. apply in_map_iff in Hr.
  destruct Hr as [x [Hx Hxl]].
  destruct (key x =? key row) eqn:E.
  - apply Z.eqb_eq in E. left. subst r. f_equal.
    revert Hnd Hin Hxl E. clear. induction l as [|h l IH]; simpl; [tauto|].
    intros Hnd Hin Hxl E. inversion Hnd as [|? ? Hnotin Hnd']; subst.
    destruct Hin as [->|Hin], Hxl as [->|Hxl]; auto.
    + exfalso. apply Hnotin. rewrite <- E. now apply in_map.
    + exfalso. apply Hnotin. rewrite E. now apply in_map.
  - apply Z.eqb_neq in E. right. subst r. auto.
Qed.

(** One row leaves the filter: the count drops by one. *)
Lemma length_filter_rewrite_out (p : A -> bool) (l : list A) (row : A)
    (f : A -> A) :
  NoDup (map key l) -> In row l -> p row = true -> p (f row) = false ->
  S (List.length (filter p (rewrite_row key (key row) f l)))
  = List.length (filter p l).
Proof.
  unfold rewrite_row.
  induction l as [|h l IH]; simpl; intros Hnd Hin Hp Hpf; [destruct Hin|].
  inversion Hnd as [|? ? Hnotin Hnd']; subst.
  destruct Hin as [->|Hin].
  - rewrite Z.eqb_refl, Hpf, Hp. simpl. f_equal. f_equal. f_equal.
    clear IH Hnd Hnd' Hp Hpf. induction l as [|x l IH]; [reflexivity|].
    simpl in *. destruct (key x =? key row) eqn:E.
    + apply Z.eqb_eq in E. exfalso. apply Hnotin. now left.
    + rewrite IH; [reflexivity|]. intros H. apply Hnotin. now right.
  - destruct (key h =? key row) eqn:E.
    + apply Z.eqb_eq in E. exfalso. apply Hnotin. rewrite E. now apply in_map.
    + destruct (p h); simpl; rewrite (IH Hnd' Hin Hp Hpf); reflexivity.
Qed.

(** One row enters the filter: the count grows by one. *)
Lemma length_filter_rewrite_in (p : A -> bool) (l : list A) (row : A)
    (f : A -> A) :
  NoDup (map key l) -> In row l -> p row = false -> p (f row) = true ->
  List.length (filter p (rewrite_row key (key row) f l))
  = S (List.length (filter p l)).
Proof.
  unfold rewrite_row.
  induction l as [|h l IH]; simpl; intros Hnd Hin Hp Hpf; [destruct Hin|].
  inversion Hnd as [|? ? Hnotin Hnd']; subst.
  destruct Hin as [->|Hin].
  - rewrite Z.eqb_refl, Hpf, Hp. simpl. f_equal. f_equal. f_equal.
    clear IH Hnd Hnd' Hp Hpf. induction l as [|x l IH]; [reflexivity|].
    simpl in *. destruct (key x =? key row) eqn:E.
    + apply Z.eqb_eq in E. exfalso. apply Hnotin. now left.
    + rewrite IH; [reflexivity|]. intros H. apply Hnotin. now right.
  - destruct (key h =? key row) eqn:E.
    + apply Z.eqb_eq in E. exfalso. apply Hnotin. rewrite E. now apply in_map.
    + destruct (p h); simpl; rewrite (IH Hnd' Hin Hp Hpf); reflexivity.
Qed.

(** A filter the rewrite does not see keeps its count. *)
Lemma length_filter_rewrite_same (p : A -> bool) (i : Z) (f : A -> A)
    (l : list A) :
  (forall r, key r = i -> p (f r) = p r) ->
  List.length (filter p (rewrite_row key i f l)) = List.length (filter p l).
Proof.
  intros Hp. unfold rewrite_row. induction l as [|h l IH]; [reflexivity|].
  simpl. destruct (key h =? i) eqn:E.
  - apply Z.eqb_eq in E. rewrite (Hp h E). destruct (p h); simpl; now rewrite IH.
  - destruct (p h); simpl; now rewrite IH.
Qed.
End Rewrite.

(** A key that selects one row. *)
Lemma filter_unique_key {A} (f : A -> string) (l : list A) (m : A) :
  NoDup (map f l) -> In m l ->
  filter (fun x => String.eqb (f x) (f m)) l = [m].
Proof.
  induction l as [|h l IH]; simpl; intros Hnd Hin; [destruct Hin|].
  inversion Hnd as [|? ? Hnotin Hnd']; subst.
  destruct Hin as [->|Hin].
  - rewrite String.eqb_refl. f_equal.
    clear IH Hnd Hnd'. induction l as [|x l IH]; [reflexivity|]. simpl in *.
    destruct (String.eqb (f x) (f m)) eqn:E.
    + apply String.eqb_eq in E. exfalso. apply Hnotin. now left.
    + apply IH. intros H. apply Hnotin. now right.
  - destruct (String.eqb (f h) (f m)) eqn:E; [|now apply IH].
    apply String.eqb_eq in E. exfalso. apply Hnotin. rewrite E.
    now apply in_map.
Qed.

(** ** lock_machine and unlock_machine without store failures *)

Lemma first_filter_Some_In {A} (p : A -> bool) (l : list A) (x : A) :
  first (filter p l) = Some x -> In x l /\ p x = true.
Proof.
  induction l as [|h l IH]; simpl; [discriminate|].
  destruct (p h) eqn:E; simpl.
  - intros [= <-]. auto.
  - intros H. destruct (IH H). auto.
Qed.

Lemma lock_machine_leases (w : World) (label platform : option string)
    (tags : list string) (now : datetime) (m : Machine.t) :
  faults w = [] ->
  NoDup (map Machine.id (machines (db w))) ->
  truthy label && truthy platform = false ->
  truthy label && nonempty tags = false ->
  first (filter is_unlocked
           (filter (lock_machine_filter label platform tags)
                   (machines (db w)))) = Some m ->
  lock_machine label platform tags now w
  = (Return (Some (Machine.set_lock true now m)),
     with_db (update_machine (Machine.id m) (Machine.set_lock true now)
                             (db w)) w).
Proof.
  intros Hf Hnd E1 E2 Hfirst.
  destruct (first_filter_Some_In _ _ _ Hfirst) as [Hin _].
  destruct (proj1 (filter_In _ _ _) Hin) as [Hin' _].
  unfold lock_machine. rewrite E1, E2.
  unfold except_SQLAlchemyError, bind. rewrite (query_ok _ w Hf).
  destruct (filter (lock_machine_filter label platform tags)
                   (machines (db w))) as [|c cs] eqn:Ec; [destruct Hin|].
  cbn [List.length]. rewrite (query_ok _ w Hf), Ec, Hfirst.
  unfold ret. rewrite (commit_ok _ w Hf).
  unfold refresh_machine, bind. rewrite query_ok by exact Hf.
  unfold get_machine, update_machine. cbn [machines db with_db].
  rewrite (find_key_updated Machine.id _ m (Machine.set_lock true now)
             (set_lock_id true now) Hnd Hin').
  reflexivity.
Qed.

(** Whatever the criteria, a machine that comes back was free. *)
Lemma lock_machine_returns_free (w : World) (label platform : option string)
    (tags : list string) (now : datetime) (m' : Machine.t) :
  faults w = [] ->
  NoDup (map Machine.id (machines (db w))) ->
  result (lock_machine label platform tags now) w = Return (Some m') ->
  exists m,
    In m (machines (db w)) /\ Machine.locked m = false
    /\ m' = Machine.set_lock true now m
    /\ run (lock_machine label platform tags now) w
       = with_db (update_machine (Machine.id m) (Machine.set_lock true now)
                                 (db w)) w.
Proof.
  intros Hf Hnd Hres.
  destruct (truthy label && truthy platform) eqn:E1.
  { unfold result, lock_machine in Hres. rewrite E1 in Hres. discriminate. }
  destruct (truthy label && nonempty tags) eqn:E2.
  { unfold result, lock_machine in Hres. rewrite E1, E2 in Hres.
    discriminate. }
  destruct (first (filter is_unlocked
                     (filter (lock_machine_filter label platform tags)
                             (machines (db w))))) as [m|] eqn:Efirst.
  - unfold result, run in *.
    rewrite (lock_machine_leases w label platform tags now m Hf Hnd E1 E2
               Efirst) in *.
    simpl in *. injection Hres as <-.
    destruct (first_filter_Some_In _ _ _ Efirst) as [Hin Hfree].
    apply filter_In in Hin. destruct Hin as [Hin _].
    exists m. unfold is_unlocked in Hfree. apply negb_true_iff in Hfree. auto.
  - exfalso. unfold result, lock_machine in Hres. rewrite E1, E2 in Hres.
    unfold except_SQLAlchemyError, bind in Hres.
    rewrite (query_ok _ w Hf) in Hres.
    destruct (filter (lock_machine_filter label platform tags)
                     (machines (db w))) as [|c cs] eqn:Ec;
      [discriminate|].
    cbn [List.length] in Hres.
    rewrite (query_ok _ w Hf), Ec, Efirst in Hres. discriminate.
Qed.

Lemma unlock_machine_releases (w : World) (label : string) (now : datetime)
    (m : Machine.t) :
  faults w = [] ->
  NoDup (map Machine.id (machines (db w))) ->
  machine_by_label label (db w) = Some m ->
  unlock_machine label now w
  = (Return (Some (Machine.set_lock false now m)),
     with_db (update_machine (Machine.id m) (Machine.set_lock false now)
                             (db w)) w).
Proof.
  intros Hf Hnd Hm.
  destruct (first_filter_Some_In _ _ _ Hm) as [Hin _].
  unfold unlock_machine, except_SQLAlchemyError, bind.
  rewrite (query_ok _ w Hf), Hm. rewrite (commit_ok _ w Hf).
  unfold refresh_machine, bind. rewrite query_ok by exact Hf.
  unfold get_machine, update_machine. cbn [machines db with_db].
  rewrite (find_key_updated Machine.id _ m (Machine.set_lock false now)
             (set_lock_id false now) Hnd Hin).
  reflexivity.
Qed.

Lemma machine_by_label_updated (label : string) (i : Z)
    (f : Machine.t -> Machine.t) (s : Store) :
  (forall m, Machine.label (f m) = Machine.label m) ->
  machine_by_label label (update_machine i f s)
  = option_map (fun m => if Machine.id m =? i then f m else m)
               (machine_by_label label s).
Proof.
  intros Hl. unfold machine_by_label, update_machine. cbn [machines].
  rewrite (filter_rewrite_row Machine.id).
  - apply first_rewrite_row.
  - intros r. now rewrite Hl.
Qed.


Ltac concrete_NoDup :=
  repeat (constructor; [simpl; intuition discriminate|]); constructor.


(** X2. Releasing is idempotent: with distinct ids and no store failure, a
    label that no machine carries gives [None] and writes nothing, and a
    second release of the same label leaves the store as a single release at
    the later time does. *)
Theorem unlock_machine_idempotent :
  forall (w : World) (label : string) (t1 t2 : datetime),
    faults w = [] ->
    NoDup (map Machine.id (machines (db w))) ->
    (machine_by_label label (db w) = None ->
     unlock_machine label t1 w = (Return None, w))
    /\ db (run (unlock_machine label t2) (run (unlock_machine label t1) w))
       = db (run (unlock_machine label t2) w).
Proof.
  intros w label t1 t2 Hf Hnd. split.
  - intros Hnone. unfold unlock_machine, except_SQLAlchemyError, bind.
    now rewrite (query_ok _ w Hf), Hnone.
  - destruct (machine_by_label label (db w)) as [m|] eqn:Hm.
    + unfold run at 2.
      rewrite (unlock_machine_releases w label t1 m Hf Hnd Hm).
      cbn [snd].
      set (w1 := with_db (update_machine (Machine.id m)
                            (Machine.set_lock false t1) (db w)) w).
      assert (Hby : machine_by_label label (db w1)
                    = Some (Machine.set_lock false t1 m)).
      { unfold w1. cbn [db with_db].
        rewrite machine_by_label_updated by reflexivity.
        rewrite Hm. simpl. now rewrite Z.eqb_refl. }
      assert (Hnd1 : NoDup (map Machine.id (machines (db w1)))).
      { unfold w1, update_machine. cbn [machines db with_db].
        now rewrite map_key_rewrite_row. }
      unfold run.
      rewrite (unlock_machine_releases w1 label t2 _ Hf Hnd1 Hby).
      rewrite (unlock_machine_releases w label t2 m Hf Hnd Hm).
      cbn [snd db with_db]. unfold w1, update_machine.
      cbn [machines samples tasks db with_db]. f_equal.
      rewrite (rewrite_row_twice Machine.id) by reflexivity. reflexivity.
    + unfold run, unlock_machine, except_SQLAlchemyError, bind.
      rewrite (query_ok _ w Hf), Hm. cbn [snd ret].
      now rewrite (query_ok _ w Hf), Hm.
Qed.

Lemma unlock_machine_idempotent_witness :
  faults two_busy_machines = []
  /\ NoDup (map Machine.id (machines (db two_busy_machines)))
  /\ machine_by_label "linux1" (db two_busy_machines) = None
  /\ unlock_machine "linux1" (at_second 1) two_busy_machines
     = (Return None, two_busy_machines)
  /\ db (run (unlock_machine "win7" (at_second 2))
             (run (unlock_machine "win7" (at_second 1)) two_busy_machines))
     = db (run (unlock_machine "win7" (at_second 2)) two_busy_machines).
Proof.
  assert (Hid : NoDup (map Machine.id (machines (db two_busy_machines))))
    by (simpl; concrete_NoDup).
  split; [reflexivity|]. split; [exact Hid|]. split; [reflexivity|].
  split.
  - exact (proj1 (unlock_machine_idempotent two_busy_machines "linux1"
                    (at_second 1) (at_second 1) eq_refl Hid) eq_refl).
  - exact (proj2 (unlock_machine_idempotent two_busy_machines "win7"
                    (at_second 1) (at_second 2) eq_refl Hid)).
Defined.

(** ** Counting free machines *)

Lemma count_machines_available_ok (w : World) :
  faults w = [] ->
  count_machines_available w
  = (Return (List.length (filter is_unlocked (machines (db w)))), w).
Proof.
  intros Hf. unfold count_machines_available, except_SQLAlchemyError.
  now rewrite (query_ok _ w Hf).
Qed.

(** X3. With distinct ids and no store failure, every lease that
    [lock_machine] grants lowers [count_machines_available] by exactly
    one. *)
Theorem lock_machine_takes_one :
  forall (w : World) (label platform : option string) (tags : list string)
         (now : datetime) (m : Machine.t),
    faults w = [] ->
    NoDup (map Machine.id (machines (db w))) ->
    result (lock_machine label platform tags now) w = Return (Some m) ->
    exists n,
      result count_machines_available
             (run (lock_machine label platform tags now) w) = Return n
      /\ result count_machines_available w = Return (S n).
Proof.
  intros w label platform tags now m' Hf Hnd Hres.
  destruct (lock_machine_returns_free w label platform tags now m' Hf Hnd Hres)
    as [m [Hin [Hfree [_ Hrun]]]].
  rewrite Hrun. unfold result.
  rewrite !count_machines_available_ok by exact Hf.
  eexists. split; [reflexivity|]. cbn [fst db with_db]. f_equal.
  unfold update_machine. cbn [machines]. symmetry.
  apply (length_filter_rewrite_out Machine.id); auto.
  unfold is_unlocked. now rewrite Hfree.
Qed.

Lemma lock_machine_takes_one_witness :
  faults two_machines = []
  /\ NoDup (map Machine.id (machines (db two_machines)))
  /\ result (lock_machine None (Some "windows") [] (at_second 1)) two_machines
     = Return (Some (Machine.set_lock true (at_second 1)
                       (vm 1 "win7" "windows" [] false)))
  /\ exists n,
       result count_machines_available
              (run (lock_machine None (Some "windows") [] (at_second 1))
                   two_machines) = Return n
       /\ result count_machines_available two_machines = Return (S n).
Proof.
  assert (Hid : NoDup (map Machine.id (machines (db two_machines))))
    by (simpl; concrete_NoDup).
  split; [reflexivity|]. split; [exact Hid|]. split; [reflexivity|].
  exact (lock_machine_takes_one two_machines None (Some "windows") []
           (at_second 1) _ eq_refl Hid eq_refl).
Defined.

(** X4. Exclusive lease, one call after the other: with distinct ids and no
    store failure, two consecutive calls of [lock_machine], whatever their
    criteria, never return the same machine. *)
Theorem lock_machine_twice_distinct :
  forall (w : World) (label1 platform1 label2 platform2 : option string)
         (tags1 tags2 : list string) (t1 t2 : datetime)
         (m1 m2 : Machine.t),
    faults w = [] ->
    NoDup (map Machine.id (machines (db w))) ->
    result (lock_machine label1 platform1 tags1 t1) w = Return (Some m1) ->
    result (lock_machine label2 platform2 tags2 t2)
           (run (lock_machine label1 platform1 tags1 t1) w)
    = Return (Some m2) ->
    Machine.id m1 <> Machine.id m2.
Proof.
  intros w l1 p1 l2 p2 g1 g2 t1 t2 m1 m2 Hf Hnd H1 H2.
  destruct (lock_machine_returns_free w l1 p1 g1 t1 m1 Hf Hnd H1)
    as [a [Hina [_ [-> Hrun]]]].
  rewrite Hrun in H2.
  set (w1 := with_db (update_machine (Machine.id a)
                        (Machine.set_lock true t1) (db w)) w) in *.
  assert (Hnd1 : NoDup (map Machine.id (machines (db w1)))).
  { unfold w1, update_machine. cbn [machines db with_db].
    now rewrite map_key_rewrite_row. }
  destruct (lock_machine_returns_free w1 l2 p2 g2 t2 m2 Hf Hnd1 H2)
    as [b [Hinb [Hfreeb [-> _]]]].
  unfold w1, update_machine in Hinb. cbn [machines db with_db] in Hinb.
  destruct (rewrite_row_other Machine.id _ a _ b Hnd Hina Hinb)
    as [->|[_ Hneq]].
  - discriminate.
  - simpl. congruence.
Qed.

Lemma lock_machine_twice_distinct_witness :
  faults two_machines = []
  /\ NoDup (map Machine.id (machines (db two_machines)))
  /\ leased Machine.id
       (result (lock_machine None (Some "windows") [] (at_second 1))
               two_machines) = Some 1
  /\ leased Machine.id
       (result (lock_machine None (Some "windows") [] (at_second 2))
               (run (lock_machine None (Some "windows") [] (at_second 1))
                    two_machines)) = Some 2
  /\ (1 <> 2)%Z.
Proof.
  assert (Hid : NoDup (map Machine.id (machines (db two_machines))))
    by (simpl; concrete_NoDup).
  split; [reflexivity|]. split; [exact Hid|]. split; [reflexivity|].
  split; [reflexivity|].
  exact (lock_machine_twice_distinct two_machines None (Some "windows")
           None (Some "windows") [] [] (at_second 1) (at_second 2)
           (Machine.set_lock true (at_second 1)
              (vm 1 "win7" "windows" [] false))
           (Machine.set_lock true (at_second 2)
              (vm 2 "win10" "windows" ["x64"] false))
           eq_refl Hid eq_refl eq_refl).
Defined.

(** ** What the lease methods write, whatever the store does *)

Lemma lock_machine_writes (w : World) (label platform : option string)
    (tags : list string) (now : datetime) :
  db (run (lock_machine label platform tags now) w) = db w
  \/ exists i,
       db (run (lock_machine label platform tags now) w)
       = update_machine i (Machine.set_lock true now) (db w).
Proof.
  unfold run, lock_machine.
  destruct (truthy label && truthy platform); [now left|].
  destruct (truthy label && nonempty tags); [now left|].
  unfold except_SQLAlchemyError, refresh_machine, commit, query, bind,
    store_call, get_db, ret, raise, logmsg.
  destruct w as [d f l fa]. world_simpl.
  destruct fa as [|[|] fa]; world_simpl; auto;
    destruct (List.length
                (filter (lock_machine_filter label platform tags)
                        (machines d))); world_simpl; auto.
  - destruct (first (filter is_unlocked
                       (filter (lock_machine_filter label platform tags)
                               (machines d)))) as [m|]; world_simpl; auto.
    destruct (get_machine (Machine.id m)
                (update_machine (Machine.id m) (Machine.set_lock true now) d));
      world_simpl; eauto.
  - destruct fa as [|[|] fa]; world_simpl; auto;
      destruct (first (filter is_unlocked
                         (filter (lock_machine_filter label platform tags)
                                 (machines d)))) as [m|]; world_simpl; auto.
    + destruct (get_machine (Machine.id m)
                  (update_machine (Machine.id m) (Machine.set_lock true now)
                                  d));
        world_simpl; eauto.
    + destruct fa as [|[|] fa]; world_simpl; auto.
      * destruct (get_machine (Machine.id m)
                    (update_machine (Machine.id m)
                                    (Machine.set_lock true now) d));
          world_simpl; eauto.
      * destruct fa as [|[|] fa]; world_simpl; eauto;
          destruct (get_machine (Machine.id m)
                      (update_machine (Machine.id m)
                                      (Machine.set_lock true now) d));
          world_simpl; eauto.
Qed.

Lemma unlock_machine_writes (w : World) (label : string) (now : datetime) :
  db (run (unlock_machine label now) w) = db w
  \/ exists i,
       db (run (unlock_machine label now) w)
       = update_machine i (Machine.set_lock false now) (db w).
Proof.
  unfold run, unlock_machine, except_SQLAlchemyError, refresh_machine, commit,
    query, bind, store_call, get_db, ret, raise, logmsg.
  destruct w as [d f l fa]. world_simpl.
  destruct fa as [|[|] fa]; world_simpl; auto;
    destruct (machine_by_label label d) as [m|]; world_simpl; auto.
  - destruct (get_machine (Machine.id m)
                (update_machine (Machine.id m) (Machine.set_lock false now) d));
      world_simpl; eauto.
  - destruct fa as [|[|] fa]; world_simpl; auto.
    + destruct (get_machine (Machine.id m)
                  (update_machine (Machine.id m) (Machine.set_lock false now)
                                  d));
        world_simpl; eauto.
    + destruct fa as [|[|] fa]; world_simpl; eauto;
        destruct (get_machine (Machine.id m)
                    (update_machine (Machine.id m)
                                    (Machine.set_lock false now) d));
        world_simpl; eauto.
Qed.

Lemma Forall2_rewrite_row {A} (key : A -> Z) (R : A -> A -> Prop) (i : Z)
    (f : A -> A) (l : list A) :
  (forall r, R r r) -> (forall r, R r (f r)) ->
  Forall2 R l (rewrite_row key i f l).
Proof.
  intros Hrefl Hf. unfold rewrite_row.
  induction l as [|h l IH]; simpl; constructor; [|exact IH].
  destruct (key h =? i); auto.
Qed.

Lemma Forall2_same {A} (R : A -> A -> Prop) (l : list A) :
  (forall r, R r r) -> Forall2 R l l.
Proof. intros H. induction l; constructor; auto. Qed.

(** X5. Whatever the criteria and whatever store calls fail, [lock_machine]
    leaves tasks and samples alone, keeps every machine row in place and
    never releases a lease; [unlock_machine] likewise never takes one. *)
Theorem lease_methods_one_way :
  forall (w : World) (label platform : option string) (tags : list string)
         (name : string) (now : datetime),
    (let w' := run (lock_machine label platform tags now) w in
     tasks (db w') = tasks (db w)
     /\ samples (db w') = samples (db w)
     /\ Forall2 (fun m m' =>
                   Machine.id m' = Machine.id m
                   /\ Machine.label m' = Machine.label m
                   /\ (Machine.locked m = true -> Machine.locked m' = true))
                (machines (db w)) (machines (db w')))
    /\ (let w' := run (unlock_machine name now) w in
        tasks (db w') = tasks (db w)
        /\ samples (db w') = samples (db w)
        /\ Forall2 (fun m m' =>
                      Machine.id m' = Machine.id m
                      /\ Machine.label m' = Machine.label m
                      /\ (Machine.locked m = false ->
                          Machine.locked m' = false))
                   (machines (db w)) (machines (db w'))).
Proof.
  intros w label platform tags name now. split; cbv zeta.
  - destruct (lock_machine_writes w label platform tags now) as [->|[i ->]].
    + repeat split. now apply Forall2_same.
    + unfold update_machine. cbn [machines samples tasks]. repeat split.
      apply Forall2_rewrite_row; intros r; auto.
  - destruct (unlock_machine_writes w name now) as [->|[i ->]].
    + repeat split. now apply Forall2_same.
    + unfold update_machine. cbn [machines samples tasks]. repeat split.
      apply Forall2_rewrite_row; intros r; auto.
Qed.

(** ** Listing machines *)

Lemma filter_lengths {A} (p : A -> bool) (l : list A) :
  (List.length (filter p l) + List.length (filter (fun x => negb (p x)) l))%nat
  = List.length l.
Proof.
  induction l as [|h l IH]; [reflexivity|]. simpl.
  destruct (p h); simpl; lia.
Qed.

(** X6. Without store failures the locked machines of
    [list_machines(locked=True)] and the machines of
    [get_available_machines] split the machines of [list_machines()]: every
    machine is in exactly one of the two lists, their lengths add up, and
    [count_machines_available] is the length of the second. *)
Theorem machines_split_by_lock :
  forall (w : World),
    faults w = [] ->
    exists all busy free,
      list_machines false w = (Return all, w)
      /\ list_machines true w = (Return busy, w)
      /\ get_available_machines w = (Return free, w)
      /\ count_machines_available w = (Return (List.length free), w)
      /\ (List.length busy + List.length free)%nat = List.length all
      /\ (forall m, In m busy <-> In m all /\ Machine.locked m = true)
      /\ (forall m, In m free <-> In m all /\ Machine.locked m = false).
Proof.
  intros w Hf.
  exists (machines (db w)), (filter Machine.locked (machines (db w))),
         (filter is_unlocked (machines (db w))).
  unfold list_machines, get_available_machines, except_SQLAlchemyError.
  rewrite !(query_ok _ w Hf), (count_machines_available_ok w Hf).
  split; [reflexivity|]. split; [reflexivity|]. split; [reflexivity|].
  split; [reflexivity|]. split; [apply filter_lengths|]. split.
  - intros m. apply filter_In.
  - intros m. rewrite filter_In. unfold is_unlocked.
    now rewrite negb_true_iff.
Qed.

Lemma machines_split_by_lock_witness :
  faults two_machines = []
  /\ exists all busy free,
       list_machines false two_machines = (Return all, two_machines)
       /\ list_machines true two_machines = (Return busy, two_machines)
       /\ get_available_machines two_machines = (Return free, two_machines)
       /\ (List.length busy + List.length free)%nat = List.length all.
Proof.
  split; [reflexivity|].
  destruct (machines_split_by_lock two_machines eq_refl)
    as (all & busy & free & H1 & H2 & H3 & _ & H5 & _).
  exists all, busy, free. auto.
Defined.

(** ** set_machine_status and set_machine_interface *)

Lemma set_machine_status_writes (w : World) (label : string)
    (status : option string) (now : datetime) :
  db (run (set_machine_status label status now) w) = db w
  \/ exists i,
       db (run (set_machine_status label status now) w)
       = update_machine i (machine_set_status status now) (db w).
Proof.
  unfold run, set_machine_status, except_SQLAlchemyError, refresh_machine,
    commit, query, bind, store_call, get_db, ret, raise, logmsg.
  destruct w as [d f l fa]. world_simpl.
  destruct fa as [|[|] fa]; world_simpl; auto;
    destruct (machine_by_label label d) as [m|]; world_simpl; auto.
  - destruct (get_machine (Machine.id m)
                (update_machine (Machine.id m) (machine_set_status status now)
                                d));
      world_simpl; eauto.
  - destruct fa as [|[|] fa]; world_simpl; auto.
    + destruct (get_machine (Machine.id m)
                  (update_machine (Machine.id m)
                                  (machine_set_status status now) d));
        world_simpl; eauto.
    + destruct fa as [|[|] fa]; world_simpl; eauto;
        destruct (get_machine (Machine.id m)
                    (update_machine (Machine.id m)
                                    (machine_set_status status now) d));
        world_simpl; eauto.
Qed.

Lemma set_machine_interface_writes (w : World) (label : string)
    (interface : option string) :
  db (run (set_machine_interface label interface) w) = db w
  \/ exists i,
       db (run (set_machine_interface label interface) w)
       = update_machine i (machine_set_interface interface) (db w).
Proof.
  unfold run, set_machine_interface, except_SQLAlchemyError, commit, query,
    bind, store_call, get_db, ret, raise, logmsg.
  destruct w as [d f l fa]. world_simpl.
  destruct fa as [|[|] fa]; world_simpl; auto;
    destruct (machine_by_label label d) as [m|]; world_simpl; eauto.
  destruct fa as [|[|] fa]; world_simpl; eauto.
Qed.

(** X7. The status and interface updates are independent of the lease:
    whatever store calls fail, [set_machine_status] and
    [set_machine_interface] leave tasks and samples alone and keep the id,
    label, platform, tags and lock flag of every machine, so the candidate
    sets and the free machines of [lock_machine] are the same afterwards. *)
Theorem machine_side_channels_keep_lease :
  forall (w : World) (label : string) (status interface : option string)
         (now : datetime),
    let same := fun m m' =>
      Machine.id m' = Machine.id m
      /\ Machine.label m' = Machine.label m
      /\ Machine.platform m' = Machine.platform m
      /\ Machine.tags m' = Machine.tags m
      /\ Machine.locked m' = Machine.locked m
      /\ Machine.locked_changed_on m' = Machine.locked_changed_on m in
    (let w' := run (set_machine_status label status now) w in
     tasks (db w') = tasks (db w) /\ samples (db w') = samples (db w)
     /\ Forall2 same (machines (db w)) (machines (db w')))
    /\ (let w' := run (set_machine_interface label interface) w in
        tasks (db w') = tasks (db w) /\ samples (db w') = samples (db w)
        /\ Forall2 same (machines (db w)) (machines (db w'))).
Proof.
  intros w label status interface now same. subst same. split; cbv zeta.
  - destruct (set_machine_status_writes w label status now) as [->|[i ->]].
    + repeat split. apply Forall2_same. intros r. repeat split.
    + unfold update_machine. cbn [machines samples tasks]. repeat split.
      apply Forall2_rewrite_row; intros r; repeat split.
  - destruct (set_machine_interface_writes w label interface) as [->|[i ->]].
    + repeat split. apply Forall2_same. intros r. repeat split.
    + unfold update_machine. cbn [machines samples tasks]. repeat split.
      apply Forall2_rewrite_row; intros r; repeat split.
Qed.

(** ** add_machine, delete_machine, clean_machines *)

Lemma add_machine_ok (w : World) (name label ip platform : string)
    (tags interface snapshot : option string) (rip rport : string) :
  faults w = [] ->
  add_machine name label ip platform tags interface snapshot rip rport w
  = (Return tt,
     with_db (insert_machine
                (machine_row (next_id (map Machine.id (machines (db w))))
                   name label ip platform (requested_names tags) interface
                   snapshot rip rport)
                (db w)) w).
Proof.
  intros Hf. unfold add_machine, bind.
  rewrite (get_or_create_tags_ok _ w Hf).
  unfold except_SQLAlchemyError. now rewrite (commit_ok _ w Hf).
Qed.

Lemma filter_none {A} (p : A -> bool) (l : list A) :
  (forall x, In x l -> p x = false) -> filter p l = [].
Proof.
  induction l as [|h l IH]; simpl; intros H; [reflexivity|].
  rewrite (H h (or_introl eq_refl)). apply IH. intros x Hx. apply H. now right.
Qed.



Lemma remove_key_length {A} (key : A -> Z) (l : list A) (row : A) :
  NoDup (map key l) -> In row l ->
  S (List.length (filter (fun r => negb (key r =? key row)) l))
  = List.length l.
Proof.
  induction l as [|h l IH]; simpl; intros Hnd Hin; [destruct Hin|].
  inversion Hnd as [|? ? Hnotin Hnd']; subst.
  destruct Hin as [->|Hin].
  - rewrite Z.eqb_refl. simpl. f_equal.
    clear IH Hnd Hnd'. induction l as [|x l IH]; [reflexivity|]. simpl in *.
    destruct (key x =? key row) eqn:E.
    + apply Z.eqb_eq in E. exfalso. apply Hnotin. now left.
    + simpl. f_equal. apply IH. intros H. apply Hnotin. now right.
  - destruct (key h =? key row) eqn:E.
    + apply Z.eqb_eq in E. exfalso. apply Hnotin. rewrite E. now apply in_map.
    + simpl. f_equal. now apply IH.
Qed.

(** X9. Without store failures and with distinct ids, [delete_machine] of a
    name no machine has logs the failure, returns nothing and writes nothing;
    otherwise it returns ["success"] and removes exactly the first machine
    with that name, leaving the other rows, the tasks and the samples. *)
Theorem delete_machine_removes_one :
  forall (w : World) (name : string),
    faults w = [] ->
    NoDup (map Machine.id (machines (db w))) ->
    (machine_by_name name (db w) = None ->
     result (delete_machine name) w = Return None
     /\ db (run (delete_machine name) w) = db w)
    /\ (forall m,
          machine_by_name name (db w) = Some m ->
          let w' := run (delete_machine name) w in
          result (delete_machine name) w = Return (Some "success")
          /\ tasks (db w') = tasks (db w)
          /\ samples (db w') = samples (db w)
          /\ S (List.length (machines (db w'))) = List.length (machines (db w))
          /\ (forall r, In r (machines (db w'))
                        <-> In r (machines (db w))
                            /\ Machine.id r <> Machine.id m)).
Proof.
  intros w name Hf Hnd. split.
  - intros Hnone. unfold result, run, delete_machine, except_SQLAlchemyError,
      bind. rewrite (query_ok _ w Hf), Hnone. simpl. auto.
  - intros m Hm w'. subst w'.
    destruct (first_filter_Some_In _ _ _ Hm) as [Hin _].
    unfold result, run, delete_machine, except_SQLAlchemyError, bind.
    rewrite (query_ok _ w Hf), Hm, (commit_ok _ w Hf). simpl.
    repeat split; auto.
    + now apply remove_key_length.
    + apply filter_In in H. tauto.
    + apply filter_In in H. destruct H as [_ H].
      apply negb_true_iff, Z.eqb_neq in H. exact H.
    + intros [H1 H2]. apply filter_In. split; [exact H1|].
      now apply negb_true_iff, Z.eqb_neq.
Qed.

Lemma delete_machine_removes_one_witness :
  faults two_machines = []
  /\ NoDup (map Machine.id (machines (db two_machines)))
  /\ machine_by_name "win7" (db two_machines)
     = Some (vm 1 "win7" "windows" [] false)
  /\ result (delete_machine "win7") two_machines = Return (Some "success")
  /\ map Machine.id (machines (db (run (delete_machine "win7") two_machines)))
     = [2]
  /\ machine_by_name "linux1" (db two_machines) = None
  /\ result (delete_machine "linux1") two_machines = Return None.
Proof.
  assert (Hid : NoDup (map Machine.id (machines (db two_machines))))
    by (simpl; concrete_NoDup).
  destruct (delete_machine_removes_one two_machines "win7" eq_refl Hid)
    as [_ H].
  destruct (H (vm 1 "win7" "windows" [] false) eq_refl) as [H1 _].
  destruct (delete_machine_removes_one two_machines "linux1" eq_refl Hid)
    as [H' _].
  destruct (H' eq_refl) as [H2 _].
  split; [reflexivity|]. split; [exact Hid|]. split; [reflexivity|].
  split; [exact H1|]. split; [reflexivity|]. split; [reflexivity|exact H2].
Defined.

(** X10. [clean_machines] without store failures leaves no machine, and
    tasks and samples as they were; afterwards no machine is available and
    every [lock_machine] call with criteria that do not conflict raises
    [CuckooOperationalError]. When the delete of the machines fails after
    the tag associations have been deleted, every machine is still there,
    without its tags. *)
Theorem clean_machines_empties :
  forall (w : World),
    (faults w = [] ->
     let w' := run clean_machines w in
     result clean_machines w = Return tt
     /\ machines (db w') = []
     /\ tasks (db w') = tasks (db w)
     /\ samples (db w') = samples (db w)
     /\ result count_machines_available w' = Return O
     /\ forall label platform tags now,
          ~ conflicting label platform tags ->
          result (lock_machine label platform tags now) w'
          = Raise (CuckooOperationalError
                     "No machines match selection criteria."))
    /\ (faults w = [false; true] ->
        result clean_machines w = Return tt
        /\ machines (db (run clean_machines w))
           = map (machine_set_tags []) (machines (db w))).
Proof.
  intros w. split.
  - intros Hf w'.
    assert (Hw' : clean_machines w
                  = (Return tt, with_db (mkStore [] (samples (db w))
                                                 (tasks (db w))) w)).
    { unfold clean_machines, except_SQLAlchemyError, bind.
      rewrite (commit_ok _ w Hf).
      rewrite store_call_ok by exact Hf.
      rewrite commit_ok by exact Hf. reflexivity. }
    subst w'. unfold result, run. rewrite Hw'. cbn [fst snd db with_db
      machines tasks samples].
    repeat split.
    + now rewrite count_machines_available_ok.
    + intros label platform tags now Hvalid.
      destruct (not_conflicting _ _ _ Hvalid) as [E1 E2].
      unfold lock_machine. rewrite E1, E2.
      unfold except_SQLAlchemyError, bind.
      rewrite query_ok by exact Hf. reflexivity.
  - intros Hf. unfold result, run, clean_machines, except_SQLAlchemyError,
      commit, bind, store_call, logmsg.
    destruct w as [d f l fa]. simpl in Hf. subst fa. world_simpl. auto.
Qed.

Lemma clean_machines_empties_witness :
  faults two_machines = []
  /\ machines (db (run clean_machines two_machines)) = []
  /\ result (lock_machine None (Some "windows") [] (at_second 1))
            (run clean_machines two_machines)
     = Raise (CuckooOperationalError "No machines match selection criteria.").
Proof.
  destruct (clean_machines_empties two_machines) as [H _].
  destruct (H eq_refl) as (_ & H2 & _ & _ & _ & H6).
  split; [reflexivity|]. split; [exact H2|].
  apply H6. intros [[E _]|[E _]]; discriminate.
Defined.

(** ** fetch, one call after the other *)

Lemma fetch_eq (w : World) (machine : option string) (now : datetime) :
  faults w = [] ->
  task_ids_unique (db w) ->
  fetch true machine now w
  = match fetch_query machine (db w) with
    | Some row =>
        (Return (Some (set_status_row TASK_RUNNING now row)),
         with_db (update_task (Task.id row)
                    (set_status_row TASK_RUNNING now) (db w)) w)
    | None => (Return None, w)
    end.
Proof.
  intros Hf Hnd. unfold fetch, except_SQLAlchemyError, bind.
  rewrite (query_ok _ w Hf).
  destruct (fetch_query machine (db w)) as [row|] eqn:Eq; [|reflexivity].
  assert (Hrow : In row (tasks (db w))).
  { unfold fetch_query in Eq.
    pose proof (first_order_by_In _ _ _ Eq) as H.
    apply filter_In in H. tauto. }
  rewrite (set_status_ok w row TASK_RUNNING now Hf Hnd Hrow).
  unfold refresh_task, bind. rewrite query_ok by exact Hf.
  unfold get_task, update_task. cbn [tasks db with_db].
  rewrite (find_key_updated Task.id _ row (set_status_row TASK_RUNNING now)
             (set_status_row_id TASK_RUNNING now) Hnd Hrow).
  reflexivity.
Qed.

Lemma fetch_query_pending (machine : option string) (s : Store)
    (row : Task.t) :
  fetch_query machine s = Some row ->
  In row (tasks s) /\ Task.status row = TASK_PENDING.
Proof.
  unfold fetch_query. intros Eq.
  pose proof (first_order_by_In _ _ _ Eq) as H.
  apply filter_In in H. destruct H as [Hin Hf].
  apply fetch_filter_eligible in Hf. destruct Hf as [Hp _]. auto.
Qed.

(** X11. A task is claimed once: with distinct task ids and no store
    failure, two consecutive [fetch] calls with [lock=True], for whatever
    machines, never return the same task. *)
Theorem fetch_twice_distinct :
  forall (w : World) (machine1 machine2 : option string) (t1 t2 : datetime)
         (r1 r2 : Task.t),
    faults w = [] ->
    task_ids_unique (db w) ->
    result (fetch true machine1 t1) w = Return (Some r1) ->
    result (fetch true machine2 t2) (run (fetch true machine1 t1) w)
    = Return (Some r2) ->
    Task.id r1 <> Task.id r2.
Proof.
  intros w m1 m2 t1 t2 r1 r2 Hf Hnd H1 H2.
  unfold result, run in *. rewrite (fetch_eq w m1 t1 Hf Hnd) in H1, H2.
  destruct (fetch_query m1 (db w)) as [a|] eqn:Ea; [|discriminate].
  destruct (fetch_query_pending _ _ _ Ea) as [Hina _].
  cbn [fst snd] in H1, H2. injection H1 as <-.
  set (w1 := with_db (update_task (Task.id a)
                        (set_status_row TASK_RUNNING t1) (db w)) w) in *.
  assert (Hnd1 : task_ids_unique (db w1)).
  { unfold task_ids_unique, w1, update_task. cbn [tasks db with_db].
    rewrite map_key_rewrite_row; [exact Hnd|].
    apply set_status_row_id. }
  rewrite (fetch_eq w1 m2 t2 Hf Hnd1) in H2.
  destruct (fetch_query m2 (db w1)) as [b|] eqn:Eb; [|discriminate].
  cbn [fst] in H2. injection H2 as <-.
  destruct (fetch_query_pending _ _ _ Eb) as [Hinb Hpend].
  unfold w1, update_task in Hinb. cbn [tasks db with_db] in Hinb.
  rewrite !set_status_row_id.
  destruct (rewrite_row_other Task.id _ a _ b Hnd Hina Hinb)
    as [->|[_ Hneq]].
  - discriminate.
  - congruence.
Qed.

Lemma fetch_twice_distinct_witness :
  faults queue_2_2 = []
  /\ task_ids_unique (db queue_2_2)
  /\ claimed Task.id (result (fetch true (Some "") (at_second 3)) queue_2_2)
     = Some 1
  /\ claimed Task.id
       (result (fetch true (Some "") (at_second 4))
               (run (fetch true (Some "") (at_second 3)) queue_2_2))
     = Some 2
  /\ (1 <> 2)%Z.
Proof.
  assert (Hnd : task_ids_unique (db queue_2_2)).
  { unfold task_ids_unique. vm_compute. concrete_NoDup. }
  split; [reflexivity|]. split; [exact Hnd|]. split; [reflexivity|].
  split; [reflexivity|].
  refine (fetch_twice_distinct queue_2_2 (Some "") (Some "") (at_second 3)
            (at_second 4)
            (set_status_row TASK_RUNNING (at_second 3)
               (task_row 1 "http://example.com/" (URL "http://example.com/")
                  (Args.set_priority (Some 2) Args.defaults) None None []
                  epoch (at_second 1)))
            (set_status_row TASK_RUNNING (at_second 4)
               (task_row 2 "http://example.com/" (URL "http://example.com/")
                  (Args.set_priority (Some 2) Args.defaults) None None []
                  epoch (at_second 2)))
            eq_refl Hnd _ _); vm_compute; reflexivity.
Defined.

(** X12. When the write of the status fails inside [fetch] (the query and
    the lookup of [set_status] succeed, its commit raises), [set_status]
    swallows the error and [fetch] still returns the task: the row it hands
    out is the stored one, still [pending] and without a new [started_on],
    and the store is unchanged. *)
Theorem fetch_returns_unclaimed_on_failed_write :
  forall (w : World) (machine : option string) (now : datetime)
         (row : Task.t),
    faults w = [false; false; true] ->
    task_ids_unique (db w) ->
    fetch_query machine (db w) = Some row ->
    result (fetch true machine now) w = Return (Some row)
    /\ Task.status row = TASK_PENDING
    /\ db (run (fetch true machine now) w) = db w
    /\ exists msg,
         log (run (fetch true machine now) w) = (log w ++ [(DEBUG, msg)])%list.
Proof.
  intros w machine now row Hf Hnd Eq.
  destruct (fetch_query_pending _ _ _ Eq) as [Hin Hpend].
  unfold result, run, fetch, set_status, refresh_task,
    except_SQLAlchemyError, commit, query, bind, store_call, get_db, ret,
    raise, logmsg.
  destruct w as [d f l fa]. simpl in Hf. subst fa. world_simpl.
  cbn [db] in Eq. rewrite Eq. world_simpl.
  unfold get_task. cbn [db tasks] in *.
  rewrite (find_key_In Task.id _ _ Hnd Hin). world_simpl.
  rewrite (find_key_In Task.id _ _ Hnd Hin). world_simpl.
  repeat split; auto. eexists. reflexivity.
Qed.

Lemma fetch_returns_unclaimed_on_failed_write_witness :
  faults (with_faults [false; false; true] queue_2_2) = [false; false; true]
  /\ task_ids_unique (db (with_faults [false; false; true] queue_2_2))
  /\ claimed Task.id
       (result (fetch true (Some "") (at_second 3))
               (with_faults [false; false; true] queue_2_2)) = Some 1
  /\ claimed Task.status
       (result (fetch true (Some "") (at_second 3))
               (with_faults [false; false; true] queue_2_2))
     = Some TASK_PENDING
  /\ db (run (fetch true (Some "") (at_second 3))
             (with_faults [false; false; true] queue_2_2))
     = db queue_2_2.
Proof.
  assert (Hnd : task_ids_unique
                  (db (with_faults [false; false; true] queue_2_2))).
  { unfold task_ids_unique. vm_compute. concrete_NoDup. }
  destruct (fetch_returns_unclaimed_on_failed_write
              (with_faults [false; false; true] queue_2_2) (Some "")
              (at_second 3)
              (task_row 1 "http://example.com/" (URL "http://example.com/")
                 (Args.set_priority (Some 2) Args.defaults) None None []
                 epoch (at_second 1))
              eq_refl Hnd)
    as (H1 & H2 & H3 & _); [vm_compute; reflexivity|].
  split; [reflexivity|]. split; [exact Hnd|].
  rewrite H1. cbn [claimed]. rewrite H2.
  split; [reflexivity|]. split; [reflexivity|exact H3].
Defined.

(** ** Counting tasks *)

Lemma count_matching_tasks_ok (w : World) (category : option string)
    (status not_status : option Status) :
  faults w = [] ->
  count_matching_tasks category status not_status w
  = (Return (Count (List.length
                      (matching_tasks category status not_status (db w)))),
     w).
Proof.
  intros Hf. unfold count_matching_tasks, except_SQLAlchemyError, bind.
  now rewrite (query_ok _ w Hf).
Qed.

Lemma filter_split_lengths {A} (p q : A -> bool) (l : list A) :
  (List.length (filter (fun x => p x && q x) l)
   + List.length (filter (fun x => negb (p x) && q x) l))%nat
  = List.length (filter q l).
Proof.
  induction l as [|h l IH]; [reflexivity|]. simpl.
  destruct (p h), (q h); simpl; lia.
Qed.

(** X13. Without store failures, for every category filter and every
    status, the tasks counted with [status=s] and those counted with
    [not_status=s] add up to the tasks counted with neither filter; when a
    store call fails the method returns the empty list, not a number. *)
Theorem count_matching_tasks_splits :
  forall (w : World) (category : option string) (s : Status),
    (faults w = [] ->
     exists n_with n_without n_all,
       result (count_matching_tasks category (Some s) None) w
       = Return (Count n_with)
       /\ result (count_matching_tasks category None (Some s)) w
          = Return (Count n_without)
       /\ result (count_matching_tasks category None None) w
          = Return (Count n_all)
       /\ (n_with + n_without)%nat = n_all)
    /\ (forall rest, faults w = true :: rest ->
        result (count_matching_tasks category (Some s) None) w
        = Return EmptyList).
Proof.
  intros w category s. split.
  - intros Hf. unfold result.
    rewrite !count_matching_tasks_ok by exact Hf.
    do 3 eexists. repeat split. unfold matching_tasks.
    destruct (truthy category).
    + rewrite !(filter_twice _ _ (tasks (db w))).
      apply filter_split_lengths.
    + apply filter_lengths.
  - intros rest Hf. unfold result, count_matching_tasks,
      except_SQLAlchemyError, query, bind, store_call.
    now rewrite Hf.
Qed.

Lemma count_matching_tasks_splits_witness :
  faults queue_1_5_3 = []
  /\ result (count_matching_tasks (Some "url") (Some TASK_PENDING) None)
            queue_1_5_3 = Return (Count 3)
  /\ exists n_with n_without n_all,
       result (count_matching_tasks (Some "url") (Some TASK_PENDING) None)
              queue_1_5_3 = Return (Count n_with)
       /\ result (count_matching_tasks (Some "url") None (Some TASK_PENDING))
                 queue_1_5_3 = Return (Count n_without)
       /\ result (count_matching_tasks (Some "url") None None) queue_1_5_3
          = Return (Count n_all)
       /\ (n_with + n_without)%nat = n_all.
Proof.
  split; [reflexivity|]. split; [reflexivity|].
  exact (proj1 (count_matching_tasks_splits queue_1_5_3 (Some "url")
                  TASK_PENDING) eq_refl).
Defined.

(** X14. A claim moves one task: with distinct ids and no store failure,
    when [fetch] with [lock=True] returns a task, the number of pending
    tasks drops by one, the number of running tasks grows by one and the
    number of tasks stays the same. *)
Theorem fetch_moves_one_task :
  forall (w : World) (machine : option string) (now : datetime)
         (r : Task.t),
    faults w = [] ->
    task_ids_unique (db w) ->
    result (fetch true machine now) w = Return (Some r) ->
    let w' := run (fetch true machine now) w in
    exists pending running total,
      result (count_matching_tasks None (Some TASK_PENDING) None) w
      = Return (Count (S pending))
      /\ result (count_matching_tasks None (Some TASK_PENDING) None) w'
         = Return (Count pending)
      /\ result (count_matching_tasks None (Some TASK_RUNNING) None) w
         = Return (Count running)
      /\ result (count_matching_tasks None (Some TASK_RUNNING) None) w'
         = Return (Count (S running))
      /\ result (count_matching_tasks None None None) w
         = Return (Count total)
      /\ result (count_matching_tasks None None None) w'
         = Return (Count total).
Proof.
  intros w machine now r Hf Hnd Hres w'. subst w'.
  unfold result, run in *. rewrite (fetch_eq w machine now Hf Hnd) in *.
  destruct (fetch_query machine (db w)) as [row|] eqn:Eq; [|discriminate].
  destruct (fetch_query_pending _ _ _ Eq) as [Hin Hpend].
  cbn [fst snd] in *.
  rewrite !count_matching_tasks_ok by exact Hf.
  unfold matching_tasks, truthy, update_task.
  cbn [fst db with_db tasks].
  do 3 eexists.
  split; [|split; [reflexivity|split; [reflexivity|split; [|split;
          [reflexivity|]]]]].
  - f_equal. f_equal. symmetry.
    apply (length_filter_rewrite_out Task.id); auto; now rewrite Hpend.
  - f_equal. f_equal.
    apply (length_filter_rewrite_in Task.id); auto; now rewrite Hpend.
  - f_equal. f_equal. unfold rewrite_row. apply length_map.
Qed.

Lemma fetch_moves_one_task_witness :
  faults queue_1_5_3 = []
  /\ task_ids_unique (db queue_1_5_3)
  /\ claimed Task.id (result (fetch true (Some "") (at_second 4)) queue_1_5_3)
     = Some 2
  /\ exists pending running total,
       result (count_matching_tasks None (Some TASK_PENDING) None)
              queue_1_5_3 = Return (Count (S pending))
       /\ result (count_matching_tasks None (Some TASK_PENDING) None)
                 (run (fetch true (Some "") (at_second 4)) queue_1_5_3)
          = Return (Count pending)
       /\ result (count_matching_tasks None (Some TASK_RUNNING) None)
                 queue_1_5_3 = Return (Count running)
       /\ result (count_matching_tasks None (Some TASK_RUNNING) None)
                 (run (fetch true (Some "") (at_second 4)) queue_1_5_3)
          = Return (Count (S running))
       /\ result (count_matching_tasks None None None) queue_1_5_3
          = Return (Count total)
       /\ result (count_matching_tasks None None None)
                 (run (fetch true (Some "") (at_second 4)) queue_1_5_3)
          = Return (Count total).
Proof.
  assert (Hnd : task_ids_unique (db queue_1_5_3)).
  { unfold task_ids_unique. vm_compute. concrete_NoDup. }
  split; [reflexivity|]. split; [exact Hnd|]. split; [reflexivity|].
  refine (fetch_moves_one_task queue_1_5_3 (Some "") (at_second 4)
            (set_status_row TASK_RUNNING (at_second 4)
               (task_row 2 "http://example.com/" (URL "http://example.com/")
                  (Args.set_priority (Some 5) Args.defaults) None None []
                  epoch (at_second 2)))
            eq_refl Hnd _).
  vm_compute. reflexivity.
Defined.

(** ** delete_task *)

Lemma find_removed_other {A} (key : A -> Z) (i j : Z) (l : list A) :
  j <> i ->
  find (fun r => key r =? j) (filter (fun r => negb (key r =? i)) l)
  = find (fun r => key r =? j) l.
Proof.
  intros Hneq. induction l as [|h l IH]; [reflexivity|]. simpl.
  destruct (key h =? i) eqn:E1; simpl.
  - destruct (key h =? j) eqn:E2; [|exact IH].
    apply Z.eqb_eq in E1, E2. congruence.
  - destruct (key h =? j); [reflexivity|exact IH].
Qed.

(** X15. Without store failures and with distinct ids, [delete_task] of an
    id that is not in the table returns [False] and writes nothing; of an id
    that is in the table it returns [True], [view_task] no longer finds the
    id, and every other task is found as before. *)
Theorem delete_task_removes_row :
  forall (w : World) (task_id : Z),
    faults w = [] ->
    task_ids_unique (db w) ->
    (get_task task_id (db w) = None ->
     result (delete_task task_id) w = Return false
     /\ db (run (delete_task task_id) w) = db w)
    /\ (forall row,
          get_task task_id (db w) = Some row ->
          let w' := run (delete_task task_id) w in
          result (delete_task task_id) w = Return true
          /\ result (view_task task_id) w' = Return None
          /\ (forall other, other <> task_id ->
                result (view_task other) w' = result (view_task other) w)
          /\ S (List.length (tasks (db w'))) = List.length (tasks (db w))
          /\ machines (db w') = machines (db w)
          /\ samples (db w') = samples (db w)).
Proof.
  intros w task_id Hf Hnd. split.
  - intros Hnone. unfold result, run, delete_task, except_SQLAlchemyError,
      bind. rewrite (query_ok _ w Hf), Hnone. simpl. auto.
  - intros row Hrow w'. subst w'.
    assert (Hin : In row (tasks (db w)) /\ Task.id row = task_id).
    { unfold get_task in Hrow. apply find_some in Hrow.
      destruct Hrow as [H1 H2]. apply Z.eqb_eq in H2. auto. }
    destruct Hin as [Hin Hid].
    assert (Hdel : delete_task task_id w
                   = (Return true, with_db (remove_task task_id (db w)) w)).
    { unfold delete_task, except_SQLAlchemyError, bind.
      now rewrite (query_ok _ w Hf), Hrow, (commit_ok _ w Hf). }
    unfold result, run. rewrite Hdel. cbn [fst snd].
    unfold view_task, except_SQLAlchemyError.
    split; [reflexivity|]. split; [|split; [|split]].
    + rewrite query_ok by exact Hf. cbn [fst db with_db]. f_equal.
      unfold get_task, remove_task. cbn [tasks].
      destruct (find (fun r => Task.id r =? task_id)
                  (filter (fun r => negb (Task.id r =? task_id))
                          (tasks (db w)))) as [x|] eqn:E; [|reflexivity].
      apply find_some in E. destruct E as [E1 E2].
      apply filter_In in E1. destruct E1 as [_ E1].
      rewrite E2 in E1. discriminate.
    + intros other Hneq. rewrite !query_ok by exact Hf.
      cbn [fst db with_db]. f_equal.
      unfold get_task, remove_task. cbn [tasks].
      now apply (find_removed_other Task.id).
    + cbn [db with_db remove_task tasks]. subst task_id.
      now apply (remove_key_length Task.id).
    + split; reflexivity.
Qed.

Lemma delete_task_removes_row_witness :
  faults (one_task TASK_REPORTED) = []
  /\ task_ids_unique (db (one_task TASK_REPORTED))
  /\ get_task 1 (db (one_task TASK_REPORTED)) = Some (url_task TASK_REPORTED)
  /\ result (delete_task 1) (one_task TASK_REPORTED) = Return true
  /\ result (view_task 1) (run (delete_task 1) (one_task TASK_REPORTED))
     = Return None
  /\ get_task 2 (db (one_task TASK_REPORTED)) = None
  /\ result (delete_task 2) (one_task TASK_REPORTED) = Return false.
Proof.
  assert (Hnd : task_ids_unique (db (one_task TASK_REPORTED))).
  { unfold task_ids_unique. simpl. concrete_NoDup. }
  destruct (delete_task_removes_row (one_task TASK_REPORTED) 1 eq_refl Hnd)
    as [_ H].
  destruct (H (url_task TASK_REPORTED) eq_refl) as (H1 & H2 & _).
  destruct (delete_task_removes_row (one_task TASK_REPORTED) 2 eq_refl Hnd)
    as [H' _].
  destruct (H' eq_refl) as [H3 _].
  split; [reflexivity|]. split; [exact Hnd|]. split; [reflexivity|].
  split; [exact H1|]. split; [exact H2|]. split; [reflexivity|exact H3].
Defined.

(** ** What add writes, whatever the store does *)

Lemma add_task_writes (target : string) (obj : Obj) (a : Args.t)
    (sample_id : option Z) (started_on : option datetime)
    (tags : option string) (now : datetime) (w : World) :
  let m := add_task target obj a sample_id started_on tags now in
  (db (run m w) = db w
   /\ forall id, result m w <> Return (Some id))
  \/ exists row,
       db (run m w) = insert_task row (db w)
       /\ Task.id row = next_task_id (db w)
       /\ Task.status row = TASK_PENDING
       /\ Task.target row = target
       /\ Task.sample_id row = sample_id
       /\ result m w = Return (Some (Task.id row)).
Proof.
  cbv zeta. unfold result, run, add_task, bind.
  pose proof (get_or_create_tags_frame (requested_names tags) w) as Hg.
  unfold run in Hg.
  destruct (get_or_create_tags (requested_names tags) w) as [[names|e] w1];
    simpl in Hg; destruct Hg as [Hdb _].
  - destruct (resolve_clock_frame (Args.clock a) w1) as [d [l ->]].
    unfold except_SQLAlchemyError, bind, store_call, get_db, logmsg, ret.
    destruct w1 as [d1 f1 l1 fa1]. simpl in Hdb. subst d1. world_simpl.
    destruct fa1 as [|[|] fa1]; world_simpl.
    + right. eexists. repeat split.
    + left. split; [reflexivity|discriminate].
    + right. eexists. repeat split.
  - left. simpl. split; [exact Hdb|discriminate].
Qed.

Lemma add_writes (obj : Obj) (a : Args.t) (now : datetime) (w : World) :
  let w' := run (add obj a now) w in
  machines (db w') = machines (db w)
  /\ (samples (db w') = samples (db w)
      \/ exists srow,
           samples (db w') = (samples (db w) ++ [srow])%list
           /\ has_sha256 (Sample.sha256 srow) (db w) = false)
  /\ ((tasks (db w') = tasks (db w)
       /\ forall id, result (add obj a now) w <> Return (Some id))
      \/ exists row,
           tasks (db w') = (tasks (db w) ++ [row])%list
           /\ Task.id row = next_task_id (db w)
           /\ Task.status row = TASK_PENDING
           /\ Task.target row = target_of obj
           /\ result (add obj a now) w = Return (Some (Task.id row))).
Proof.
  cbv zeta.
  assert (Hurl : forall u,
            obj = URL u ->
            machines (db (run (add obj a now) w)) = machines (db w)
            /\ (samples (db (run (add obj a now) w)) = samples (db w)
                \/ exists srow,
                     samples (db (run (add obj a now) w))
                     = (samples (db w) ++ [srow])%list
                     /\ has_sha256 (Sample.sha256 srow) (db w) = false)
            /\ ((tasks (db (run (add obj a now) w)) = tasks (db w)
                 /\ forall id, result (add obj a now) w <> Return (Some id))
                \/ exists row,
                     tasks (db (run (add obj a now) w))
                     = (tasks (db w) ++ [row])%list
                     /\ Task.id row = next_task_id (db w)
                     /\ Task.status row = TASK_PENDING
                     /\ Task.target row = target_of obj
                     /\ result (add obj a now) w
                        = Return (Some (Task.id row)))).
  { intros u ->. simpl.
    destruct (add_task_writes u (URL u) a None None (Args.tags a) now w)
      as [[Hdb Hno]|(row & Hdb & H1 & H2 & H3 & _ & H5)]; rewrite Hdb.
    - auto.
    - split; [reflexivity|]. split; [now left|]. right. exists row. auto. }
  assert (Hfile : forall path,
            target_of obj = path ->
            add obj a now = add_file path obj a now ->
            machines (db (run (add obj a now) w)) = machines (db w)
            /\ (samples (db (run (add obj a now) w)) = samples (db w)
                \/ exists srow,
                     samples (db (run (add obj a now) w))
                     = (samples (db w) ++ [srow])%list
                     /\ has_sha256 (Sample.sha256 srow) (db w) = false)
            /\ ((tasks (db (run (add obj a now) w)) = tasks (db w)
                 /\ forall id, result (add obj a now) w <> Return (Some id))
                \/ exists row,
                     tasks (db (run (add obj a now) w))
                     = (tasks (db w) ++ [row])%list
                     /\ Task.id row = next_task_id (db w)
                     /\ Task.status row = TASK_PENDING
                     /\ Task.target row = target_of obj
                     /\ result (add obj a now) w
                        = Return (Some (Task.id row)))).
  { intros path Htarget ->. rewrite Htarget.
    unfold add_file, result, run, bind, file_info.
    destruct (fs w path) as [i|].
    2:{ simpl. split; [reflexivity|]. split; [now left|]. left.
        split; [reflexivity|discriminate]. }
    pose proof (commit_or_reread_store i (Args.sample_parent_id a) w) as Hs.
    unfold run, result in Hs. cbv zeta in Hs.
    destruct (commit_or_reread i (Args.sample_parent_id a) w)
      as [[[[srow|]|]|e] w1]; simpl in Hs;
      destruct Hs as (_ & Hm & Ht & Hsam).
    - match goal with
      | |- context [add_task ?t ?o ?a ?s ?st ?tg ?n w1] =>
          destruct (add_task_writes t o a s st tg n w1)
            as [[Hdb Hno]|(row & Hdb & H1 & H2 & H3 & _ & H5)]
      end; unfold run, result in *; rewrite Hdb.
      + split; [exact Hm|]. split.
        * destruct Hsam as [Hsam|(r & Hsam & Hsha & Hhas & _)];
            [now left|right; exists r; rewrite Hsha; auto].
        * left. auto.
      + cbn [insert_task machines samples tasks].
        split; [exact Hm|]. split.
        * destruct Hsam as [Hsam|(r & Hsam & Hsha & Hhas & _)];
            [now left|right; exists r; rewrite Hsha; auto].
        * right. exists row. rewrite Ht. unfold next_task_id in *.
          rewrite Ht in H1. auto.
    - simpl. split; [exact Hm|]. split.
      + destruct Hsam as [Hsam|(r & Hsam & Hsha & Hhas & Hr)];
          [now left|discriminate].
      + left. split; [exact Ht|discriminate].
    - simpl. split; [exact Hm|]. split.
      + destruct Hsam as [Hsam|(r & Hsam & Hsha & Hhas & Hr)];
          [now left|discriminate].
      + left. split; [exact Ht|discriminate].
    - simpl. split; [exact Hm|]. split.
      + destruct Hsam as [Hsam|(r & Hsam & Hsha & Hhas & Hr)];
          [now left|discriminate].
      + left. split; [exact Ht|discriminate]. }
  destruct obj as [p|p|p|u].
  - now apply (Hfile p).
  - now apply (Hfile p).
  - now apply (Hfile p).
  - now apply (Hurl u).
Qed.

(** X16. Whatever store calls fail, [add] keeps the task ids distinct and
    the sha256 digests of the samples distinct, never touches a machine or
    an existing task or sample row, and an id it returns is the id of the one
    row it appended: a fresh id, on a [pending] task for the submitted path
    or URL. *)
Theorem add_keeps_keys_unique :
  forall (w : World) (obj : Obj) (a : Args.t) (now : datetime),
    task_ids_unique (db w) ->
    sha256_unique (db w) ->
    let w' := run (add obj a now) w in
    task_ids_unique (db w')
    /\ sha256_unique (db w')
    /\ machines (db w') = machines (db w)
    /\ (exists new, tasks (db w') = (tasks (db w) ++ new)%list)
    /\ (exists new, samples (db w') = (samples (db w) ++ new)%list)
    /\ (forall id,
          result (add obj a now) w = Return (Some id) ->
          ~ In id (map Task.id (tasks (db w)))
          /\ exists row,
               tasks (db w') = (tasks (db w) ++ [row])%list
               /\ Task.id row = id
               /\ Task.status row = TASK_PENDING
               /\ Task.target row = target_of obj).
Proof.
  intros w obj a now Hnd Hsha w'. subst w'.
  destruct (add_writes obj a now w) as (Hm & Hs & Ht). cbv zeta in *.
  split; [|split; [|split; [exact Hm|split; [|split]]]].
  - unfold task_ids_unique in *.
    destruct Ht as [[Ht _]|(row & Ht & Hid & _)]; rewrite Ht; [exact Hnd|].
    rewrite map_app. simpl. apply NoDup_snoc; [exact Hnd|].
    rewrite Hid. apply next_id_fresh.
  - unfold sha256_unique in *.
    destruct Hs as [Hs|(srow & Hs & Hhas)]; rewrite Hs; [exact Hsha|].
    rewrite map_app. simpl. apply NoDup_snoc; [exact Hsha|].
    now apply has_sha256_In.
  - destruct Ht as [[Ht _]|(row & Ht & _)]; rewrite Ht.
    + exists []. now rewrite app_nil_r.
    + now exists [row].
  - destruct Hs as [Hs|(srow & Hs & _)]; rewrite Hs.
    + exists []. now rewrite app_nil_r.
    + now exists [srow].
  - intros id Hres.
    destruct Ht as [[_ Hno]|(row & Ht & Hid & Hst & Htg & Hr)].
    + now destruct (Hno id).
    + rewrite Hr in Hres. injection Hres as <-. split.
      * rewrite Hid. apply next_id_fresh.
      * exists row. auto.
Qed.

Lemma add_keeps_keys_unique_witness :
  task_ids_unique (db files_only)
  /\ sha256_unique (db files_only)
  /\ result (add (File "/tmp/a.bin") Args.defaults (at_second 1)) files_only
     = Return (Some 1)
  /\ task_ids_unique
       (db (run (add (File "/tmp/a.bin") Args.defaults (at_second 1))
                files_only))
  /\ sha256_unique
       (db (run (add (File "/tmp/a.bin") Args.defaults (at_second 1))
                files_only)).
Proof.
  assert (H1 : task_ids_unique (db files_only)) by constructor.
  assert (H2 : sha256_unique (db files_only)) by constructor.
  destruct (add_keeps_keys_unique files_only (File "/tmp/a.bin")
              Args.defaults (at_second 1) H1 H2) as (H3 & H4 & _).
  split; [exact H1|]. split; [exact H2|]. split; [reflexivity|].
  split; [exact H3|exact H4].
Defined.

(** ** Submitting, viewing and deleting *)

Lemma find_app_new {A} (p : A -> bool) (l : list A) (x : A) :
  (forall y, In y l -> p y = false) -> p x = true ->
  find p (l ++ [x]) = Some x.
Proof.
  intros Hl Hx. induction l as [|h l IH]; simpl.
  - now rewrite Hx.
  - rewrite (Hl h (or_introl eq_refl)). apply IH. intros y Hy. apply Hl.
    now right.
Qed.

Lemma filter_app_new {A} (p : A -> bool) (l : list A) (x : A) :
  (forall y, In y l -> p y = true) -> p x = false ->
  filter p (l ++ [x]) = l.
Proof.
  intros Hl Hx. rewrite filter_app. simpl. rewrite Hx, app_nil_r.
  induction l as [|h l IH]; [reflexivity|]. simpl.
  rewrite (Hl h (or_introl eq_refl)). f_equal. apply IH. intros y Hy.
  apply Hl. now right.
Qed.

Lemma resolve_clock_uniform (c : option ClockArg) :
  exists d l, forall w0,
    resolve_clock c w0 = (Return d, with_log (log w0 ++ l) w0).
Proof.
  unfold resolve_clock. destruct c as [[s|d0]|].
  - destruct (String.eqb s "").
    + exists epoch, []. intros w0. unfold ret. now rewrite with_log_same.
    + destruct (Strptime.strptime s) as [d|].
      * exists d, []. intros w0. unfold ret. now rewrite with_log_same.
      * eexists epoch, [_]. intros w0. reflexivity.
  - exists d0, []. intros w0. unfold ret. now rewrite with_log_same.
  - exists epoch, []. intros w0. unfold ret. now rewrite with_log_same.
Qed.



(** ** One Sample row per content *)

Lemma add_file_new_content (w : World) (path : string) (i : FileInfo)
    (a : Args.t) (now : datetime) :
  faults w = [] ->
  fs w path = Some i ->
  get_type i <> "" ->
  has_sha256 (get_sha256 i) (db w) = false ->
  let srow := sample_of (next_id (map Sample.id (samples (db w)))) i
                        (Args.sample_parent_id a) in
  add (File path) a now w
  = add_task path (File path) a (Some (Sample.id srow)) None
             (force_64_bit (get_type i) (Args.machine a) (Args.tags a)) now
             (with_db (insert_sample srow (db w)) w).
Proof.
  intros Hf Hfs Ht Hh srow. subst srow.
  unfold add, add_file, bind, file_info. rewrite Hfs.
  rewrite (commit_or_reread_ok i _ w Hf), Hh.
  apply String.eqb_neq in Ht. rewrite Ht. reflexivity.
Qed.

Lemma add_file_known_content (w : World) (path : string) (i : FileInfo)
    (a : Args.t) (now : datetime) (srow : Sample.t) :
  faults w = [] ->
  fs w path = Some i ->
  has_sha256 (get_sha256 i) (db w) = true ->
  sample_by_md5 (get_md5 i) (db w) = Some srow ->
  add (File path) a now w
  = add_task path (File path) a (Some (Sample.id srow)) None
             (force_64_bit (get_type i) (Args.machine a) (Args.tags a)) now w.
Proof.
  intros Hf Hfs Hh Hm.
  unfold add, add_file, bind, file_info. rewrite Hfs.
  rewrite (commit_or_reread_ok i _ w Hf), Hh, orb_true_r, Hm. reflexivity.
Qed.



(** ** register_sample, view_sample, count_samples *)

(** X19. Register and view: without store failures, registering a file
    whose type is not empty and whose sha256 is not in the table returns a
    fresh id under which [view_sample] finds a row with the size, type and
    digests of the file, and [count_samples] has grown by one; a URL is not
    registered: [None], nothing written. *)
Theorem register_sample_then_view :
  forall (w : World) (path : string) (i : FileInfo),
    (forall u, register_sample (URL u) w = (Return None, w))
    /\ (faults w = [] ->
        fs w path = Some i ->
        get_type i <> "" ->
        has_sha256 (get_sha256 i) (db w) = false ->
        let w1 := run (register_sample (File path)) w in
        exists id row n,
          result (register_sample (File path)) w = Return (Some id)
          /\ ~ In id (map Sample.id (samples (db w)))
          /\ result (view_sample id) w1 = Return (Some row)
          /\ Sample.id row = id
          /\ Sample.sha256 row = get_sha256 i
          /\ Sample.sha512 row = get_sha512 i
          /\ Sample.sha1 row = get_sha1 i
          /\ Sample.md5 row = get_md5 i
          /\ Sample.crc32 row = get_crc32 i
          /\ Sample.file_size row = get_size i
          /\ Sample.file_type row = get_type i
          /\ Sample.parent row = None
          /\ result count_samples w = Return n
          /\ result count_samples w1 = Return (S n)).
Proof.
  intros w path i. split; [reflexivity|].
  intros Hf Hfs Hty Hh w1.
  set (row := sample_of (next_id (map Sample.id (samples (db w)))) i None).
  assert (Hreg : register_sample (File path) w
                 = (Return (Some (Sample.id row)),
                    with_db (insert_sample row (db w)) w)).
  { unfold register_sample, register_sample_path, bind, file_info.
    rewrite Hfs, (commit_or_reread_ok i None w Hf), Hh.
    apply String.eqb_neq in Hty. rewrite Hty. reflexivity. }
  assert (Hw1 : w1 = with_db (insert_sample row (db w)) w).
  { unfold w1, run. now rewrite Hreg. }
  assert (Hf1 : faults w1 = []) by (rewrite Hw1; exact Hf).
  exists (Sample.id row), row, (List.length (samples (db w))).
  unfold result. rewrite Hreg.
  unfold view_sample, count_samples, except_SQLAlchemyError.
  rewrite !(query_ok _ w1 Hf1), (query_ok _ w Hf).
  cbn [fst]. split; [reflexivity|]. split; [apply next_id_fresh|]. split.
  - f_equal. rewrite Hw1. unfold get_sample. cbn [db with_db insert_sample
      samples].
    apply find_app_new; [|apply Z.eqb_refl].
    intros y Hy. apply Z.eqb_neq. intros E.
    apply (next_id_fresh (map Sample.id (samples (db w)))).
    change (next_id (map Sample.id (samples (db w)))) with (Sample.id row).
    rewrite <- E. now apply in_map.
  - repeat (split; [reflexivity|]).
    rewrite Hw1. cbn [db with_db insert_sample samples].
    rewrite length_app. simpl. f_equal. lia.
Qed.

Lemma register_sample_then_view_witness :
  faults files_only = []
  /\ fs files_only "/tmp/b.bin" = Some content_b
  /\ get_type content_b <> ""
  /\ has_sha256 (get_sha256 content_b) (db files_only) = false
  /\ (let w1 := run (register_sample (File "/tmp/b.bin")) files_only in
      exists id row,
        result (register_sample (File "/tmp/b.bin")) files_only
        = Return (Some id)
        /\ result (view_sample id) w1 = Return (Some row)
        /\ Sample.sha256 row = "sha256-b").
Proof.
  assert (Hty : get_type content_b <> "") by discriminate.
  split; [reflexivity|]. split; [reflexivity|]. split; [exact Hty|].
  split; [reflexivity|].
  destruct (register_sample_then_view files_only "/tmp/b.bin" content_b)
    as [_ H].
  destruct (H eq_refl eq_refl Hty eq_refl)
    as (id & row & n & H1 & _ & H3 & _ & H5 & _).
  exists id, row. auto.
Defined.

(** ** Parsing the text of a clock *)

Lemma digit_value_char (v : Z) :
  0 <= v <= 9 -> Strptime.digit_value (digit_char v) = v.
Proof.
  intros H.
  assert (v = 0 \/ v = 1 \/ v = 2 \/ v = 3 \/ v = 4 \/ v = 5 \/ v = 6
          \/ v = 7 \/ v = 8 \/ v = 9) as Hv by lia.
  repeat (destruct Hv as [->|Hv]; [reflexivity|]). subst. reflexivity.
Qed.

Lemma digit_char_not_space (v : Z) :
  0 <= v <= 9 -> Strptime.is_space (digit_char v) = false.
Proof.
  intros H.
  assert (v = 0 \/ v = 1 \/ v = 2 \/ v = 3 \/ v = 4 \/ v = 5 \/ v = 6
          \/ v = 7 \/ v = 8 \/ v = 9) as Hv by lia.
  repeat (destruct Hv as [->|Hv]; [reflexivity|]). subst. reflexivity.
Qed.

Lemma digit_on_char (lo hi v : Z) (rest : string) :
  0 <= v <= 9 ->
  Strptime.digit lo hi (String (digit_char v) rest)
  = if (lo <=? v) && (v <=? hi) then [(v, rest)] else [].
Proof.
  intros H. unfold Strptime.digit. now rewrite digit_value_char.
Qed.

Lemma two_digits_on_chars (lo1 hi1 lo2 hi2 a b : Z) (rest : string) :
  0 <= a <= 9 -> 0 <= b <= 9 ->
  Strptime.two_digits lo1 hi1 lo2 hi2
    (String (digit_char a) (String (digit_char b) rest))
  = if (lo1 <=? a) && (a <=? hi1) && ((lo2 <=? b) && (b <=? hi2))
    then [(10 * a + b, rest)] else [].
Proof.
  intros Ha Hb. unfold Strptime.two_digits, Strptime.pbind, Strptime.pret.
  rewrite digit_on_char by exact Ha.
  destruct ((lo1 <=? a) && (a <=? hi1)); [|reflexivity].
  cbn [flat_map fst snd andb].
  rewrite digit_on_char by exact Hb.
  destruct ((lo2 <=? b) && (b <=? hi2)); reflexivity.
Qed.

Lemma split_two (n : Z) :
  0 <= n <= 99 ->
  0 <= n / 10 <= 9 /\ 0 <= n mod 10 <= 9 /\ 10 * (n / 10) + n mod 10 = n.
Proof. intros H. Z.to_euclidean_division_equations. lia. Qed.

Ltac decide_ranges :=
  repeat match goal with
         | |- context [?x <=? ?y] => destruct (Z.leb_spec x y); try lia
         end;
  cbn [andb app]; try lia.

Lemma re_m_two_chars (n : Z) (rest : string) :
  1 <= n <= 12 ->
  exists tl, Strptime.re_m (two_chars n rest) = (n, rest) :: tl.
Proof.
  intros H. destruct (split_two n) as (Ha & Hb & Hn); [lia|].
  unfold Strptime.re_m, Strptime.alt, two_chars.
  rewrite !two_digits_on_chars by assumption. rewrite Hn.
  decide_ranges; eexists; reflexivity.
Qed.

Lemma re_d_two_chars (n : Z) (rest : string) :
  1 <= n <= 31 ->
  exists tl, Strptime.re_d (two_chars n rest) = (n, rest) :: tl.
Proof.
  intros H. destruct (split_two n) as (Ha & Hb & Hn); [lia|].
  unfold Strptime.re_d, Strptime.alt, two_chars.
  rewrite !two_digits_on_chars by assumption. rewrite Hn.
  decide_ranges; eexists; reflexivity.
Qed.

Lemma re_H_two_chars (n : Z) (rest : string) :
  0 <= n <= 23 ->
  exists tl, Strptime.re_H (two_chars n rest) = (n, rest) :: tl.
Proof.
  intros H. destruct (split_two n) as (Ha & Hb & Hn); [lia|].
  unfold Strptime.re_H, Strptime.alt, two_chars.
  rewrite !two_digits_on_chars by assumption. rewrite Hn.
  decide_ranges; eexists; reflexivity.
Qed.

Lemma re_M_two_chars (n : Z) (rest : string) :
  0 <= n <= 59 ->
  exists tl, Strptime.re_M (two_chars n rest) = (n, rest) :: tl.
Proof.
  intros H. destruct (split_two n) as (Ha & Hb & Hn); [lia|].
  unfold Strptime.re_M, Strptime.alt, two_chars.
  rewrite !two_digits_on_chars by assumption. rewrite Hn.
  decide_ranges; eexists; reflexivity.
Qed.

Lemma re_S_two_chars (n : Z) (rest : string) :
  0 <= n <= 59 ->
  exists tl, Strptime.re_S (two_chars n rest) = (n, rest) :: tl.
Proof.
  intros H. destruct (split_two n) as (Ha & Hb & Hn); [lia|].
  unfold Strptime.re_S, Strptime.alt, two_chars.
  rewrite !two_digits_on_chars by assumption. rewrite Hn.
  decide_ranges; eexists; reflexivity.
Qed.

Lemma re_Y_four_chars (n : Z) (rest : string) :
  0 <= n <= 9999 ->
  Strptime.re_Y (four_chars n rest) = [(n, rest)].
Proof.
  intros H.
  assert (Hd : 0 <= n / 1000 <= 9 /\ 0 <= n / 100 mod 10 <= 9
               /\ 0 <= n / 10 mod 10 <= 9 /\ 0 <= n mod 10 <= 9
               /\ 1000 * (n / 1000) + 100 * (n / 100 mod 10)
                  + 10 * (n / 10 mod 10) + n mod 10 = n).
  { Z.to_euclidean_division_equations. lia. }
  destruct Hd as (Ha & Hb & Hc & Hd & Hn).
  unfold Strptime.re_Y, Strptime.pbind, Strptime.pret, four_chars.
  rewrite digit_on_char by exact Ha.
  replace ((0 <=? n / 1000) && (n / 1000 <=? 9)) with true
    by (symmetry; apply andb_true_iff; split; apply Z.leb_le; lia).
  cbn [flat_map fst snd app]. rewrite digit_on_char by exact Hb.
  replace ((0 <=? n / 100 mod 10) && (n / 100 mod 10 <=? 9)) with true
    by (symmetry; apply andb_true_iff; split; apply Z.leb_le; lia).
  cbn [flat_map fst snd app]. rewrite digit_on_char by exact Hc.
  replace ((0 <=? n / 10 mod 10) && (n / 10 mod 10 <=? 9)) with true
    by (symmetry; apply andb_true_iff; split; apply Z.leb_le; lia).
  cbn [flat_map fst snd app]. rewrite digit_on_char by exact Hd.
  replace ((0 <=? n mod 10) && (n mod 10 <=? 9)) with true
    by (symmetry; apply andb_true_iff; split; apply Z.leb_le; lia).
  cbn [flat_map fst snd app]. now rewrite Hn.
Qed.

Lemma spaces_one (n : Z) (rest : string) :
  0 <= n <= 99 ->
  Strptime.spaces (String " " (two_chars n rest))
  = [(tt, two_chars n rest)].
Proof.
  intros H. destruct (split_two n H) as (Ha & _ & _).
  unfold two_chars. cbn [Strptime.spaces].
  change (Strptime.is_space " ") with true. cbv iota.
  rewrite digit_char_not_space by exact Ha. reflexivity.
Qed.

Lemma pbind_head {A B} (p : Strptime.Parser A) (k : A -> Strptime.Parser B)
    (s r : string) (a : A) (tl : list (A * string)) (x : B * string) :
  p s = (a, r) :: tl ->
  (exists tl', k a r = x :: tl') ->
  exists tl'', Strptime.pbind p k s = x :: tl''.
Proof.
  intros Hp [tl' Hk]. unfold Strptime.pbind. rewrite Hp.
  cbn [flat_map fst snd]. rewrite Hk. eexists. reflexivity.
Qed.

Lemma lit_head (c : ascii) (rest : string) :
  Strptime.lit c (String c rest) = [(tt, rest)].
Proof. unfold Strptime.lit. now rewrite Ascii.eqb_refl. Qed.

Lemma days_in_month_le (y m : Z) : Strptime.days_in_month y m <= 31.
Proof.
  unfold Strptime.days_in_month.
  destruct (m =? 2); [destruct (Strptime.is_leap y); lia|].
  destruct ((m =? 4) || (m =? 6) || (m =? 9) || (m =? 11)); lia.
Qed.

Lemma valid_ranges (d : datetime) :
  Strptime.valid d = true ->
  1 <= year d <= 9999 /\ 1 <= month d <= 12 /\ 1 <= day d <= 31
  /\ 0 <= hour d <= 23 /\ 0 <= minute d <= 59 /\ 0 <= second d <= 59.
Proof.
  unfold Strptime.valid. rewrite !andb_true_iff, !Z.leb_le.
  pose proof (days_in_month_le (year d) (month d)). lia.
Qed.

Lemma format_regex_clock_text (d : datetime) :
  Strptime.valid d = true ->
  exists tl,
    Strptime.format_regex (clock_text d)
    = (mkdt (year d) (month d) (day d) (hour d) (minute d) (second d) 0, "")
      :: tl.
Proof.
  intros Hv. destruct (valid_ranges d Hv) as (HY & Hm & Hd & HH & HM & HS).
  unfold Strptime.format_regex, clock_text.
  match goal with
  | |- context [two_chars (month d) ?rest] =>
      destruct (re_m_two_chars (month d) rest Hm) as [tl1 H1]
  end.
  eapply pbind_head; [exact H1|]. cbv beta.
  eapply pbind_head; [apply lit_head|]. cbv beta.
  match goal with
  | |- context [two_chars (day d) ?rest] =>
      destruct (re_d_two_chars (day d) rest Hd) as [tl2 H2]
  end.
  eapply pbind_head; [exact H2|]. cbv beta.
  eapply pbind_head; [apply lit_head|]. cbv beta.
  eapply pbind_head; [apply re_Y_four_chars; lia|]. cbv beta.
  eapply pbind_head; [apply spaces_one; lia|]. cbv beta.
  match goal with
  | |- context [two_chars (hour d) ?rest] =>
      destruct (re_H_two_chars (hour d) rest HH) as [tl3 H3]
  end.
  eapply pbind_head; [exact H3|]. cbv beta.
  eapply pbind_head; [apply lit_head|]. cbv beta.
  match goal with
  | |- context [two_chars (minute d) ?rest] =>
      destruct (re_M_two_chars (minute d) rest HM) as [tl4 H4]
  end.
  eapply pbind_head; [exact H4|]. cbv beta.
  eapply pbind_head; [apply lit_head|]. cbv beta.
  destruct (re_S_two_chars (second d) "" HS) as [tl5 H5].
  eapply pbind_head; [exact H5|]. cbv beta.
  unfold Strptime.pret. eexists. reflexivity.
Qed.



(** ** The tag names of a submission *)

Lemma split_no_sep (c : ascii) (s : string) :
  forall n, In n (split c s) -> no_char c n = true.
Proof.
  induction s as [|a s IH]; simpl.
  - intros n [<-|[]]. reflexivity.
  - destruct (Ascii.eqb a c) eqn:E.
    + intros n [<-|Hn]; [reflexivity|now apply IH].
    + pose proof (split_nonempty c s) as Hne.
      destruct (split c s) as [|h t]; [contradiction|].
      intros n [<-|Hn].
      * simpl. rewrite E. simpl. apply IH. now left.
      * apply IH. now right.
Qed.

Lemma no_char_remove_spaces (s : string) :
  no_char " " (remove_spaces s) = true.
Proof.
  induction s as [|a s IH]; [reflexivity|]. simpl.
  destruct (Ascii.eqb a " ") eqn:E; [exact IH|]. simpl. now rewrite E.
Qed.

Lemma split_keeps_no_char (c b : ascii) (s : string) :
  no_char b s = true ->
  forall n, In n (split c s) -> no_char b n = true.
Proof.
  induction s as [|a s IH]; simpl.
  - intros _ n [<-|[]]. reflexivity.
  - intros H. apply andb_true_iff in H. destruct H as [Ha Hs].
    specialize (IH Hs).
    destruct (Ascii.eqb a c).
    + intros n [<-|Hn]; [reflexivity|now apply IH].
    + pose proof (split_nonempty c s) as Hne.
      destruct (split c s) as [|h t]; [contradiction|].
      intros n [<-|Hn].
      * simpl. rewrite Ha. simpl. apply IH. now left.
      * apply IH. now right.
Qed.

Lemma split_length (c : ascii) (s : string) :
  List.length (split c s)
  = S (List.length (filter (Ascii.eqb c) (list_ascii_of_string s))).
Proof.
  induction s as [|a s IH]; [reflexivity|]. simpl.
  rewrite (Ascii.eqb_sym c a).
  destruct (Ascii.eqb a c); simpl.
  - now rewrite IH.
  - pose proof (split_nonempty c s) as Hne.
    destruct (split c s) as [|h t]; [contradiction|]. simpl in *. exact IH.
Qed.

(** X21. The tag names [add] and [add_machine] store: for every [tags]
    string that is not empty there is one name per comma and one more, none
    of them contains a space or a comma, and joining them with commas gives
    back the string with its spaces removed; an unset or empty string gives
    no name. *)
Theorem requested_names_shape :
  forall (tags : string),
    requested_names None = []
    /\ requested_names (Some "") = []
    /\ (tags <> "" ->
        List.length (requested_names (Some tags))
        = S (List.length (filter (Ascii.eqb ",")
                            (list_ascii_of_string (remove_spaces tags))))
        /\ (forall n, In n (requested_names (Some tags)) ->
                      no_char " " n = true /\ no_char "," n = true)
        /\ join_names (requested_names (Some tags)) = remove_spaces tags).
Proof.
  intros tags. split; [reflexivity|]. split; [reflexivity|].
  intros Hne. unfold requested_names, tag_names.
  apply String.eqb_neq in Hne. rewrite Hne.
  split; [apply split_length|]. split.
  - intros n Hn. split.
    + apply (split_keeps_no_char "," " " (remove_spaces tags));
        [apply no_char_remove_spaces|exact Hn].
    + now apply (split_no_sep "," (remove_spaces tags)).
  - generalize (remove_spaces tags). clear. intros s.
    induction s as [|a s IH]; [reflexivity|]. cbn [split].
    pose proof (split_nonempty "," s) as Hne.
    destruct (Ascii.eqb a ",") eqn:E.
    + apply Ascii.eqb_eq in E. subst a.
      destruct (split "," s) as [|h t]; [contradiction|].
      rewrite join_names_cons. cbn [append]. now rewrite IH.
    + destruct (split "," s) as [|h t]; [contradiction|].
      destruct t as [|h2 t].
      * unfold join_names in *. cbn [concat] in *. now rewrite IH.
      * rewrite join_names_cons in *. cbn [append]. now rewrite IH.
Qed.

Lemma requested_names_shape_witness :
  "x64, gui" <> ""
  /\ requested_names (Some "x64, gui") = ["x64"; "gui"]
  /\ join_names (requested_names (Some "x64, gui")) = "x64,gui".
Proof.
  assert (H : "x64, gui" <> "") by discriminate.
  split; [exact H|]. split; [reflexivity|].
  destruct (requested_names_shape "x64, gui") as (_ & _ & H3).
  exact (proj2 (proj2 (H3 H))).
Defined.

(** ** The order of consecutive claims *)

Lemma set_status_row_keeps_order_key (status : Status) (now : datetime)
    (r : Task.t) :
  Task.priority (set_status_row status now r) = Task.priority r
  /\ Task.added_on (set_status_row status now r) = Task.added_on r
  /\ Task.machine (set_status_row status now r) = Task.machine r.
Proof. destruct status; repeat split. Qed.

(** X22. Claims come out in queue order: with distinct ids and no store
    failure, of two consecutive [fetch] calls with [lock=True] for the same
    machine argument the second never returns a task of higher priority
    than the first, nor one of the same priority that was added earlier. *)
Theorem fetch_in_queue_order :
  forall (w : World) (machine : option string) (t1 t2 : datetime)
         (r1 r2 : Task.t),
    faults w = [] ->
    task_ids_unique (db w) ->
    result (fetch true machine t1) w = Return (Some r1) ->
    result (fetch true machine t2) (run (fetch true machine t1) w)
    = Return (Some r2) ->
    Task.priority r2 < Task.priority r1
    \/ (Task.priority r2 = Task.priority r1
        /\ dt_leb (Task.added_on r1) (Task.added_on r2) = true).
Proof.
  intros w machine t1 t2 r1 r2 Hf Hnd H1 H2.
  unfold result, run in *. rewrite (fetch_eq w machine t1 Hf Hnd) in H1, H2.
  destruct (fetch_query machine (db w)) as [a|] eqn:Ea; [|discriminate].
  destruct (fetch_query_pending _ _ _ Ea) as [Hina _].
  cbn [fst snd] in H1, H2. injection H1 as <-.
  set (w1 := with_db (update_task (Task.id a)
                        (set_status_row TASK_RUNNING t1) (db w)) w) in *.
  assert (Hnd1 : task_ids_unique (db w1)).
  { unfold task_ids_unique, w1, update_task. cbn [tasks db with_db].
    rewrite map_key_rewrite_row; [exact Hnd|].
    apply set_status_row_id. }
  rewrite (fetch_eq w1 machine t2 Hf Hnd1) in H2.
  destruct (fetch_query machine (db w1)) as [b|] eqn:Eb; [|discriminate].
  cbn [fst] in H2. injection H2 as <-.
  assert (Hb : In b (filter (fetch_filter machine) (tasks (db w1)))).
  { unfold fetch_query in Eb. exact (first_order_by_In _ _ _ Eb). }
  apply filter_In in Hb. destruct Hb as [Hinb Hfb].
  assert (Hpend : Task.status b = TASK_PENDING).
  { apply fetch_filter_eligible in Hfb. now destruct Hfb. }
  unfold w1, update_task in Hinb. cbn [tasks db with_db] in Hinb.
  destruct (rewrite_row_other Task.id _ a _ b Hnd Hina Hinb)
    as [->|[Hinb' _]]; [discriminate|].
  assert (Hle : priority_desc_added_on a b = true).
  { unfold fetch_query in Ea.
    eapply first_order_by_least; eauto.
    - apply priority_desc_added_on_total.
    - apply priority_desc_added_on_trans.
    - apply filter_In. auto. }
  destruct (set_status_row_keeps_order_key TASK_RUNNING t1 a) as (-> & -> & _).
  destruct (set_status_row_keeps_order_key TASK_RUNNING t2 b) as (-> & -> & _).
  unfold priority_desc_added_on in Hle.
  apply orb_true_iff in Hle. rewrite andb_true_iff in Hle.
  destruct Hle as [Hle|[Hle Hdt]]; [left; lia|right; split; [lia|exact Hdt]].
Qed.

Lemma fetch_in_queue_order_witness :
  faults queue_1_5_3 = []
  /\ task_ids_unique (db queue_1_5_3)
  /\ claimed Task.priority
       (result (fetch true (Some "") (at_second 4)) queue_1_5_3) = Some 5
  /\ claimed Task.priority
       (result (fetch true (Some "") (at_second 5))
               (run (fetch true (Some "") (at_second 4)) queue_1_5_3))
     = Some 3
  /\ (3 < 5 \/ (3 = 5 /\ dt_leb (at_second 2) (at_second 3) = true)).
Proof.
  assert (Hnd : task_ids_unique (db queue_1_5_3)).
  { unfold task_ids_unique. vm_compute. concrete_NoDup. }
  split; [reflexivity|]. split; [exact Hnd|]. split; [reflexivity|].
  split; [reflexivity|].
  refine (fetch_in_queue_order queue_1_5_3 (Some "") (at_second 4)
            (at_second 5)
            (set_status_row TASK_RUNNING (at_second 4)
               (task_row 2 "http://example.com/" (URL "http://example.com/")
                  (Args.set_priority (Some 5) Args.defaults) None None []
                  epoch (at_second 2)))
            (set_status_row TASK_RUNNING (at_second 5)
               (task_row 3 "http://example.com/" (URL "http://example.com/")
                  (Args.set_priority (Some 3) Args.defaults) None None []
                  epoch (at_second 3)))
            eq_refl Hnd _ _); vm_compute; reflexivity.
Defined.

(** ** lock_machine when the store fails *)

(** X23. With distinct ids and criteria that do not conflict, when a free
    candidate [m] exists: if the commit of the lease fails, [lock_machine]
    returns [None] and the store is unchanged; if the commit succeeds and
    the reload of the row fails, [lock_machine] also returns [None], but the
    lease has been written: [m] is locked in the store. *)
Theorem lock_machine_failed_store_calls :
  forall (w : World) (label platform : option string) (tags : list string)
         (now : datetime) (m : Machine.t),
    NoDup (map Machine.id (machines (db w))) ->
    truthy label && truthy platform = false ->
    truthy label && nonempty tags = false ->
    first (filter is_unlocked
             (filter (lock_machine_filter label platform tags)
                     (machines (db w)))) = Some m ->
    (faults w = [false; false; true] ->
     result (lock_machine label platform tags now) w = Return None
     /\ db (run (lock_machine label platform tags now) w) = db w)
    /\ (faults w = [false; false; false; true] ->
        result (lock_machine label platform tags now) w = Return None
        /\ get_machine (Machine.id m)
             (db (run (lock_machine label platform tags now) w))
           = Some (Machine.set_lock true now m)).
Proof.
  intros w label platform tags now m Hnd E1 E2 Hfirst.
  destruct (first_filter_Some_In _ _ _ Hfirst) as [Hin _].
  destruct (proj1 (filter_In _ _ _) Hin) as [Hin' _].
  assert (Hcount : exists n,
            List.length (filter (lock_machine_filter label platform tags)
                                (machines (db w))) = S n).
  { destruct (filter (lock_machine_filter label platform tags)
                     (machines (db w))); [destruct Hin|].
    eexists. reflexivity. }
  destruct Hcount as [n Hn].
  split; intros Hf; unfold result, run, lock_machine; rewrite E1, E2;
    unfold except_SQLAlchemyError, refresh_machine, commit, query, bind,
      store_call, get_db, ret, raise, logmsg;
    destruct w as [d f l fa]; simpl in Hf; subst fa; world_simpl;
    cbn [db machines] in *; rewrite Hn; world_simpl; rewrite Hfirst;
    world_simpl.
  - auto.
  - split; [reflexivity|].
    unfold get_machine, update_machine. cbn [machines].
    apply (find_key_updated Machine.id _ m (Machine.set_lock true now)
             (set_lock_id true now) Hnd Hin').
Qed.

Lemma lock_machine_failed_store_calls_witness :
  NoDup (map Machine.id (machines (db two_machines)))
  /\ first (filter is_unlocked
              (filter (lock_machine_filter None (Some "windows") [])
                      (machines (db two_machines))))
     = Some (vm 1 "win7" "windows" [] false)
  /\ result (lock_machine None (Some "windows") [] (at_second 1))
            (with_faults [false; false; false; true] two_machines)
     = Return None
  /\ option_map Machine.locked
       (get_machine 1
          (db (run (lock_machine None (Some "windows") [] (at_second 1))
                   (with_faults [false; false; false; true] two_machines))))
     = Some true.
Proof.
  assert (Hid : NoDup (map Machine.id (machines (db two_machines))))
    by (simpl; concrete_NoDup).
  destruct (lock_machine_failed_store_calls
              (with_faults [false; false; false; true] two_machines)
              None (Some "windows") [] (at_second 1)
              (vm 1 "win7" "windows" [] false) Hid eq_refl eq_refl eq_refl)
    as [_ H].
  destruct (H eq_refl) as [H1 H2].
  split; [exact Hid|]. split; [reflexivity|]. split; [exact H1|].
  cbn [Machine.id vm] in H2. rewrite H2. reflexivity.
Defined.
